(** * nyaa-go: the search client of [nyaa/nyaa.go]

    A shallow embedding of the query builder, the row extractor, the
    concurrent page aggregator and the search orchestrator, followed by the
    properties established for them. *)

From Stdlib Require Import ZArith String Ascii List Lia Bool DecimalString.
From Stdlib Require Import PrimFloat Uint63 SpecFloat FloatOps.
From Stdlib Require DecimalPos.
From stdpp Require Import base list.

Local Open Scope string_scope.
Local Open Scope Z_scope.

(** ** Errors

    [errors.New] / [errors.Errorf] / [fmt.Errorf] carry a message,
    [errors.Wrap] keeps its cause, [*strconv.NumError] keeps the function
    name, the offending text and the kind. *)

Inductive NumErrKind := ErrSyntax | ErrRange.

Inductive error :=
| errors_New (msg : string)
| errors_Wrap (cause : error) (msg : string)
| NumError (func num : string) (kind : NumErrKind).

(** [err.Error()] without the quoting of [NumError]'s text. *)
Fixpoint Error (e : error) : string :=
  match e with
  | errors_New msg => msg
  | errors_Wrap cause msg => msg ++ ": " ++ Error cause
  | NumError func num ErrSyntax =>
      "strconv." ++ func ++ ": parsing " ++ num ++ ": invalid syntax"
  | NumError func num ErrRange =>
      "strconv." ++ func ++ ": parsing " ++ num ++ ": value out of range"
  end.

(** [errors.Cause]: the innermost error of a chain of wraps. *)
Fixpoint Cause (e : error) : error :=
  match e with
  | errors_Wrap cause _ => Cause cause
  | _ => e
  end.

(** ** Strings and integers *)

(** [%d] and [strconv.FormatInt(_, 10)]. *)
Definition FormatInt (z : Z) : string := NilZero.string_of_int (Z.to_int z).

Definition byte_of (c : ascii) : Z := Z.of_nat (nat_of_ascii c).

Definition isDigit (c : ascii) : bool := (48 <=? byte_of c) && (byte_of c <=? 57).

Fixpoint HasPrefix (s prefix : string) : bool :=
  match prefix, s with
  | EmptyString, _ => true
  | String p prefix', String c s' => Ascii.eqb p c && HasPrefix s' prefix'
  | String _ _, EmptyString => false
  end.

Fixpoint string_drop (n : nat) (s : string) : string :=
  match n, s with
  | O, _ => s
  | S n', String _ s' => string_drop n' s'
  | S _, EmptyString => EmptyString
  end.

(** [strings.TrimPrefix]. *)
Definition TrimPrefix (s prefix : string) : string :=
  if HasPrefix s prefix then string_drop (String.length prefix) s else s.

(** Machine integers of a 64-bit platform. *)
Definition uint (z : Z) : Z := z mod 2 ^ 64.
Definition uint64 (z : Z) : Z := z mod 2 ^ 64.
Definition maxInt64 : Z := 2 ^ 63 - 1.
Definition minInt64 : Z := - 2 ^ 63.
Definition maxUint64 : Z := 2 ^ 64 - 1.

Module strconv.

(** The digit loop of [ParseUint(s, 10, 64)]: a byte that is no digit is a
    syntax error, an overflow is a range error at the byte where it
    happens. *)
Fixpoint parseDigits (s : string) (n : Z) : Z * option NumErrKind :=
  match s with
  | EmptyString => (n, None)
  | String c s' =>
      if negb (isDigit c) then (0, Some ErrSyntax)
      else if maxUint64 / 10 + 1 <=? n then (maxUint64, Some ErrRange)
      else
        let n1 := n * 10 + (byte_of c - 48) in
        if maxUint64 <? n1 then (maxUint64, Some ErrRange)
        else parseDigits s' n1
  end.

Definition ParseUint (s : string) : Z * option NumErrKind :=
  match s with
  | EmptyString => (0, Some ErrSyntax)
  | _ => parseDigits s 0
  end.

(** [ParseInt(s, 10, 0)] on a 64-bit platform. *)
Definition ParseInt (s : string) : Z * option NumErrKind :=
  match s with
  | EmptyString => (0, Some ErrSyntax)
  | String c s' =>
      let neg := Ascii.eqb c "-" in
      let digits := if Ascii.eqb c "+" || neg then s' else s in
      match ParseUint digits with
      | (_, Some ErrSyntax) => (0, Some ErrSyntax)
      | (un, _) =>
          if negb neg && (2 ^ 63 <=? un) then (maxInt64, Some ErrRange)
          else if neg && (2 ^ 63 <? un) then (minInt64, Some ErrRange)
          else (if neg then - un else un, None)
      end
  end.

(** [strconv.Atoi]: the value and the error, [nil] as [None]. *)
Definition Atoi (s : string) : Z * option error :=
  match ParseInt s with
  | (n, None) => (n, None)
  | (n, Some k) => (n, Some (NumError "Atoi" s k))
  end.

End strconv.

(** ** net/url, as far as the query builder uses it *)

Module url.

Definition hexDigit (n : Z) : ascii :=
  match String.get (Z.to_nat n) "0123456789ABCDEF" with
  | Some c => c
  | None => "0"%char
  end.

Inductive encoding := encodePathSegment | encodeQueryComponent.

Definition isAlnum (c : ascii) : bool :=
  let b := byte_of c in
  ((97 <=? b) && (b <=? 122)) || ((65 <=? b) && (b <=? 90)) || isDigit c.

Definition mem_ascii (c : ascii) (s : string) : bool :=
  existsb (Ascii.eqb c) (list_ascii_of_string s).

Definition shouldEscape (c : ascii) (mode : encoding) : bool :=
  if isAlnum c then false
  else if mem_ascii c "-_.~" then false
  else if mem_ascii c "$&+,/:;=?@" then
    match mode with
    | encodePathSegment => mem_ascii c "/;,?"
    | encodeQueryComponent => true
    end
  else true.

Fixpoint escape (s : string) (mode : encoding) : string :=
  match s with
  | EmptyString => EmptyString
  | String c s' =>
      if shouldEscape c mode then
        match mode, Ascii.eqb c " " with
        | encodeQueryComponent, true => String "+" (escape s' mode)
        | _, _ =>
            String "%" (String (hexDigit (byte_of c / 16))
              (String (hexDigit (byte_of c mod 16)) (escape s' mode)))
        end
      else String c (escape s' mode)
  end.

Definition PathEscape (s : string) : string := escape s encodePathSegment.
Definition QueryEscape (s : string) : string := escape s encodeQueryComponent.

(** [strings.Cut] at a byte: the text before its first occurrence, the
    text after it, and whether it occurs. *)
Fixpoint Cut (s : string) (sep : ascii) : string * string * bool :=
  match s with
  | EmptyString => (EmptyString, EmptyString, false)
  | String c s' =>
      if Ascii.eqb c sep then (EmptyString, s', true)
      else
        let '(before, after, found) := Cut s' sep in
        (String c before, after, found)
  end.

Definition unhex (c : ascii) : option Z :=
  let b := byte_of c in
  if isDigit c then Some (b - 48)
  else if (97 <=? b) && (b <=? 102) then Some (b - 97 + 10)
  else if (65 <=? b) && (b <=? 70) then Some (b - 65 + 10)
  else None.

(** [QueryUnescape]: [None] for a malformed escape. *)
Fixpoint QueryUnescape (s : string) : option string :=
  match s with
  | EmptyString => Some EmptyString
  | String "%" (String h (String l s')) =>
      match unhex h, unhex l, QueryUnescape s' with
      | Some a, Some b, Some r =>
          Some (String (ascii_of_nat (Z.to_nat (a * 16 + b))) r)
      | _, _, _ => None
      end
  | String "%" _ => None
  | String "+" s' => option_map (String " ") (QueryUnescape s')
  | String c s' => option_map (String c) (QueryUnescape s')
  end.

(** [url.Values]: the keys in increasing order, each with its values, so
    that [Encode], which sorts by key, is a plain traversal. *)
Definition Values := list (string * list string).

Fixpoint Set_ (v : Values) (key value : string) : Values :=
  match v with
  | [] => [(key, [value])]
  | (k, vs) :: v' =>
      match String.compare key k with
      | Eq => (k, [value]) :: v'
      | Lt => (key, [value]) :: (k, vs) :: v'
      | Gt => (k, vs) :: Set_ v' key value
      end
  end.

Fixpoint Add (v : Values) (key value : string) : Values :=
  match v with
  | [] => [(key, [value])]
  | (k, vs) :: v' =>
      match String.compare key k with
      | Eq => (k, (vs ++ [value])%list) :: v'
      | Lt => (key, [value]) :: (k, vs) :: v'
      | Gt => (k, vs) :: Add v' key value
      end
  end.

Fixpoint encodePairs (key : string) (vs : list string) : list string :=
  match vs with
  | [] => []
  | value :: vs' =>
      (QueryEscape key ++ "=" ++ QueryEscape value) :: encodePairs key vs'
  end.

Fixpoint joinAmp (l : list string) : string :=
  match l with
  | [] => EmptyString
  | [x] => x
  | x :: l' => x ++ "&" ++ joinAmp l'
  end.

Definition Encode (v : Values) : string :=
  joinAmp (concat (map (fun kv => encodePairs (fst kv) (snd kv)) v)).

Record URL := mkURL {
  Scheme : string;
  Host : string;
  Path : string;
  RawQuery : string;
  Fragment : string
}.

(** [getScheme]: the scheme and the rest, [None] for a missing scheme
    before the colon. *)
Fixpoint getScheme_from (s : string) (i : nat) (whole : string)
  : option (string * string) :=
  match s with
  | EmptyString => Some (EmptyString, whole)
  | String c s' =>
      let b := byte_of c in
      if ((97 <=? b) && (b <=? 122)) || ((65 <=? b) && (b <=? 90)) then
        getScheme_from s' (S i) whole
      else if isDigit c || mem_ascii c "+-." then
        match i with
        | O => Some (EmptyString, whole)
        | _ => getScheme_from s' (S i) whole
        end
      else if Ascii.eqb c ":" then
        match i with
        | O => None
        | _ => Some (String.substring 0 i whole, s')
        end
      else Some (EmptyString, whole)
  end.

Definition getScheme (rawURL : string) : option (string * string) :=
  getScheme_from rawURL 0 rawURL.

(** [url.Parse] for locations of the shape
    scheme://host/path?query#fragment without user information and
    without escapes in the path. *)
Definition Parse (rawURL : string) : URL * option error :=
  let '(u, frag, _) := Cut rawURL "#" in
  match getScheme u with
  | None =>
      (mkURL "" "" "" "" "",
       Some (errors_New ("parse " ++ rawURL ++ ": missing protocol scheme")))
  | Some (scheme, rest) =>
      let '(rest, query, _) := Cut rest "?" in
      if HasPrefix rest "//" then
        let '(authority, path, slash) := Cut (string_drop 2 rest) "/" in
        (mkURL scheme authority (if slash then String "/" path else "")
           query frag, None)
      else (mkURL scheme "" rest query frag, None)
  end.

Fixpoint parseQuery (pairs : nat) (query : string) (v : Values) : Values :=
  match pairs with
  | O => v
  | S pairs' =>
      match query with
      | EmptyString => v
      | _ =>
          let '(kv, query', _) := Cut query "&" in
          if mem_ascii ";" kv || String.eqb kv "" then
            parseQuery pairs' query' v
          else
            let '(key, value, _) := Cut kv "=" in
            match QueryUnescape key, QueryUnescape value with
            | Some k, Some x => parseQuery pairs' query' (Add v k x)
            | _, _ => parseQuery pairs' query' v
            end
      end
  end.

(** [u.Query()]: the parsed [RawQuery], malformed pairs dropped. *)
Definition Query (u : URL) : Values :=
  parseQuery (String.length (RawQuery u)) (RawQuery u) [].

(** [u.String()] for a location without user information. *)
Definition String_ (u : URL) : string :=
  (if String.eqb (Scheme u) "" then "" else Scheme u ++ ":")
  ++ (if String.eqb (Host u) "" && String.eqb (Path u) "" then ""
      else if String.eqb (Scheme u) "" && String.eqb (Host u) "" then ""
      else "//" ++ Host u)
  ++ (if negb (String.eqb (Path u) "") && negb (HasPrefix (Path u) "/")
         && negb (String.eqb (Host u) "") then "/" else "")
  ++ Path u
  ++ (if String.eqb (RawQuery u) "" then "" else "?" ++ RawQuery u)
  ++ (if String.eqb (Fragment u) "" then "" else "#" ++ Fragment u).

End url.

(** ** The data model *)

(** Modelled from the spec: the declarations of [Category], [SortBy],
    [SortOrder] and [SearchParameters] are not part of [nyaa.go]; the fields
    and their types are the ones [urlForParams] reads. *)
Definition Category := string.
Definition SortBy := string.
Definition SortOrder := string.

Record SearchParameters := mkSearchParameters {
  Filter : Z;
  Category_ : Category;
  SortBy_ : SortBy;
  SortOrder_ : SortOrder;
  User : string
}.

(** The zero value [SearchParameters{}]. *)
Definition SearchParameters_zero : SearchParameters :=
  mkSearchParameters 0 "" "" "" "".

Definition NyaaURL : string := "https://nyaa.si".

(** [urlForParams]. [baseURL] is computed and then left aside: the location
    that is parsed is [NyaaURL]. *)
Definition urlForParams (search : string) (parameters : SearchParameters)
  : string * option error :=
  let baseURL :=
    if negb (String.eqb (User parameters) "")
    then NyaaURL ++ "/user/" ++ url.PathEscape (User parameters)
    else NyaaURL in
  match url.Parse NyaaURL with
  | (_, Some err) => ("", Some (errors_Wrap err "error parsing nyaa url"))
  | (URL, None) =>
      let query := url.Query URL in
      let query := url.Set_ query "f" (FormatInt (Filter parameters)) in
      let query := url.Set_ query "c" (Category_ parameters) in
      let query := url.Set_ query "q" search in
      let query := url.Set_ query "s" (SortBy_ parameters) in
      let query := url.Set_ query "o" (SortOrder_ parameters) in
      let URL := url.mkURL (url.Scheme URL) (url.Host URL) (url.Path URL)
                   (url.Encode query) (url.Fragment URL) in
      (url.String_ URL, None)
  end.

(** ** golang.org/x/net/html nodes

    A node with its children in document order; [FirstChild] and [LastChild]
    are the ends of that list. *)

Inductive NodeType :=
| ErrorNode | TextNode | DocumentNode | ElementNode | CommentNode
| DoctypeNode | RawNode.

Record Attribute := mkAttribute {
  Namespace : string;
  Key : string;
  Val : string
}.

#[warnings="-register-all"]
Inductive Node :=
| mkNode (type : NodeType) (data : string) (attr : list Attribute)
         (children : list Node).

Definition Type_ (n : Node) : NodeType := let 'mkNode t _ _ _ := n in t.
Definition Data (n : Node) : string := let 'mkNode _ d _ _ := n in d.
Definition Attr (n : Node) : list Attribute := let 'mkNode _ _ a _ := n in a.
Definition Children (n : Node) : list Node := let 'mkNode _ _ _ c := n in c.
Definition FirstChild (n : Node) : option Node := head (Children n).
Definition LastChild (n : Node) : option Node := last (Children n).

Definition isTextNode (n : Node) : bool :=
  match Type_ n with TextNode => true | _ => false end.

(** [goquery.Selection]: the matched nodes. *)
Record Selection := mkSelection { Nodes : list Node }.

Definition Length (s : Selection) : nat := length (Nodes s).

(** The selection [Each] hands to its callback for one node. *)
Definition newSingleSelection (n : Node) : Selection := mkSelection [n].

(** ** External collaborators

    The libraries the package calls are taken as interfaces: the selector
    engine and the HTML parser of goquery, the size parser of go-units and
    the HTTP client. *)

Class Goquery := {
  Find : Selection -> string -> Selection;
  NewDocumentFromReader : string -> Selection * option error
}.

Class Units := {
  FromHumanSize : string -> Z * option error
}.

Record Response := mkResponse {
  StatusCode : Z;
  Status : string;
  Body : string
}.

Class HTTP := {
  http_Get : string -> Response * option error
}.

(** Modelled from the spec: the declaration of [Media] is not part of
    [nyaa.go]; the fields are the ones the row extractor assigns, with the
    types of its conversions ([uint], [uint64], [time.Time]). *)
Record Time := mkTime { sec : Z; nsec : Z }.

Definition time_Unix (s ns : Z) : Time := mkTime s ns.

Record Media := mkMedia {
  ID : Z;
  Name : string;
  MediaCategory : Category;
  Torrent : string;
  Magnet : string;
  Size : Z;
  Seeders : Z;
  Leechers : Z;
  Downloads : Z;
  CommentCount : Z;
  Date : Time
}.

(** The zero value of [time.Time]: the first instant of the year 1, UTC,
    which is 62135596800 seconds before [time.Unix(0, 0)]. *)
Definition Time_zero : Time := mkTime (-62135596800) 0.

(** The zero value [Media{}]. *)
Definition Media_zero : Media :=
  mkMedia 0 "" "" "" "" 0 0 0 0 0 Time_zero.

Definition set_ID (m : Media) (v : Z) : Media :=
  mkMedia v (Name m) (MediaCategory m) (Torrent m) (Magnet m) (Size m)
    (Seeders m) (Leechers m) (Downloads m) (CommentCount m) (Date m).
Definition set_Name (m : Media) (v : string) : Media :=
  mkMedia (ID m) v (MediaCategory m) (Torrent m) (Magnet m) (Size m)
    (Seeders m) (Leechers m) (Downloads m) (CommentCount m) (Date m).
Definition set_Category (m : Media) (v : Category) : Media :=
  mkMedia (ID m) (Name m) v (Torrent m) (Magnet m) (Size m)
    (Seeders m) (Leechers m) (Downloads m) (CommentCount m) (Date m).
Definition set_Torrent (m : Media) (v : string) : Media :=
  mkMedia (ID m) (Name m) (MediaCategory m) v (Magnet m) (Size m)
    (Seeders m) (Leechers m) (Downloads m) (CommentCount m) (Date m).
Definition set_Magnet (m : Media) (v : string) : Media :=
  mkMedia (ID m) (Name m) (MediaCategory m) (Torrent m) v (Size m)
    (Seeders m) (Leechers m) (Downloads m) (CommentCount m) (Date m).
Definition set_Size (m : Media) (v : Z) : Media :=
  mkMedia (ID m) (Name m) (MediaCategory m) (Torrent m) (Magnet m) v
    (Seeders m) (Leechers m) (Downloads m) (CommentCount m) (Date m).
Definition set_Seeders (m : Media) (v : Z) : Media :=
  mkMedia (ID m) (Name m) (MediaCategory m) (Torrent m) (Magnet m) (Size m)
    v (Leechers m) (Downloads m) (CommentCount m) (Date m).
Definition set_Leechers (m : Media) (v : Z) : Media :=
  mkMedia (ID m) (Name m) (MediaCategory m) (Torrent m) (Magnet m) (Size m)
    (Seeders m) v (Downloads m) (CommentCount m) (Date m).
Definition set_Downloads (m : Media) (v : Z) : Media :=
  mkMedia (ID m) (Name m) (MediaCategory m) (Torrent m) (Magnet m) (Size m)
    (Seeders m) (Leechers m) v (CommentCount m) (Date m).
Definition set_CommentCount (m : Media) (v : Z) : Media :=
  mkMedia (ID m) (Name m) (MediaCategory m) (Torrent m) (Magnet m) (Size m)
    (Seeders m) (Leechers m) (Downloads m) v (Date m).
Definition set_Date (m : Media) (v : Time) : Media :=
  mkMedia (ID m) (Name m) (MediaCategory m) (Torrent m) (Magnet m) (Size m)
    (Seeders m) (Leechers m) (Downloads m) (CommentCount m) v.

(** ** The row extractor *)

Fixpoint getAttributeValueByKey_in (attrs : list Attribute) (key : string)
  : string * bool :=
  match attrs with
  | [] => ("", false)
  | attribute :: attrs' =>
      if String.eqb (Key attribute) key then (Val attribute, true)
      else getAttributeValueByKey_in attrs' key
  end.

Definition getAttributeValueByKey (node : Node) (key : string)
  : string * bool :=
  getAttributeValueByKey_in (Attr node) key.

Definition hrefToCategory (href : string) : Category :=
  TrimPrefix href "/?c=".

Definition hrefToID (href : string) : Z * option error :=
  let '(id, err) := strconv.Atoi (TrimPrefix href "/view/") in
  (uint id, err).

(** A step that works on [*Media] returns the record as it left it, with
    the error or [nil]. *)
Definition Step := (Media * option error)%type.

Definition next_step (r : Step) (k : Media -> Step) : Step :=
  match r with
  | (media, Some err) => (media, Some err)
  | (media, None) => k media
  end.

Notation "media <- r ;; k" := (next_step r (fun media => k))
  (at level 100, r at next level, right associativity).

Definition parseMediaElementLinks (links : list Node) (media : Media) : Step :=
  match links with
  | [link0; link1; link2; link3] =>
      let '(href, ok) := getAttributeValueByKey link0 "href" in
      if negb ok then
        (media, Some (errors_New
           "unexpected layout: first link does not have an href"))
      else
      let media := set_Category media (hrefToCategory href) in
      let '(href, ok) := getAttributeValueByKey link1 "href" in
      if negb ok then
        (media, Some (errors_New
           "unexpected layout: second link does not have an href"))
      else
      match hrefToID href with
      | (_, Some err) => (media, Some (errors_Wrap err "error parsing ID"))
      | (id, None) =>
      let media := set_ID media id in
      let '(title, ok) := getAttributeValueByKey link1 "title" in
      if negb ok then
        (media, Some (errors_New
           "unexpected layout: second link does not have a title"))
      else
      let media := set_Name media title in
      let '(href, ok) := getAttributeValueByKey link2 "href" in
      if negb ok then
        (media, Some (errors_New
           "unexpected layout: third link does not have an href"))
      else
      let media := set_Torrent media href in
      let '(href, ok) := getAttributeValueByKey link3 "href" in
      if negb ok then
        (media, Some (errors_New
           "unexpected layout: fourth link does not have an href"))
      else
      let media := set_Magnet media href in
      (media, None)
      end
  | _ =>
      (media, Some (errors_New
         ("unexpected layout: expected 4 links, got "
          ++ FormatInt (Z.of_nat (length links)))))
  end.

(** The text of a node's first child, when that child is a text node. *)
Definition firstChildText (n : Node) : option string :=
  match FirstChild n with
  | Some c => if isTextNode c then Some (Data c) else None
  | None => None
  end.

Section Texts.
Context `{Units}.

Definition parseMediaElementTexts (nodes : list Node) (media : Media)
  : Step :=
  match nodes with
  | [_; _; _; node3; _; node5; node6; node7] =>
      match firstChildText node3 with
      | None =>
          (media, Some (errors_New
             "unexpected layout: expected node 4 to have a text first child"))
      | Some text =>
      match FromHumanSize text with
      | (_, Some err) => (media, Some (errors_Wrap err "error parsing size"))
      | (size, None) =>
      let media := set_Size media (uint64 size) in
      match firstChildText node5 with
      | None =>
          (media, Some (errors_New
             "unexpected layout: expected node 6 to have a text first child"))
      | Some text =>
      match strconv.Atoi text with
      | (_, Some err) => (media, Some (errors_Wrap err "error parsing se"))
      | (seeders, None) =>
      let media := set_Seeders media (uint seeders) in
      match firstChildText node6 with
      | None =>
          (media, Some (errors_New
             "unexpected layout: expected node 7 to have a text first child"))
      | Some text =>
      match strconv.Atoi text with
      | (_, Some err) =>
          (media, Some (errors_Wrap err "error parsing leechers"))
      | (leechers, None) =>
      let media := set_Leechers media (uint leechers) in
      match firstChildText node7 with
      | None =>
          (media, Some (errors_New
             "unexpected layout: expected node 8 to have a text first child"))
      | Some text =>
      match strconv.Atoi text with
      | (_, Some err) =>
          (media, Some (errors_Wrap err "error parsing downloads"))
      | (downloads, None) =>
      let media := set_Downloads media (uint downloads) in
      (media, None)
      end end end end end end end end
  | _ =>
      (media, Some (errors_New
         ("unexpected layout: expected 8 nodes, got "
          ++ FormatInt (Z.of_nat (length nodes)))))
  end.

End Texts.

(** [nodes[4]] of a slice that is too short is a run-time panic, which the
    caller rules out by running the cell-text step first. *)
Definition index_out_of_range : error :=
  errors_New "panic: runtime error: index out of range".

Definition parseMediaElementTimestamp (nodes : list Node) (media : Media)
  : Step :=
  match nodes !! 4%nat with
  | None => (media, Some index_out_of_range)
  | Some node4 =>
      let '(timestamp, ok) := getAttributeValueByKey node4 "data-timestamp" in
      if negb ok then
        (media, Some (errors_New
           "unexpected layout: expected node 5 to have a data-timestamp"))
      else
      match strconv.Atoi timestamp with
      | (_, Some err) => (media, Some (errors_Wrap err "error parsing timestamp"))
      | (timestampInt, None) =>
          (set_Date media (time_Unix timestampInt 0), None)
      end
  end.

Section Row.
Context `{Goquery} `{Units}.

Definition parseMediaElementCommentCount (elem : Selection) (media : Media)
  : Step :=
  let nodes := Nodes (Find elem ".comments") in
  match nodes with
  | [] => (media, None)
  | [node0] =>
      match LastChild node0 with
      | None =>
          (media, Some (errors_New
             "unexpected layout: expected comments elem to have a text last child"))
      | Some textChild =>
          if negb (isTextNode textChild) then
            (media, Some (errors_New
               "unexpected layout: expected comments elem to have a text last child"))
          else
          match strconv.Atoi (Data textChild) with
          | (_, Some err) =>
              (media, Some (errors_Wrap err "error parsing comment count"))
          | (commentCount, None) =>
              (set_CommentCount media (uint commentCount), None)
          end
      end
  | _ :: _ :: _ =>
      (media, Some (errors_New "found more than one comments element"))
  end.

Definition parseMediaElement (elem : Selection) : Step :=
  let media := Media_zero in
  let links := Nodes (Find elem "td a:not(.comments)") in
  media <- parseMediaElementLinks links media ;;
  let nodes := Nodes (Find elem "td") in
  media <- parseMediaElementTexts nodes media ;;
  media <- parseMediaElementTimestamp nodes media ;;
  media <- parseMediaElementCommentCount elem media ;;
  (media, None).

End Row.

(** ** github.com/docker/go-units: the size parser

    [FromHumanSize] is [parseSize] with the decimal (SI) table, its sibling
    [RAMInBytes] is [parseSize] with the binary table. The model follows the
    library on numerals made of digits and at most one point, with a
    mantissa below 2^53 and at most 15 digits after the point, where
    [strconv.ParseFloat] is one correctly rounded division; outside of them
    it gives no answer ([None]). *)

Module units.

Definition KB : Z := 1000.
Definition MB : Z := 1000 * KB.
Definition GB : Z := 1000 * MB.
Definition TB : Z := 1000 * GB.
Definition PB : Z := 1000 * TB.

Definition KiB : Z := 1024.
Definition MiB : Z := 1024 * KiB.
Definition GiB : Z := 1024 * MiB.
Definition TiB : Z := 1024 * GiB.
Definition PiB : Z := 1024 * TiB.

Definition unitMap := ascii -> option Z.

Definition decimalMap : unitMap := fun c =>
  if Ascii.eqb c "k" then Some KB else if Ascii.eqb c "m" then Some MB
  else if Ascii.eqb c "g" then Some GB else if Ascii.eqb c "t" then Some TB
  else if Ascii.eqb c "p" then Some PB else None.

Definition binaryMap : unitMap := fun c =>
  if Ascii.eqb c "k" then Some KiB else if Ascii.eqb c "m" then Some MiB
  else if Ascii.eqb c "g" then Some GiB else if Ascii.eqb c "t" then Some TiB
  else if Ascii.eqb c "p" then Some PiB else None.

Definition toLower (c : ascii) : ascii :=
  let b := byte_of c in
  if (65 <=? b) && (b <=? 90) then ascii_of_nat (Z.to_nat (b + 32)) else c.

Fixpoint ToLower (s : string) : string :=
  match s with
  | EmptyString => EmptyString
  | String c s' => String (toLower c) (ToLower s')
  end.

(** [strings.LastIndexAny]. *)
Fixpoint LastIndexAny_from (s chars : string) (i : nat) (found : option nat)
  : option nat :=
  match s with
  | EmptyString => found
  | String c s' =>
      LastIndexAny_from s' chars (S i)
        (if url.mem_ascii c chars then Some i else found)
  end.

Definition LastIndexAny (s chars : string) : option nat :=
  LastIndexAny_from s chars 0 None.

(** The digits of a numeral with the point taken out, and the number of
    digits after the point. *)
Fixpoint readDecimal (s : string) (mant : Z) (sawDigit : bool)
  (frac : option nat) : option (Z * nat) :=
  match s with
  | EmptyString =>
      if sawDigit then Some (mant, default 0%nat frac) else None
  | String c s' =>
      if isDigit c then
        readDecimal s' (mant * 10 + (byte_of c - 48)) true (option_map S frac)
      else if Ascii.eqb c "." then
        match frac with
        | None => readDecimal s' mant sawDigit (Some 0%nat)
        | Some _ => None
        end
      else None
  end.

Definition float64_of_Z (z : Z) : float := PrimFloat.of_uint63 (Uint63.of_Z z).

(** [int64(f)]: truncation towards zero when the result is in the range of
    [int64]. For every other [f] (too large, infinite or not a number) the
    Go specification leaves the result to the implementation; on amd64 the
    conversion instruction gives the smallest [int64], which is what the
    model returns. *)
Definition int64_of_float64 (f : float) : Z :=
  match Prim2SF f with
  | S754_zero _ => 0
  | S754_finite neg m e =>
      let a := if (0 <=? e) then Z.pos m * 2 ^ e else Z.pos m / 2 ^ (- e) in
      let v := if neg then - a else a in
      if (minInt64 <=? v) && (v <=? maxInt64) then v else minInt64
  | S754_infinity _ | S754_nan => minInt64
  end.

Definition ParseFloat (s : string) : option float :=
  match readDecimal s 0 false None with
  | Some (mant, frac) =>
      if (mant <? 2 ^ 53) && (Z.of_nat frac <=? 15)
      then Some (float64_of_Z mant / float64_of_Z (10 ^ Z.of_nat frac))%float
      else None
  | None => None
  end.

Definition badSuffix (sfx : string) : Z * option error :=
  (-1, Some (errors_New ("invalid suffix: '" ++ sfx ++ "'"))).

Definition parseSize (sizeStr : string) (uMap : unitMap)
  : option (Z * option error) :=
  match LastIndexAny sizeStr "01234567890. " with
  | None => Some (-1, Some (errors_New ("invalid size: '" ++ sizeStr ++ "'")))
  | Some sep =>
      let '(num, sfx) :=
        match String.get sep sizeStr with
        | Some " "%char =>
            (String.substring 0 sep sizeStr, string_drop (S sep) sizeStr)
        | _ =>
            (String.substring 0 (S sep) sizeStr, string_drop (S sep) sizeStr)
        end in
      match ParseFloat num with
      | None => None
      | Some size =>
          match sfx with
          | EmptyString => Some (int64_of_float64 size, None)
          | _ =>
              if (3 <? String.length sfx)%nat then Some (badSuffix sfx)
              else
                let sfx := ToLower sfx in
                match sfx with
                | String "b" EmptyString => Some (int64_of_float64 size, None)
                | String "b" _ => Some (badSuffix sfx)
                | String c rest =>
                    match uMap c with
                    | None => Some (badSuffix sfx)
                    | Some mul =>
                        let size := (size * float64_of_Z mul)%float in
                        match rest with
                        | EmptyString | String "b" EmptyString
                        | String "i" (String "b" EmptyString) =>
                            Some (int64_of_float64 size, None)
                        | _ => Some (badSuffix sfx)
                        end
                    end
                | EmptyString => Some (badSuffix sfx)
                end
          end
      end
  end.

Definition FromHumanSize (size : string) : option (Z * option error) :=
  parseSize size decimalMap.

Definition RAMInBytes (size : string) : option (Z * option error) :=
  parseSize size binaryMap.

End units.

(** ** The search page parser

    [parseSearchPageHTML] runs three threads: the caller, which starts the
    other two and then waits in [select]; the goroutine that waits for the
    [sync.WaitGroup] and then sends on [doneChan]; and the goroutine that
    walks the rows with [Each]. Both channels are unbuffered, so a send is
    one step together with the receive of the [select]. *)

Inductive MainPC :=
| MSpawnWaiter                (* before the first [go] statement *)
| MSpawnWorker                (* before the second [go] statement *)
| MSelect                     (* waiting in [select] *)
| MReturned (medias : list Media) (err : option error).

Inductive WaiterPC :=
| WtUnborn
| WtWait                      (* in [group.Wait()] *)
| WtSend                      (* in [doneChan <- struct{}{}] *)
| WtExit.

Inductive WorkerPC :=
| WkUnborn
| WkEach (i : nat)                     (* [Each] is about to call row [i] *)
| WkStore (i : nat) (media : Media)    (* before [medias[i] = media] *)
| WkDone (i : nat)                     (* before [group.Done()] *)
| WkSend (i : nat) (err : error)       (* in [errChan <- err] *)
| WkExit.

Record State := mkState {
  main : MainPC;
  waiter : WaiterPC;
  worker : WorkerPC;
  medias : list Media;        (* the shared slice *)
  group : Z                   (* the counter of the wait group *)
}.

Inductive Action := RunMain | RunWaiter | RunWorker | RecvErr | RecvDone.

Definition actions : list Action :=
  [RunMain; RunWaiter; RunWorker; RecvErr; RecvDone].

(** What [parseSearchPageHTML] has done for its caller. *)
Inductive Outcome :=
| Returned (medias : list Media) (err : option error)
| Blocked.

(** A scheduler picks one of the steps that are possible in a state. Every
    step brings the threads closer to their ends, so a run never meets a
    state twice and a choice by the state alone loses no interleaving. *)
Definition Scheduler := State -> nat.

Section Page.
Context `{Goquery} `{Units}.

(** The state after [make], [group.Add] and the creation of the channels.
    A row is stored at an index below the length of [medias], where stdpp's
    insert and Go's indexed assignment agree. *)
Definition initial (selection : Selection) : State :=
  mkState MSpawnWaiter WtUnborn WkUnborn
    (replicate (Length selection) Media_zero)
    (Z.of_nat (Length selection)).

Definition fire (selection : Selection) (a : Action) (s : State)
  : option State :=
  match a, main s, waiter s, worker s with
  | RunMain, MSpawnWaiter, _, _ =>
      Some (mkState MSpawnWorker WtWait (worker s) (medias s) (group s))
  | RunMain, MSpawnWorker, _, _ =>
      Some (mkState MSelect (waiter s) (WkEach 0) (medias s) (group s))
  | RunWaiter, _, WtWait, _ =>
      if group s =? 0
      then Some (mkState (main s) WtSend (worker s) (medias s) (group s))
      else None
  | RunWorker, _, _, WkEach i =>
      match Nodes selection !! i with
      | None => Some (mkState (main s) (waiter s) WkExit (medias s) (group s))
      | Some n =>
          match parseMediaElement (newSingleSelection n) with
          | (_, Some err) =>
              Some (mkState (main s) (waiter s)
                      (WkSend i (errors_Wrap err "error parsing media element"))
                      (medias s) (group s))
          | (media, None) =>
              Some (mkState (main s) (waiter s) (WkStore i media)
                      (medias s) (group s))
          end
      end
  | RunWorker, _, _, WkStore i media =>
      Some (mkState (main s) (waiter s) (WkDone i)
              (<[i := media]> (medias s)) (group s))
  | RunWorker, _, _, WkDone i =>
      Some (mkState (main s) (waiter s) (WkEach (S i)) (medias s)
              (group s - 1))
  | RecvErr, MSelect, _, WkSend i err =>
      Some (mkState (MReturned [] (Some err)) (waiter s) (WkEach (S i))
              (medias s) (group s))
  | RecvDone, MSelect, WtSend, _ =>
      Some (mkState (MReturned (medias s) None) WtExit (worker s)
              (medias s) (group s))
  | _, _, _, _ => None
  end.

Definition successors (selection : Selection) (s : State) : list State :=
  omap (fun a => fire selection a s) actions.

(** The run of the three threads under a scheduler, until the caller has
    returned, nothing can move, or the steps are used up; in the last two
    cases the caller is still blocked in [select]. *)
Fixpoint exec (selection : Selection) (choose : Scheduler) (steps : nat)
  (s : State) : State :=
  match main s, steps with
  | MReturned _ _, _ => s
  | _, O => s
  | _, S steps' =>
      let succs := successors selection s in
      match succs !! (choose s mod length succs)%nat with
      | Some s' => exec selection choose steps' s'
      | None => s
      end
  end.

Definition outcome (s : State) : Outcome :=
  match main s with
  | MReturned medias err => Returned medias err
  | _ => Blocked
  end.

(** No run takes more steps than this before the caller returns: three of
    the caller, two of the waiter and four for each row and one at the end
    of [Each]. *)
Definition step_bound (selection : Selection) : nat :=
  4 * Length selection + 6.

Definition parseSearchPageHTML (choose : Scheduler) (doc : Selection)
  : Outcome :=
  let selection := Find doc ".torrent-list tbody tr" in
  outcome (exec selection choose (step_bound selection) (initial selection)).

(** The rows read one after the other: the first error, or all records. *)
Fixpoint collect (rows : list Node) : list Media * option error :=
  match rows with
  | [] => ([], None)
  | n :: rows' =>
      match parseMediaElement (newSingleSelection n) with
      | (_, Some err) =>
          ([], Some (errors_Wrap err "error parsing media element"))
      | (media, None) =>
          match collect rows' with
          | (_, Some err) => ([], Some err)
          | (medias, None) => (media :: medias, None)
          end
      end
  end.

End Page.

(** ** The search orchestrator

    The calls that leave the process are recorded in the order in which
    they are made. *)

Inductive Event :=
| EvGet (URL : string)              (* [http.Get] *)
| EvParse (body : string)           (* [goquery.NewDocumentFromReader] *)
| EvClose.                          (* [rep.Body.Close()] *)

Definition nil_Document : Selection := mkSelection [].

Definition getOneParameterSet (parameters : list SearchParameters)
  : SearchParameters * option error :=
  let params :=
    match parameters with
    | [p] => p
    | _ => SearchParameters_zero
    end in
  if (1 <? length parameters)%nat then
    (SearchParameters_zero, Some (errors_New "only one parameter set accepted"))
  else (params, None).

Section Orchestrator.
Context `{Goquery} `{Units} `{HTTP}.

Definition requestHTML (search : string) (params : SearchParameters)
  : (Selection * option error) * list Event :=
  match urlForParams search params with
  | (_, Some err) =>
      ((nil_Document, Some (errors_Wrap err "error creating url for search")),
       [])
  | (URL, None) =>
      match http_Get URL with
      | (_, Some err) =>
          ((nil_Document, Some (errors_Wrap err "error requesting results")),
           [EvGet URL])
      | (rep, None) =>
          if (StatusCode rep <? 200) || (300 <=? StatusCode rep) then
            ((nil_Document,
              Some (errors_New ("non-OK HTTP status code: "
                                ++ FormatInt (StatusCode rep) ++ " "
                                ++ Status rep))),
             [EvGet URL; EvClose])
          else
            match NewDocumentFromReader (Body rep) with
            | (_, Some err) =>
                ((nil_Document,
                  Some (errors_Wrap err "error parsing response html")),
                 [EvGet URL; EvParse (Body rep); EvClose])
            | (doc, None) =>
                ((doc, None), [EvGet URL; EvParse (Body rep); EvClose])
            end
      end
  end.

Definition Search (choose : Scheduler) (search : string)
  (parameters : list SearchParameters) : Outcome * list Event :=
  match getOneParameterSet parameters with
  | (_, Some err) => (Returned [] (Some err), [])
  | (params, None) =>
      match requestHTML search params with
      | ((_, Some err), trace) =>
          (Returned [] (Some (errors_Wrap err "error getting the nyaa page")),
           trace)
      | ((doc, None), trace) =>
          match parseSearchPageHTML choose doc with
          | Returned _ (Some err) =>
              (Returned [] (Some (errors_Wrap err "error parsing html")), trace)
          | Returned medias None => (Returned medias None, trace)
          | Blocked => (Blocked, trace)
          end
      end
  end.

End Orchestrator.

(** ** Concrete collaborators

    A size parser, a selector engine and an HTTP client to run the package
    on concrete pages. *)

(** The size parser used to run the package: it answers as go-units does on
    the numerals the model of [units.parseSize] covers, and refuses every
    other text with an error of its own. It stands for the library only on
    the modelled numerals; what the library answers outside of them
    (exponents, signs, longer mantissas) is not modelled. *)
Definition go_units : Units :=
  {| FromHumanSize := fun size =>
       default (-1, Some (errors_New "size outside of the modelled numerals"))
         (units.FromHumanSize size) |}.

Module Sample.

Definition text (s : string) : Node := mkNode TextNode s [] [].

Definition elem (tag : string) (attrs : list (string * string))
  (children : list Node) : Node :=
  mkNode ElementNode tag
    (map (fun kv => mkAttribute "" (fst kv) (snd kv)) attrs) children.

Definition isElement (tag : string) (n : Node) : bool :=
  match Type_ n with
  | ElementNode => String.eqb (Data n) tag
  | _ => false
  end.

(** The words of a [class] attribute. *)
Fixpoint fields (s word : string) : list string :=
  match s with
  | EmptyString => if String.eqb word "" then [] else [word]
  | String c s' =>
      if Ascii.eqb c " " then
        if String.eqb word "" then fields s' ""
        else word :: fields s' ""
      else fields s' (word ++ String c EmptyString)
  end.

Definition hasClass (class : string) (n : Node) : bool :=
  let '(v, ok) := getAttributeValueByKey n "class" in
  ok && existsb (String.eqb class) (fields v "").

(** The descendants of a node in document order, each with its ancestors
    from the nearest on. *)
Fixpoint descendants (ancestors : list Node) (n : Node)
  : list (list Node * Node) :=
  let 'mkNode _ _ _ children := n in
  (fix each (cs : list Node) : list (list Node * Node) :=
     match cs with
     | [] => []
     | c :: cs' =>
         ((n :: ancestors, c) :: descendants (n :: ancestors) c ++ each cs')%list
     end) children.

Fixpoint underTbodyOfList (ancestors : list Node) : bool :=
  match ancestors with
  | [] => false
  | a :: ancestors' =>
      (isElement "tbody" a && existsb (hasClass "torrent-list") ancestors')
      || underTbodyOfList ancestors'
  end.

(** The four selectors of the package; ancestors are looked for inside the
    selection. *)
Definition matches (selector : string) (ancestors : list Node) (n : Node)
  : bool :=
  if String.eqb selector "td" then isElement "td" n
  else if String.eqb selector ".comments" then
    match Type_ n with ElementNode => hasClass "comments" n | _ => false end
  else if String.eqb selector "td a:not(.comments)" then
    isElement "a" n && negb (hasClass "comments" n)
    && existsb (isElement "td") ancestors
  else if String.eqb selector ".torrent-list tbody tr" then
    isElement "tr" n && underTbodyOfList ancestors
  else false.

Definition find (s : Selection) (selector : string) : Selection :=
  mkSelection
    (flat_map (fun root =>
       map snd (filter (fun d => matches selector (fst d) (snd d) = true)
                  (descendants [] root)))
       (Nodes s)).

Definition document (rows : list Node) : Selection :=
  mkSelection
    [mkNode DocumentNode "" []
       [elem "html" []
          [elem "body" []
             [elem "table" [("class", "table torrent-list")]
                [elem "thead" [] [elem "tr" [] []];
                 elem "tbody" [] rows]]]]].

(** A result row as the site renders it: the address of the title link,
    the size text and the comment links are left open. *)
Definition row (view size : string) (comments : list Node) : Node :=
  elem "tr" [("class", "default")]
    [elem "td" []
       [elem "a" [("href", "/?c=1_2"); ("title", "Anime - English-translated")]
          [elem "img" [("src", "/static/img/icons/nyaa/1_2.png")] []]];
     elem "td" [("colspan", "2")]
       (comments
        ++ [elem "a" [("href", view); ("title", "Some title")]
              [text "Some title"]])%list;
     elem "td" [("class", "text-center")]
       [elem "a" [("href", "/download/1.torrent")] [elem "i" [] []];
        elem "a" [("href", "magnet:?xt=urn:btih:0123")] [elem "i" [] []]];
     elem "td" [("class", "text-center")] [text size];
     elem "td" [("class", "text-center"); ("data-timestamp", "1700000000")]
       [text "2023-11-14 22:13"];
     elem "td" [("class", "text-center")] [text "10"];
     elem "td" [("class", "text-center")] [text "2"];
     elem "td" [("class", "text-center")] [text "345"]].

Definition commentsLink (count : string) : Node :=
  elem "a" [("href", "/view/1#comments"); ("class", "comments")]
    [elem "i" [("class", "fa fa-comments-o")] []; text count].

(** A row of seven cells whose first link has no address. *)
Definition shortRow : Node :=
  elem "tr" []
    [elem "td" [] [elem "a" [("title", "Anime")] []];
     elem "td" [] [elem "a" [("href", "/view/1"); ("title", "Some title")] []];
     elem "td" []
       [elem "a" [("href", "/download/1.torrent")] [];
        elem "a" [("href", "magnet:?xt=urn:btih:0123")] []];
     elem "td" [] [text "1.5 GiB"];
     elem "td" [("data-timestamp", "1700000000")] [];
     elem "td" [] [text "10"];
     elem "td" [] [text "2"]].

Definition pageBody : string := "<html>one result</html>".

(** The parser of the sample: the page of one row for [pageBody], an empty
    document for every other body. *)
Definition goquery : Goquery :=
  {| Find := find;
     NewDocumentFromReader := fun body =>
       (if String.eqb body pageBody
        then document [row "/view/1" "1.5 GiB" []]
        else mkSelection [mkNode DocumentNode "" [] []], None) |}.

(** A server that answers every request with [rep]. *)
Definition server (rep : Response) : HTTP :=
  {| http_Get := fun _ => (rep, None) |}.

(** Schedulers: the first possible step, and the last. *)
Definition firstStep : Scheduler := fun _ => 0%nat.
Definition lastStep : Scheduler := fun s => 4%nat.

End Sample.

(** ** The invariant of the aggregator

    What holds of the three threads as long as the caller has not returned,
    for the rows [rows] of the selection. *)

Section Invariant.
Context `{Goquery} `{Units}.

(** Every row below [i] extracts without error. *)
Definition good (rows : list Node) (i : nat) : Prop :=
  forall j n, (j < i)%nat -> rows !! j = Some n ->
    snd (parseMediaElement (newSingleSelection n)) = None.

(** The first [i] slots hold their rows' records, the others the zero
    value. *)
Definition filled (rows : list Node) (i : nat) (ms : list Media) : Prop :=
  ms = (map (fun n => fst (parseMediaElement (newSingleSelection n)))
          (take i rows)
        ++ replicate (length rows - i) Media_zero)%list.

Definition worker_inv (rows : list Node) (s : State) : Prop :=
  let N := Z.of_nat (length rows) in
  match worker s with
  | WkUnborn => filled rows 0 (medias s) /\ group s = N
  | WkEach i =>
      (i <= length rows)%nat /\ good rows i /\ filled rows i (medias s)
      /\ group s = N - Z.of_nat i
  | WkStore i media =>
      good rows i
      /\ (exists n, rows !! i = Some n
            /\ parseMediaElement (newSingleSelection n) = (media, None))
      /\ filled rows i (medias s) /\ group s = N - Z.of_nat i
  | WkDone i =>
      (i < length rows)%nat /\ good rows (S i)
      /\ filled rows (S i) (medias s) /\ group s = N - Z.of_nat i
  | WkSend i err =>
      good rows i
      /\ (exists n media cause,
            rows !! i = Some n
            /\ parseMediaElement (newSingleSelection n) = (media, Some cause)
            /\ err = errors_Wrap cause "error parsing media element")
      /\ group s = N - Z.of_nat i
  | WkExit =>
      good rows (length rows) /\ filled rows (length rows) (medias s)
      /\ group s = 0
  end.

Definition threads_inv (s : State) : Prop :=
  match main s with
  | MSpawnWaiter => waiter s = WtUnborn /\ worker s = WkUnborn
  | MSpawnWorker =>
      (waiter s = WtWait \/ waiter s = WtSend) /\ worker s = WkUnborn
  | MSelect =>
      (waiter s = WtWait \/ waiter s = WtSend) /\ worker s <> WkUnborn
  | MReturned _ _ => True
  end.

Definition Inv (rows : list Node) (s : State) : Prop :=
  match main s with
  | MReturned medias err => (medias, err) = collect rows
  | _ =>
      threads_inv s /\ worker_inv rows s
      /\ (waiter s = WtSend -> group s = 0)
  end.

End Invariant.

(** The number of steps that are left at most, for [N] rows. *)
Definition mu (N : nat) (s : State) : nat :=
  (match main s with
   | MSpawnWaiter => 3 | MSpawnWorker => 2 | MSelect => 1 | MReturned _ _ => 0
   end
   + match waiter s with
     | WtUnborn | WtWait => 2 | WtSend => 1 | WtExit => 0
     end
   + match worker s with
     | WkUnborn => 4 * N + 1
     | WkEach i => 4 * (N - i) + 1
     | WkStore i _ | WkSend i _ => 4 * (N - i)
     | WkDone i => 4 * (N - i) - 1
     | WkExit => 0
     end)%nat.

(** The error with which the link step reports an ID it cannot read. *)
Definition is_ID_error (err : error) : bool :=
  match err with
  | errors_Wrap _ msg => String.eqb msg "error parsing ID"
  | _ => false
  end.

(** The states the three threads can be in, whatever the order of their
    steps. *)
Inductive reachable `{Goquery} `{Units} (selection : Selection)
  : State -> Prop :=
| reachable_initial : reachable selection (initial selection)
| reachable_step (s s' : State) (a : Action) :
    reachable selection s -> fire selection a s = Some s' ->
    reachable selection s'.

(** ** What holds of the aggregator in every state

    Also after the caller has returned, while the goroutines go on. *)

Section Everywhere.
Context `{Goquery} `{Units}.

(** The row extracts without error. *)
Definition extracts (n : Node) : bool :=
  match snd (parseMediaElement (newSingleSelection n)) with
  | None => true
  | Some _ => false
  end.

(** The number of rows below [i] that extract. *)
Definition extracted (rows : list Node) (i : nat) : Z :=
  Z.of_nat (length (filter (fun n => extracts n = true) (take i rows))).

(** A slot holds the zero value or the record of its own row. *)
Definition own_slots (rows : list Node) (ms : list Media) : Prop :=
  forall j media, ms !! j = Some media ->
    media = Media_zero
    \/ exists n, rows !! j = Some n
                 /\ parseMediaElement (newSingleSelection n) = (media, None).

Definition Safe (rows : list Node) (s : State) : Prop :=
  let N := Z.of_nat (length rows) in
  length (medias s) = length rows
  /\ own_slots rows (medias s)
  /\ (waiter s = WtSend \/ waiter s = WtExit -> group s = 0)
  /\ (main s = MSpawnWaiter \/ main s = MSpawnWorker -> worker s = WkUnborn)
  /\ match worker s with
     | WkUnborn => group s = N
     | WkEach i => (i <= length rows)%nat /\ group s = N - extracted rows i
     | WkStore i media =>
         (exists n, rows !! i = Some n
            /\ parseMediaElement (newSingleSelection n) = (media, None))
         /\ group s = N - extracted rows i
     | WkDone i =>
         (exists n, rows !! i = Some n /\ extracts n = true)
         /\ group s = N - extracted rows i
     | WkSend i _ =>
         (exists n, rows !! i = Some n /\ extracts n = false)
         /\ group s = N - extracted rows i
     | WkExit => group s = N - extracted rows (length rows)
     end.

End Everywhere.

(** The steps of a list of actions, one after the other; an action that is
    not possible in its state is passed over. *)
Fixpoint run `{Goquery} `{Units} (selection : Selection)
  (schedule : list Action) (s : State) : State :=
  match schedule with
  | [] => s
  | a :: schedule' =>
      run selection schedule'
        (match fire selection a s with Some s' => s' | None => s end)
  end.

(** The bytes [url.QueryEscape] writes: letters, digits, the four marks it
    leaves alone, the percent sign of an escape and the plus sign of a
    space. *)
Definition queryByte (c : ascii) : bool :=
  url.isAlnum c || url.mem_ascii c "-_.~%+".

(** The number that the decimal digits [d] continue from [n]. *)
Fixpoint digits_value (d : Decimal.uint) (n : Z) : Z :=
  match d with
  | Decimal.Nil => n
  | Decimal.D0 l => digits_value l (n * 10 + 0)
  | Decimal.D1 l => digits_value l (n * 10 + 1)
  | Decimal.D2 l => digits_value l (n * 10 + 2)
  | Decimal.D3 l => digits_value l (n * 10 + 3)
  | Decimal.D4 l => digits_value l (n * 10 + 4)
  | Decimal.D5 l => digits_value l (n * 10 + 5)
  | Decimal.D6 l => digits_value l (n * 10 + 6)
  | Decimal.D7 l => digits_value l (n * 10 + 7)
  | Decimal.D8 l => digits_value l (n * 10 + 8)
  | Decimal.D9 l => digits_value l (n * 10 + 9)
  end.

(** ** The command

    [main] searches for the empty text without a parameter set, and prints
    the number of results or logs the error and exits. *)

Inductive Exit :=
| Printed (line : string)          (* [fmt.Println(len(media))] *)
| Fatal (err : error)              (* [log.Fatal(err)] *)
| Waiting.                         (* [Search] has not returned *)

Definition main_ `{Goquery} `{Units} `{HTTP} (choose : Scheduler)
  : Exit * list Event :=
  match Search choose "" [] with
  | (Returned _ (Some err), trace) => (Fatal err, trace)
  | (Returned media None, trace) =>
      (Printed (FormatInt (Z.of_nat (length media))), trace)
  | (Blocked, trace) => (Waiting, trace)
  end.

(** * Properties *)

(** ** Values on concrete inputs *)

Example urlForParams_naruto :
  urlForParams "naruto" (mkSearchParameters 0 "1_2" "date" "desc" "")
  = ("https://nyaa.si?c=1_2&f=0&o=desc&q=naruto&s=date", None).
Proof. reflexivity. Qed.

Example urlForParams_user :
  urlForParams "a b/c" (mkSearchParameters 2 "0_0" "" "" "bob")
  = ("https://nyaa.si?c=0_0&f=2&o=&q=a+b%2Fc&s=", None).
Proof. reflexivity. Qed.

Example FromHumanSize_32_5_kB :
  units.FromHumanSize "32.5kB" = Some (32500, None).
Proof. vm_compute. reflexivity. Qed.

Example FromHumanSize_GiB :
  units.FromHumanSize "1.5 GiB" = Some (1500000000, None).
Proof. vm_compute. reflexivity. Qed.

Example RAMInBytes_GiB :
  units.RAMInBytes "1.5 GiB" = Some (1610612736, None).
Proof. vm_compute. reflexivity. Qed.

(** A size above the range of [int64]: the conversion of amd64. *)
Example FromHumanSize_above_int64 :
  units.FromHumanSize "10000 PB" = Some (-9223372036854775808, None).
Proof. vm_compute. reflexivity. Qed.

(** ** The aggregator refines the sequential reading of the rows *)

Section CollectProofs.
Context `{Goquery} `{Units}.

Lemma collect_ok (l : list Node) :
  good l (length l) ->
  collect l
  = (map (fun n => fst (parseMediaElement (newSingleSelection n))) l, None).
Proof.
  induction l as [|n l IH]; intros Hg; simpl; [reflexivity|].
  assert (Hn : snd (parseMediaElement (newSingleSelection n)) = None).
  { apply (Hg 0%nat n); simpl; [lia | reflexivity]. }
  destruct (parseMediaElement (newSingleSelection n)) as [m e].
  simpl in Hn; subst e. rewrite IH; [reflexivity|].
  intros j n' Hj Hl. apply (Hg (S j) n'); simpl; [lia | exact Hl].
Qed.

Lemma collect_first_error (l : list Node) (k : nat) (n : Node) (cause : error) :
  l !! k = Some n ->
  snd (parseMediaElement (newSingleSelection n)) = Some cause ->
  good l k ->
  collect l = ([], Some (errors_Wrap cause "error parsing media element")).
Proof.
  revert k. induction l as [|n0 l IH]; intros k Hk He Hg; [discriminate|].
  destruct k as [|k]; simpl in *.
  - injection Hk as ->.
    destruct (parseMediaElement (newSingleSelection n)) as [m e].
    simpl in He; subst e. reflexivity.
  - assert (Hn : snd (parseMediaElement (newSingleSelection n0)) = None).
    { apply (Hg 0%nat n0); simpl; [lia | reflexivity]. }
    destruct (parseMediaElement (newSingleSelection n0)) as [m e].
    simpl in Hn; subst e.
    rewrite (IH k Hk He); [reflexivity|].
    intros j n' Hj Hl. apply (Hg (S j) n'); simpl; [lia | exact Hl].
Qed.

Lemma good_S (l : list Node) (i : nat) (n : Node) :
  good l i -> l !! i = Some n ->
  snd (parseMediaElement (newSingleSelection n)) = None ->
  good l (S i).
Proof.
  intros Hg Hl Hn j n' Hj Hl'.
  destruct (decide (j = i)) as [->|Hne].
  - rewrite Hl in Hl'. injection Hl' as <-. exact Hn.
  - apply (Hg j n'); [lia | exact Hl'].
Qed.

Lemma filled_insert (l : list Node) (i : nat) (n : Node) (ms : list Media) :
  l !! i = Some n -> filled l i ms ->
  filled l (S i)
    (<[i := fst (parseMediaElement (newSingleSelection n))]> ms).
Proof.
  unfold filled. intros Hl ->.
  assert (Hi : (i < length l)%nat) by (eapply lookup_lt_Some; eauto).
  rewrite insert_app_r_alt; rewrite length_map, length_take; [|lia].
  replace (i - i `min` length l)%nat with 0%nat by lia.
  replace (length l - i)%nat with (S (length l - S i)) by lia.
  simpl. rewrite (take_S_r l i n Hl), map_app, <- app_assoc. reflexivity.
Qed.

Lemma filled_all (l : list Node) (ms : list Media) :
  filled l (length l) ms ->
  ms = map (fun n => fst (parseMediaElement (newSingleSelection n))) l.
Proof.
  unfold filled. intros ->.
  rewrite firstn_all, Nat.sub_diag. simpl. apply app_nil_r.
Qed.

End CollectProofs.

Section PageProofs.
Context `{Goquery} `{Units}.
Variable selection : Selection.

Local Abbreviation rows := (Nodes selection).
Local Abbreviation N := (length (Nodes selection)).
Local Abbreviation P n := (parseMediaElement (newSingleSelection n)).

Lemma Inv_initial : Inv rows (initial selection).
Proof.
  unfold Inv, initial, threads_inv, worker_inv, filled; simpl.
  repeat split; try discriminate.
  rewrite Nat.sub_0_r. reflexivity.
Qed.

Lemma mu_initial : mu N (initial selection) = step_bound selection.
Proof. unfold mu, initial, step_bound, Length; simpl. lia. Qed.

Lemma lookup_None_all (l : list Node) (i : nat) :
  (i <= length l)%nat -> l !! i = None -> i = length l.
Proof. intros Hi Hl. apply lookup_ge_None in Hl. lia. Qed.

Lemma fire_Inv (a : Action) (s s' : State) :
  Inv rows s -> fire selection a s = Some s' ->
  match main s with MReturned _ _ => False | _ => True end ->
  Inv rows s' /\ (mu N s' < mu N s)%nat.
Proof.
  destruct s as [m wt wk ms g].
  unfold Inv, threads_inv, worker_inv, mu, fire; simpl.
  intros HI Hf Hm.
  destruct m; try contradiction; clear Hm;
    destruct HI as ((Hwt & Hwk) & HW & HG).
  - (* before the first [go] *)
    subst wt wk. destruct HW as (HF & Hg).
    destruct a; try discriminate. injection Hf as <-; simpl.
    split; [|lia]. repeat split; intros; try discriminate; auto.
  - (* before the second [go] *)
    subst wk. destruct HW as (HF & Hg).
    destruct a; try discriminate.
    + injection Hf as <-; simpl. split; [|lia].
      repeat split; intros; try discriminate; try lia; auto.
      intros j n Hj; lia.
    + destruct Hwt as [-> | ->]; try discriminate.
      destruct (Z.eqb_spec g 0); try discriminate.
      injection Hf as <-; simpl. split; [|lia].
      repeat split; intros; try discriminate; auto.
  - (* in [select] *)
    destruct a; try discriminate.
    + (* the waiter leaves [group.Wait] *)
      destruct Hwt as [-> | ->]; try discriminate.
      destruct (Z.eqb_spec g 0); try discriminate.
      injection Hf as <-; simpl. split.
      * repeat split; auto.
      * destruct wk; lia.
    + (* the worker moves *)
      assert (Hf' :
        match wk with
        | WkEach i =>
            match rows !! i with
            | Some n =>
                match P n with
                | (_, Some err) =>
                    Some (mkState MSelect wt
                       (WkSend i (errors_Wrap err "error parsing media element"))
                       ms g)
                | (media, None) => Some (mkState MSelect wt (WkStore i media) ms g)
                end
            | None => Some (mkState MSelect wt WkExit ms g)
            end
        | WkStore i media =>
            Some (mkState MSelect wt (WkDone i) (<[i:=media]> ms) g)
        | WkDone i => Some (mkState MSelect wt (WkEach (S i)) ms (g - 1))
        | _ => None
        end = Some s').
      { destruct wt, wk; exact Hf. }
      clear Hf. destruct wk as [|i|i media|i|i err|]; try discriminate.
      * destruct HW as (Hi & Hgood & Hfill & Hg).
        destruct (rows !! i) as [n|] eqn:Hl.
        -- assert (Hlt : (i < N)%nat) by (eapply lookup_lt_Some; eauto).
           destruct (P n) as [media [err|]] eqn:HP;
             injection Hf' as <-; simpl; (split; [|lia]);
             (split; [split; [exact Hwt | discriminate]|]);
             (split; [|exact HG]).
           ++ split; [exact Hgood|]. split; [|exact Hg].
              exists n, media, err. auto.
           ++ split; [exact Hgood|]. split; [|split; [exact Hfill | exact Hg]].
              exists n. auto.
        -- injection Hf' as <-; simpl. split; [|lia].
           apply lookup_None_all in Hl; [|exact Hi]. simpl in Hl. subst i.
           repeat split; auto; try discriminate. lia.
      * destruct HW as (Hgood & (n & Hl & HP) & Hfill & Hg).
        assert (Hlt : (i < N)%nat) by (eapply lookup_lt_Some; eauto).
        injection Hf' as <-; simpl. split; [|lia].
        split; [split; [exact Hwt | discriminate]|].
        split; [|exact HG].
        split; [exact Hlt|]. split.
        -- eapply good_S; eauto. rewrite HP. reflexivity.
        -- split; [|exact Hg].
           replace media with (fst (parseMediaElement (newSingleSelection n)))
             by (rewrite HP; reflexivity).
           apply filled_insert; assumption.
      * destruct HW as (Hlt & Hgood & Hfill & Hg).
        injection Hf' as <-; simpl. split; [|lia].
        split; [split; [exact Hwt | discriminate]|].
        split.
        -- split; [lia|]. split; [exact Hgood|]. split; [exact Hfill | lia].
        -- intros Hs. specialize (HG Hs). lia.
    + (* the error is received *)
      destruct wk as [|i|i media|i|i err|]; try (destruct wt; discriminate).
      assert (Hs' : s' = mkState (MReturned [] (Some err)) wt (WkEach (S i)) ms g).
      { destruct wt; injection Hf as <-; reflexivity. }
      subst s'; simpl.
      destruct HW as (Hgood & (n & media & cause & Hl & HP & ->) & Hg).
      assert (Hlt : (i < N)%nat) by (eapply lookup_lt_Some; eauto).
      split; [|destruct wt; lia].
      symmetry. eapply collect_first_error; eauto.
      rewrite HP. reflexivity.
    + (* the completion is received *)
      destruct wt; try discriminate.
      injection Hf as <-; simpl. specialize (HG eq_refl).
      split; [|destruct wk; lia].
      destruct wk as [|i|i media|i|i err|].
      * contradiction.
      * destruct HW as (Hi & Hgood & Hfill & Hg).
        assert (i = N) by lia. subst i.
        rewrite (filled_all _ _ Hfill). symmetry. apply collect_ok. exact Hgood.
      * destruct HW as (_ & (n & Hl & _) & _ & Hg).
        apply lookup_lt_Some in Hl. simpl in Hl. lia.
      * destruct HW as (Hlt & _ & _ & Hg). lia.
      * destruct HW as (_ & (n & ? & ? & Hl & _) & Hg).
        apply lookup_lt_Some in Hl. simpl in Hl. lia.
      * destruct HW as (Hgood & Hfill & _).
        rewrite (filled_all _ _ Hfill). symmetry. apply collect_ok. exact Hgood.
Qed.

Lemma successors_fire (s s' : State) :
  s' ∈ successors selection s -> exists a, fire selection a s = Some s'.
Proof.
  unfold successors. intros Hin.
  apply list_elem_of_omap in Hin as (a & _ & Hf). eauto.
Qed.

Lemma fire_successors (a : Action) (s s' : State) :
  fire selection a s = Some s' -> successors selection s <> [].
Proof.
  intros Hf Hnil.
  assert (Hin : s' ∈ successors selection s).
  { unfold successors. apply list_elem_of_omap. exists a. split; [|exact Hf].
    destruct a; unfold actions; repeat constructor. }
  rewrite Hnil in Hin. inversion Hin.
Qed.

(** Before the caller has returned, some thread can always move. *)
Lemma progress (s : State) :
  Inv rows s ->
  match main s with MReturned _ _ => False | _ => True end ->
  successors selection s <> [].
Proof.
  destruct s as [m wt wk ms g].
  unfold Inv, threads_inv, worker_inv; simpl. intros HI Hm.
  destruct m; try contradiction; clear Hm;
    destruct HI as ((Hwt & Hwk) & HW & HG).
  - eapply (fire_successors RunMain). reflexivity.
  - eapply (fire_successors RunMain). reflexivity.
  - destruct wk as [|i|i media|i|i err|].
    + contradiction.
    + destruct (rows !! i) as [n|] eqn:Hl.
      * destruct (P n) as [media [err|]] eqn:HP;
          eapply (fire_successors RunWorker); unfold fire; simpl;
          rewrite Hl, HP;
          destruct wt; reflexivity.
      * eapply (fire_successors RunWorker); unfold fire; simpl;
          rewrite Hl; destruct wt; reflexivity.
    + eapply (fire_successors RunWorker); unfold fire; simpl;
        destruct wt; reflexivity.
    + eapply (fire_successors RunWorker); unfold fire; simpl;
        destruct wt; reflexivity.
    + eapply (fire_successors RecvErr); unfold fire; simpl;
        destruct wt; reflexivity.
    + destruct HW as (_ & _ & ->).
      destruct Hwt as [-> | ->].
      * eapply (fire_successors RunWaiter). reflexivity.
      * eapply (fire_successors RecvDone). reflexivity.
Qed.

(** Under every scheduler the caller returns within the step bound, with
    the result of reading the rows one after the other. *)
Lemma exec_collect (choose : Scheduler) (steps : nat) (s : State) :
  Inv rows s -> (mu N s <= steps)%nat ->
  outcome (exec selection choose steps s)
  = Returned (fst (collect rows)) (snd (collect rows)).
Proof.
  revert s. induction steps as [|steps IH]; intros s HI Hmu.
  - destruct s as [m wt wk ms g]. destruct m; unfold mu in Hmu; simpl in Hmu;
      try lia.
    unfold Inv in HI; simpl in HI. unfold outcome; simpl.
    rewrite <- HI. reflexivity.
  - destruct (main s) eqn:Hm.
    4: { destruct s as [m wt wk ms g]; simpl in Hm; subst m.
         unfold Inv in HI; simpl in HI. unfold outcome; simpl.
         rewrite <- HI. reflexivity. }
    all: assert (Hne : successors selection s <> [])
        by (apply progress; [exact HI | rewrite Hm; exact I]);
      assert (Hex : exec selection choose (S steps) s
                = match successors selection s !!
                     (choose s mod length (successors selection s))%nat with
                  | Some s' => exec selection choose steps s'
                  | None => s
                  end)
        by (destruct s as [m wt wk ms g]; simpl in Hm; subst m; reflexivity);
      rewrite Hex; clear Hex;
      destruct (successors selection s !!
                  (choose s mod length (successors selection s))%nat)
        as [s'|] eqn:Hl;
      [ assert (Hin : s' ∈ successors selection s)
          by (apply list_elem_of_lookup; eauto);
        apply successors_fire in Hin as (a & Hf);
        destruct (fire_Inv a s s' HI Hf) as (HI' & Hlt);
          [rewrite Hm; exact I|];
        apply IH; [exact HI' | lia]
      | exfalso; apply lookup_ge_None in Hl;
        assert (0 < length (successors selection s))%nat
          by (destruct (successors selection s); [congruence | simpl; lia]);
        pose proof (Nat.mod_upper_bound (choose s)
                      (length (successors selection s))); lia ].
Qed.

(** Once the caller has returned, what it has returned stays. *)
Lemma fire_returned (a : Action) (s s' : State) (ms : list Media)
  (err : option error) :
  main s = MReturned ms err -> fire selection a s = Some s' ->
  main s' = MReturned ms err.
Proof.
  destruct s as [m wt wk ms' g]; simpl. intros ->. unfold fire; simpl.
  destruct a, wt, wk; try discriminate;
    repeat match goal with
    | |- context [match ?x with _ => _ end] => destruct x
    | |- context [if ?x then _ else _] => destruct x
    end; try discriminate; intros [= <-]; reflexivity.
Qed.

(** In every order of the steps, what the caller returns is the result of
    reading the rows one after the other. *)
Lemma reachable_Inv (s : State) : reachable selection s -> Inv rows s.
Proof.
  induction 1 as [|s s' a Hr IH Hf]; [apply Inv_initial|].
  destruct (main s) as [| | |ms err] eqn:Hm.
  4: { pose proof (fire_returned a s s' ms err Hm Hf) as Hm'.
       unfold Inv in *. rewrite Hm in IH. rewrite Hm'. exact IH. }
  all: apply (fire_Inv a s s' IH Hf); rewrite Hm; exact I.
Qed.

Theorem parseSearchPageHTML_collect (choose : Scheduler) (doc : Selection) :
  selection = Find doc ".torrent-list tbody tr" ->
  parseSearchPageHTML choose doc
  = Returned (fst (collect rows)) (snd (collect rows)).
Proof.
  intros Hsel. unfold parseSearchPageHTML. rewrite <- Hsel.
  apply exec_collect; [apply Inv_initial | rewrite mu_initial; lia].
Qed.

End PageProofs.

(** ** What a successful step has read *)

Lemma parseMediaElementLinks_ok (links : list Node) (media media' : Media) :
  parseMediaElementLinks links media = (media', None) ->
  exists link0 link1 link2 link3 href0 href1 id title href2 href3,
    links = [link0; link1; link2; link3]
    /\ getAttributeValueByKey link0 "href" = (href0, true)
    /\ getAttributeValueByKey link1 "href" = (href1, true)
    /\ hrefToID href1 = (id, None)
    /\ getAttributeValueByKey link1 "title" = (title, true)
    /\ getAttributeValueByKey link2 "href" = (href2, true)
    /\ getAttributeValueByKey link3 "href" = (href3, true)
    /\ media' = set_Magnet (set_Torrent (set_Name (set_ID
                  (set_Category media (hrefToCategory href0)) id) title)
                  href2) href3.
Proof.
  unfold parseMediaElementLinks. intros Hp.
  destruct links as [|link0 [|link1 [|link2 [|link3 [|? ?]]]]];
    try discriminate.
  destruct (getAttributeValueByKey link0 "href") as [href0 [|]] eqn:?;
    try discriminate.
  destruct (getAttributeValueByKey link1 "href") as [href1 [|]] eqn:?;
    try discriminate.
  destruct (hrefToID href1) as [id [err|]] eqn:?; try discriminate.
  destruct (getAttributeValueByKey link1 "title") as [title [|]] eqn:?;
    try discriminate.
  destruct (getAttributeValueByKey link2 "href") as [href2 [|]] eqn:?;
    try discriminate.
  destruct (getAttributeValueByKey link3 "href") as [href3 [|]] eqn:?;
    try discriminate.
  simpl in Hp. injection Hp as <-.
  exists link0, link1, link2, link3, href0, href1, id, title, href2, href3.
  repeat split; auto.
Qed.

Lemma parseMediaElementTexts_ok `{Units} (nodes : list Node)
  (media media' : Media) :
  parseMediaElementTexts nodes media = (media', None) ->
  exists node3 node5 node6 node7 text3 size text5 seeders text6 leechers
         text7 downloads,
    length nodes = 8%nat
    /\ nodes !! 3%nat = Some node3 /\ nodes !! 5%nat = Some node5
    /\ nodes !! 6%nat = Some node6 /\ nodes !! 7%nat = Some node7
    /\ firstChildText node3 = Some text3
    /\ FromHumanSize text3 = (size, None)
    /\ firstChildText node5 = Some text5
    /\ strconv.Atoi text5 = (seeders, None)
    /\ firstChildText node6 = Some text6
    /\ strconv.Atoi text6 = (leechers, None)
    /\ firstChildText node7 = Some text7
    /\ strconv.Atoi text7 = (downloads, None)
    /\ media' = set_Downloads (set_Leechers (set_Seeders
                  (set_Size media (uint64 size)) (uint seeders))
                  (uint leechers)) (uint downloads).
Proof.
  unfold parseMediaElementTexts. intros Hp.
  destruct nodes as [|n0 [|n1 [|n2 [|node3 [|n4 [|node5 [|node6 [|node7
    [|? ?]]]]]]]]]; try discriminate.
  destruct (firstChildText node3) as [text3|] eqn:?; try discriminate.
  destruct (FromHumanSize text3) as [size [err|]] eqn:?; try discriminate.
  destruct (firstChildText node5) as [text5|] eqn:?; try discriminate.
  destruct (strconv.Atoi text5) as [seeders [err|]] eqn:?; try discriminate.
  destruct (firstChildText node6) as [text6|] eqn:?; try discriminate.
  destruct (strconv.Atoi text6) as [leechers [err|]] eqn:?; try discriminate.
  destruct (firstChildText node7) as [text7|] eqn:?; try discriminate.
  destruct (strconv.Atoi text7) as [downloads [err|]] eqn:?; try discriminate.
  injection Hp as <-.
  exists node3, node5, node6, node7, text3, size, text5, seeders, text6,
    leechers, text7, downloads.
  repeat split; auto.
Qed.

Lemma parseMediaElementTimestamp_ok (nodes : list Node)
  (media media' : Media) :
  parseMediaElementTimestamp nodes media = (media', None) ->
  exists node4 timestamp timestampInt,
    nodes !! 4%nat = Some node4
    /\ getAttributeValueByKey node4 "data-timestamp" = (timestamp, true)
    /\ strconv.Atoi timestamp = (timestampInt, None)
    /\ media' = set_Date media (time_Unix timestampInt 0).
Proof.
  unfold parseMediaElementTimestamp. intros Hp.
  destruct (nodes !! 4%nat) as [node4|] eqn:?; try discriminate.
  destruct (getAttributeValueByKey node4 "data-timestamp") as [timestamp [|]] eqn:?; try discriminate.
  destruct (strconv.Atoi timestamp) as [timestampInt [err|]] eqn:?;
    try discriminate.
  simpl in Hp. injection Hp as <-.
  exists node4, timestamp, timestampInt. repeat split; auto.
Qed.

Lemma parseMediaElementCommentCount_ok `{Goquery} (elem : Selection)
  (media media' : Media) :
  parseMediaElementCommentCount elem media = (media', None) ->
  (Nodes (Find elem ".comments") = [] /\ media' = media)
  \/ exists node0 textChild commentCount,
       Nodes (Find elem ".comments") = [node0]
       /\ LastChild node0 = Some textChild
       /\ isTextNode textChild = true
       /\ strconv.Atoi (Data textChild) = (commentCount, None)
       /\ media' = set_CommentCount media (uint commentCount).
Proof.
  unfold parseMediaElementCommentCount. intros Hp.
  destruct (Nodes (Find elem ".comments")) as [|node0 [|? ?]];
    try discriminate.
  - injection Hp as <-. left. split; reflexivity.
  - destruct (LastChild node0) as [textChild|] eqn:?; try discriminate.
    destruct (isTextNode textChild) eqn:Ht; try discriminate.
    destruct (strconv.Atoi (Data textChild)) as [commentCount [err|]] eqn:?;
      try discriminate.
    simpl in Hp. injection Hp as <-. right.
    exists node0, textChild, commentCount. repeat split; auto.
Qed.

(** A row is extracted when its four steps succeed one after the other. *)
Lemma parseMediaElement_ok `{Goquery} `{Units} (elem : Selection)
  (media : Media) :
  parseMediaElement elem = (media, None) ->
  exists media1 media2 media3,
    parseMediaElementLinks (Nodes (Find elem "td a:not(.comments)"))
      Media_zero = (media1, None)
    /\ parseMediaElementTexts (Nodes (Find elem "td")) media1 = (media2, None)
    /\ parseMediaElementTimestamp (Nodes (Find elem "td")) media2
       = (media3, None)
    /\ parseMediaElementCommentCount elem media3 = (media, None).
Proof.
  unfold parseMediaElement, next_step. intros Hp.
  destruct (parseMediaElementLinks _ _) as [media1 [e|]] eqn:H1;
    try discriminate.
  destruct (parseMediaElementTexts _ _) as [media2 [e|]] eqn:H2;
    try discriminate.
  destruct (parseMediaElementTimestamp _ _) as [media3 [e|]] eqn:H3;
    try discriminate.
  destruct (parseMediaElementCommentCount _ _) as [media4 [e|]] eqn:H4;
    try discriminate.
  injection Hp as <-. exists media1, media2, media3. auto.
Qed.

(** The index panic of the timestamp step is out of reach. *)
Lemma parseMediaElement_no_panic `{Goquery} `{Units} (elem : Selection) :
  snd (parseMediaElement elem) <> Some index_out_of_range.
Proof.
  unfold parseMediaElement, next_step.
  destruct (parseMediaElementLinks _ _) as [media1 [e|]] eqn:H1.
  { simpl. intros [= ->]. revert H1. unfold parseMediaElementLinks.
    repeat case_match; intros; simplify_eq. }
  destruct (parseMediaElementTexts _ _) as [media2 [e|]] eqn:H2.
  { simpl. intros [= ->]. revert H2. unfold parseMediaElementTexts.
    repeat case_match; intros; simplify_eq. }
  apply parseMediaElementTexts_ok in H2
    as (? & ? & ? & ? & ? & ? & ? & ? & ? & ? & ? & ? & Hlen & _).
  destruct (parseMediaElementTimestamp _ _) as [media3 [e|]] eqn:H3.
  { simpl. intros [= ->]. revert H3. unfold parseMediaElementTimestamp.
    destruct (Nodes (Find elem "td") !! 4%nat) eqn:Hl.
    - repeat case_match; intros; simplify_eq.
    - apply lookup_ge_None in Hl. lia. }
  destruct (parseMediaElementCommentCount _ _) as [media4 [e|]] eqn:H4.
  { simpl. intros [= ->]. revert H4. unfold parseMediaElementCommentCount.
    repeat case_match; intros; simplify_eq. }
  simpl. discriminate.
Qed.

(** ** The integers [strconv.Atoi] accepts *)

Lemma parseDigits_range (s : string) (n v : Z) :
  0 <= n <= maxUint64 ->
  strconv.parseDigits s n = (v, None) -> 0 <= v <= maxUint64.
Proof.
  revert n. induction s as [|c s IH]; intros n Hn; simpl.
  - intros [= <-]. exact Hn.
  - destruct (negb (isDigit c)) eqn:Hd; [discriminate|].
    destruct (maxUint64 / 10 + 1 <=? n); [discriminate|].
    destruct (Z.ltb_spec maxUint64 (n * 10 + (byte_of c - 48)));
      [discriminate|].
    apply IH. split; [|assumption].
    apply negb_false_iff in Hd. unfold isDigit in Hd.
    apply andb_true_iff in Hd as [Hd _]. apply Z.leb_le in Hd. lia.
Qed.

Lemma parseDigits_overflow (s : string) (n v : Z) :
  strconv.parseDigits s n = (v, Some ErrRange) -> v = maxUint64.
Proof.
  revert n. induction s as [|c s IH]; intros n; simpl; [discriminate|].
  destruct (negb (isDigit c)); [discriminate|].
  destruct (maxUint64 / 10 + 1 <=? n); [intros [= <-]; reflexivity|].
  destruct (maxUint64 <? n * 10 + (byte_of c - 48));
    [intros [= <-]; reflexivity|].
  apply IH.
Qed.

Lemma Atoi_range (s : string) (n : Z) :
  strconv.Atoi s = (n, None) -> minInt64 <= n <= maxInt64.
Proof.
  unfold strconv.Atoi, strconv.ParseInt, strconv.ParseUint.
  destruct s as [|c s]; [discriminate|].
  set (neg := Ascii.eqb c "-").
  set (digits := if (Ascii.eqb c "+" || neg)%bool then s else String c s).
  assert (Hd : forall v, strconv.parseDigits digits 0 = (v, None) ->
                         0 <= v <= maxUint64).
  { intros v. apply parseDigits_range. unfold maxUint64. lia. }
  destruct digits as [|d ds]; [discriminate|].
  destruct (strconv.parseDigits (String d ds) 0) as [un [[|]|]] eqn:Hp.
  - discriminate.
  - apply parseDigits_overflow in Hp. subst un.
    destruct neg; simpl; discriminate.
  - specialize (Hd un eq_refl).
    destruct neg; simpl.
    + destruct (Z.ltb_spec (2 ^ 63) un); [discriminate|].
      intros [= <-]. unfold minInt64, maxInt64. lia.
    + destruct (Z.leb_spec (2 ^ 63) un); [discriminate|].
      intros [= <-]. unfold minInt64, maxInt64. lia.
Qed.

Lemma uint_of_natural (s : string) (n : Z) :
  strconv.Atoi s = (n, None) -> 0 <= n -> uint n = n.
Proof.
  intros Ha Hn. apply Atoi_range in Ha. unfold uint, maxInt64 in *.
  apply Z.mod_small. lia.
Qed.

Example Atoi_values :
  strconv.Atoi "42" = (42, None)
  /\ strconv.Atoi "0" = (0, None)
  /\ strconv.Atoi "-5" = (-5, None)
  /\ strconv.Atoi "+7" = (7, None)
  /\ strconv.Atoi "" = (0, Some (NumError "Atoi" "" ErrSyntax))
  /\ strconv.Atoi "12a" = (0, Some (NumError "Atoi" "12a" ErrSyntax))
  /\ strconv.Atoi "9223372036854775808"
     = (maxInt64, Some (NumError "Atoi" "9223372036854775808" ErrRange))
  /\ strconv.Atoi "-9223372036854775808" = (minInt64, None).
Proof. repeat split; vm_compute; reflexivity. Qed.

(** ** The count checks of the row extractor *)

Lemma parseMediaElementLinks_count (links : list Node) (media : Media) :
  length links <> 4%nat ->
  parseMediaElementLinks links media
  = (media, Some (errors_New ("unexpected layout: expected 4 links, got "
                              ++ FormatInt (Z.of_nat (length links))))).
Proof.
  intros Hlen.
  destruct links as [|? [|? [|? [|? [|? ?]]]]]; try reflexivity.
  simpl in Hlen. lia.
Qed.

Lemma parseMediaElementTexts_count `{Units} (nodes : list Node)
  (media : Media) :
  length nodes <> 8%nat ->
  parseMediaElementTexts nodes media
  = (media, Some (errors_New ("unexpected layout: expected 8 nodes, got "
                              ++ FormatInt (Z.of_nat (length nodes))))).
Proof.
  intros Hlen.
  destruct nodes as [|? [|? [|? [|? [|? [|? [|? [|? [|? ?]]]]]]]]];
    try reflexivity.
  simpl in Hlen. lia.
Qed.

(** ** The query builder *)

Lemma append_assoc (s1 s2 s3 : string) :
  (s1 ++ s2) ++ s3 = s1 ++ (s2 ++ s3).
Proof. induction s1 as [|c s1 IH]; simpl; [reflexivity | rewrite IH; reflexivity]. Qed.

Lemma append_nil_r (s : string) : s ++ "" = s.
Proof. induction s as [|c s IH]; simpl; [reflexivity | rewrite IH; reflexivity]. Qed.

(** The location is the base, a question mark and the five parameters in
    the order of their keys. *)
Lemma urlForParams_shape (search : string) (parameters : SearchParameters) :
  urlForParams search parameters
  = ("https://nyaa.si?c=" ++ url.QueryEscape (Category_ parameters)
     ++ "&f=" ++ url.QueryEscape (FormatInt (Filter parameters))
     ++ "&o=" ++ url.QueryEscape (SortOrder_ parameters)
     ++ "&q=" ++ url.QueryEscape search
     ++ "&s=" ++ url.QueryEscape (SortBy_ parameters), None).
Proof.
  unfold urlForParams.
  cbv -[url.QueryEscape FormatInt String.append Filter Category_ SortBy_
        SortOrder_].
  f_equal. simpl. rewrite !append_assoc, !append_nil_r. reflexivity.
Qed.

(** C1 (the code does not do what the claim says): the location built by
    [urlForParams] is the same with and without a user name, so no path
    segment for the user is ever part of it; for the user bob and the search
    naruto it is the base location followed by the query alone. *)
Theorem urlForParams_ignores_User :
  (forall search parameters,
     urlForParams search parameters
     = urlForParams search
         (mkSearchParameters (Filter parameters) (Category_ parameters)
            (SortBy_ parameters) (SortOrder_ parameters) ""))
  /\ urlForParams "naruto" (mkSearchParameters 0 "" "" "" "bob")
     = ("https://nyaa.si?c=&f=0&o=&q=naruto&s=", None).
Proof.
  split; [|reflexivity].
  intros search parameters. reflexivity.
Qed.

(** ** The search orchestrator *)

Section OrchestratorProofs.
Context `{Goquery} `{Units} `{HTTP}.

(** C8: with more than one parameter set [Search] returns the parameter
    error and has made no call to the network or the parser. With no
    parameter set [getOneParameterSet] gives the zero value of
    [SearchParameters] and [Search] goes on with it as with a set that was
    given: its first call is [http.Get] with the location [urlForParams]
    builds from the search text and the zero value, and what it returns is
    decided by the answer to that request: the wrapped error of the
    request, of the status or of the parser of the body, or the result of
    [parseSearchPageHTML] on the document of the body. *)
Theorem Search_parameter_sets (choose : Scheduler) (search : string) :
  (forall parameters, (1 < length parameters)%nat ->
     Search choose search parameters
     = (Returned [] (Some (errors_New "only one parameter set accepted")), []))
  /\ getOneParameterSet [] = (SearchParameters_zero, None)
  /\ Search choose search [] = Search choose search [SearchParameters_zero]
  /\ (let URL := "https://nyaa.si?c=&f=0&o=&q=" ++ url.QueryEscape search
                 ++ "&s=" in
      urlForParams search SearchParameters_zero = (URL, None)
      /\ (exists rest, snd (Search choose search []) = EvGet URL :: rest)
      /\ (forall rep err,
            http_Get URL = (rep, Some err) ->
            Search choose search []
            = (Returned []
                 (Some (errors_Wrap
                          (errors_Wrap err "error requesting results")
                          "error getting the nyaa page")),
               [EvGet URL]))
      /\ (forall rep,
            http_Get URL = (rep, None) ->
            StatusCode rep < 200 \/ 300 <= StatusCode rep ->
            Search choose search []
            = (Returned []
                 (Some (errors_Wrap
                          (errors_New ("non-OK HTTP status code: "
                                       ++ FormatInt (StatusCode rep) ++ " "
                                       ++ Status rep))
                          "error getting the nyaa page")),
               [EvGet URL; EvClose]))
      /\ (forall rep doc err,
            http_Get URL = (rep, None) ->
            200 <= StatusCode rep < 300 ->
            NewDocumentFromReader (Body rep) = (doc, Some err) ->
            Search choose search []
            = (Returned []
                 (Some (errors_Wrap
                          (errors_Wrap err "error parsing response html")
                          "error getting the nyaa page")),
               [EvGet URL; EvParse (Body rep); EvClose]))
      /\ (forall rep doc,
            http_Get URL = (rep, None) ->
            200 <= StatusCode rep < 300 ->
            NewDocumentFromReader (Body rep) = (doc, None) ->
            Search choose search []
            = (match parseSearchPageHTML choose doc with
               | Returned _ (Some err) =>
                   Returned [] (Some (errors_Wrap err "error parsing html"))
               | Returned medias None => Returned medias None
               | Blocked => Blocked
               end,
               [EvGet URL; EvParse (Body rep); EvClose]))).
Proof.
  split; [|split; [reflexivity | split; [reflexivity|]]].
  { intros parameters Hlen.
    destruct parameters as [|p [|q parameters]]; simpl in Hlen; try lia.
    reflexivity. }
  intros URL.
  assert (Hurl : urlForParams search SearchParameters_zero = (URL, None)).
  { rewrite urlForParams_shape. reflexivity. }
  assert (Hstatus : forall rep, 200 <= StatusCode rep < 300 ->
            (StatusCode rep <? 200) || (300 <=? StatusCode rep) = false).
  { intros rep Hs. apply orb_false_iff.
    split; [apply Z.ltb_ge | apply Z.leb_gt]; lia. }
  unfold Search.
  change (getOneParameterSet []) with (SearchParameters_zero, @None error).
  cbv iota. unfold requestHTML. rewrite Hurl.
  split; [reflexivity|]. split; [|split; [|split; [|split]]].
  - destruct (http_Get URL) as [rep [err|]]; [eexists; reflexivity|].
    destruct ((StatusCode rep <? 200) || (300 <=? StatusCode rep));
      [eexists; reflexivity|].
    destruct (NewDocumentFromReader (Body rep)) as [doc [err|]];
      [eexists; reflexivity|].
    destruct (parseSearchPageHTML choose doc) as [medias [err|]|];
      eexists; reflexivity.
  - intros rep err Hget. rewrite Hget. reflexivity.
  - intros rep Hget Hs. rewrite Hget.
    destruct ((StatusCode rep <? 200) || (300 <=? StatusCode rep)) eqn:Hc;
      [reflexivity|].
    apply orb_false_iff in Hc as [H200 H300].
    apply Z.ltb_ge in H200. apply Z.leb_gt in H300. lia.
  - intros rep doc err Hget Hs Hdoc.
    rewrite Hget, (Hstatus rep Hs), Hdoc. reflexivity.
  - intros rep doc Hget Hs Hdoc.
    rewrite Hget, (Hstatus rep Hs), Hdoc.
    destruct (parseSearchPageHTML choose doc) as [medias [err|]|];
      reflexivity.
Qed.

(** C9: when the response to the request has a status outside of
    [200, 300), [requestHTML] fails with the error made of the status code
    and the status text, [Search] returns it wrapped, and the only calls
    made are the request and the closing of the body: the body is not
    parsed. *)
Theorem Search_non_OK_status (choose : Scheduler) (search : string)
  (parameters : list SearchParameters) (params : SearchParameters)
  (URL : string) (rep : Response) :
  getOneParameterSet parameters = (params, None) ->
  urlForParams search params = (URL, None) ->
  http_Get URL = (rep, None) ->
  StatusCode rep < 200 \/ 300 <= StatusCode rep ->
  let err := errors_New ("non-OK HTTP status code: "
                         ++ FormatInt (StatusCode rep) ++ " " ++ Status rep) in
  requestHTML search params = ((nil_Document, Some err), [EvGet URL; EvClose])
  /\ Search choose search parameters
     = (Returned [] (Some (errors_Wrap err "error getting the nyaa page")),
        [EvGet URL; EvClose])
  /\ ~ In (EvParse (Body rep)) (snd (Search choose search parameters)).
Proof.
  intros Hset Hurl Hget Hstatus err.
  assert (Hreq : requestHTML search params
                 = ((nil_Document, Some err), [EvGet URL; EvClose])).
  { unfold requestHTML. rewrite Hurl, Hget.
    destruct ((StatusCode rep <? 200) || (300 <=? StatusCode rep)) eqn:Hc;
      [reflexivity|].
    apply orb_false_iff in Hc as [H200 H300].
    apply Z.ltb_ge in H200. apply Z.leb_gt in H300. lia. }
  assert (HS : Search choose search parameters
     = (Returned [] (Some (errors_Wrap err "error getting the nyaa page")),
        [EvGet URL; EvClose])).
  { unfold Search. rewrite Hset, Hreq. reflexivity. }
  split; [exact Hreq|]. split; [exact HS|].
  rewrite HS. simpl. intros [Hin | [Hin | []]]; discriminate.
Qed.

End OrchestratorProofs.

(** ** The search page parser *)

Section AggregatorProofs.
Context `{Goquery} `{Units}.

Lemma good_of_all (rows : list Node) (i : nat) :
  (forall n, n ∈ rows ->
     snd (parseMediaElement (newSingleSelection n)) = None) ->
  good rows i.
Proof.
  intros Hall j n _ Hl. apply Hall. eapply list_elem_of_lookup_2. exact Hl.
Qed.

(** C2: when every row of the document is extracted without error, then
    under every scheduler [parseSearchPageHTML] returns, without error, a
    list as long as the rows whose element at each index is the record of
    the row at that index; with no rows it returns the empty list. *)
Theorem parseSearchPageHTML_all_rows (choose : Scheduler) (doc : Selection) :
  let rows := Nodes (Find doc ".torrent-list tbody tr") in
  (forall n, n ∈ rows ->
     snd (parseMediaElement (newSingleSelection n)) = None) ->
  exists medias,
    parseSearchPageHTML choose doc = Returned medias None
    /\ length medias = length rows
    /\ (forall i n, rows !! i = Some n ->
          medias !! i
          = Some (fst (parseMediaElement (newSingleSelection n))))
    /\ (rows = [] -> medias = []).
Proof.
  intros rows Hall.
  exists (map (fun n => fst (parseMediaElement (newSingleSelection n))) rows).
  split; [|split; [|split]].
  - rewrite (parseSearchPageHTML_collect _ choose doc eq_refl).
    fold rows. rewrite collect_ok; [reflexivity|].
    apply good_of_all. exact Hall.
  - apply length_map.
  - intros i n Hl.
    change (map ?f rows) with (f <$> rows).
    rewrite list_lookup_fmap, Hl. reflexivity.
  - intros ->. reflexivity.
Qed.

(** C3: when row [k] of the document fails to extract and every other row
    extracts, then under every scheduler [parseSearchPageHTML] returns
    within its step bound, and what it returns is the nil list with the
    wrapped error of row [k]; a document without rows gives the empty list
    and no error. *)
Theorem parseSearchPageHTML_one_malformed_row (choose : Scheduler)
  (doc : Selection) :
  let rows := Nodes (Find doc ".torrent-list tbody tr") in
  (forall k n cause,
     rows !! k = Some n ->
     snd (parseMediaElement (newSingleSelection n)) = Some cause ->
     (forall j n', j <> k -> rows !! j = Some n' ->
        snd (parseMediaElement (newSingleSelection n')) = None) ->
     parseSearchPageHTML choose doc
     = Returned [] (Some (errors_Wrap cause "error parsing media element")))
  /\ (rows = [] -> parseSearchPageHTML choose doc = Returned [] None).
Proof.
  intros rows. split.
  - intros k n cause Hk Hcause Hothers.
    rewrite (parseSearchPageHTML_collect _ choose doc eq_refl).
    fold rows. rewrite (collect_first_error rows k n cause Hk Hcause);
      [reflexivity|].
    intros j n' Hj Hl. apply (Hothers j n'); [lia | exact Hl].
  - intros Hrows.
    rewrite (parseSearchPageHTML_collect _ choose doc eq_refl).
    fold rows. rewrite Hrows. reflexivity.
Qed.

(** C10: under every scheduler the result of [parseSearchPageHTML] is the
    one of reading the rows one after the other in document order, and in
    every order of the steps of the three threads the caller can return
    nothing else; so when row [k] fails to extract and every row before it
    extracts, the error returned is the wrapped error of row [k], whatever
    the rows after it are. *)
Theorem parseSearchPageHTML_first_malformed_row (choose : Scheduler)
  (doc : Selection) :
  let rows := Nodes (Find doc ".torrent-list tbody tr") in
  parseSearchPageHTML choose doc
  = Returned (fst (collect rows)) (snd (collect rows))
  /\ (forall s medias err,
        reachable (Find doc ".torrent-list tbody tr") s ->
        main s = MReturned medias err -> (medias, err) = collect rows)
  /\ (forall k n cause,
        rows !! k = Some n ->
        snd (parseMediaElement (newSingleSelection n)) = Some cause ->
        (forall j n', (j < k)%nat -> rows !! j = Some n' ->
           snd (parseMediaElement (newSingleSelection n')) = None) ->
        parseSearchPageHTML choose doc
        = Returned []
            (Some (errors_Wrap cause "error parsing media element"))).
Proof.
  intros rows.
  pose proof (parseSearchPageHTML_collect _ choose doc eq_refl) as Hc.
  fold rows in Hc. split; [exact Hc|]. split.
  { intros s medias err Hr Hm. apply reachable_Inv in Hr.
    unfold Inv in Hr. rewrite Hm in Hr. exact Hr. }
  intros k n cause Hk Hcause Hbefore.
  rewrite Hc, (collect_first_error rows k n cause Hk Hcause Hbefore).
  reflexivity.
Qed.

End AggregatorProofs.

(** ** The row extractor *)

Section RowProofs.
Context `{Goquery}.

Ltac media_fields :=
  cbv [ID Name MediaCategory Torrent Magnet Size Seeders Leechers Downloads
       CommentCount Date set_ID set_Name set_Category set_Torrent set_Magnet
       set_Size set_Seeders set_Leechers set_Downloads set_CommentCount
       set_Date Media_zero].

(** The fields a later step leaves as they are. *)
Lemma parseMediaElement_fields `{Units} (elem : Selection) (media : Media) :
  parseMediaElement elem = (media, None) ->
  exists media1 media2,
    parseMediaElementLinks (Nodes (Find elem "td a:not(.comments)"))
      Media_zero = (media1, None)
    /\ parseMediaElementTexts (Nodes (Find elem "td")) media1 = (media2, None)
    /\ ID media = ID media1
    /\ Size media = Size media2
    /\ (Nodes (Find elem ".comments") = [] -> CommentCount media = 0).
Proof.
  intros Hp.
  apply parseMediaElement_ok in Hp as (media1 & media2 & media3 & H1 & H2 & H3 & H4).
  exists media1, media2. split; [exact H1|]. split; [exact H2|].
  pose proof H1 as H1'. pose proof H2 as H2'.
  apply parseMediaElementLinks_ok in H1'
    as (? & ? & ? & ? & ? & ? & ? & ? & ? & ? & _ & _ & _ & _ & _ & _ & _ & ->).
  apply parseMediaElementTexts_ok in H2'
    as (? & ? & ? & ? & ? & ? & ? & ? & ? & ? & ? & ? & _ & _ & _ & _ & _ & _
        & _ & _ & _ & _ & _ & _ & _ & ->).
  apply parseMediaElementTimestamp_ok in H3 as (? & ? & ? & _ & _ & _ & ->).
  apply parseMediaElementCommentCount_ok in H4
    as [(Hnone & ->) | (? & ? & ? & Hone & _ & _ & _ & ->)].
  - media_fields. split; [reflexivity|]. split; reflexivity.
  - media_fields. split; [reflexivity|]. split; [reflexivity|].
    rewrite Hone. discriminate.
Qed.

(** C4 (the code does not do what the claim says): with the size parser of
    go-units, [FromHumanSize], a row that is extracted and whose size cell
    holds the text 1.5 GiB has the size 1500000000, which is 1.5 x 10^9 and
    not 1.5 x 2^30 = 1610612736. *)
Theorem Size_of_1_5_GiB (elem : Selection) (media : Media) (node3 : Node) :
  @parseMediaElement _ go_units elem = (media, None) ->
  Nodes (Find elem "td") !! 3%nat = Some node3 ->
  firstChildText node3 = Some "1.5 GiB" ->
  Size media = 1500000000 /\ Size media <> 1610612736.
Proof.
  intros Hp Hnode Htext.
  apply (@parseMediaElement_fields go_units) in Hp
    as (media1 & media2 & _ & H2 & _ & HSize & _).
  apply (@parseMediaElementTexts_ok go_units) in H2
    as (node3' & ? & ? & ? & text3 & size & ? & ? & ? & ? & ? & ?
        & _ & Hnode' & _ & _ & _ & Htext' & Hsize & _ & _ & _ & _ & _ & _ & ->).
  rewrite Hnode in Hnode'. injection Hnode' as <-.
  rewrite Htext in Htext'. injection Htext' as <-.
  vm_compute in Hsize. injection Hsize as <-.
  rewrite HSize. split; [reflexivity | discriminate].
Qed.

Section WithUnits.
Context `{Units}.

(** The errors of the steps after the ID has been read are not the ID
    error. *)
Ltac other_error := intros [= _ <-]; reflexivity.

Lemma parseMediaElementTexts_no_ID_error (nodes : list Node)
  (media media' : Media) (err : error) :
  parseMediaElementTexts nodes media = (media', Some err) ->
  is_ID_error err = false.
Proof.
  unfold parseMediaElementTexts.
  destruct nodes as [|n0 [|n1 [|n2 [|node3 [|n4 [|node5 [|node6 [|node7
    [|? ?]]]]]]]]]; try other_error.
  destruct (firstChildText node3); [|other_error].
  destruct (FromHumanSize _) as [? [?|]]; [other_error|].
  destruct (firstChildText node5); [|other_error].
  destruct (strconv.Atoi _) as [? [?|]]; [other_error|].
  destruct (firstChildText node6); [|other_error].
  destruct (strconv.Atoi _) as [? [?|]]; [other_error|].
  destruct (firstChildText node7); [|other_error].
  destruct (strconv.Atoi _) as [? [?|]]; [other_error|].
  discriminate.
Qed.

Lemma parseMediaElementTimestamp_no_ID_error (nodes : list Node)
  (media media' : Media) (err : error) :
  parseMediaElementTimestamp nodes media = (media', Some err) ->
  is_ID_error err = false.
Proof.
  unfold parseMediaElementTimestamp.
  destruct (nodes !! 4%nat); [|other_error].
  destruct (getAttributeValueByKey _ _) as [? [|]]; [|other_error].
  destruct (strconv.Atoi _) as [? [?|]]; [other_error|].
  discriminate.
Qed.

Lemma parseMediaElementCommentCount_no_ID_error (elem : Selection)
  (media media' : Media) (err : error) :
  parseMediaElementCommentCount elem media = (media', Some err) ->
  is_ID_error err = false.
Proof.
  unfold parseMediaElementCommentCount.
  destruct (Nodes (Find elem ".comments")) as [|node0 [|? ?]];
    [discriminate| |other_error].
  destruct (LastChild node0) as [textChild|]; [|other_error].
  destruct (isTextNode textChild); [|other_error].
  destruct (strconv.Atoi _) as [? [?|]]; [other_error|].
  discriminate.
Qed.

(** C5 (amended): for a row with four qualifying links whose first two
    carry an href, the text after the prefix /view/ of the second href is
    read by [strconv.Atoi]. When that fails (the text is empty, is not a
    decimal integer, or is out of the range of [int]) the row extraction
    fails with that error wrapped as the ID error, and this is the only
    way to that error; when it gives [n >= 0], zero included, every
    extraction of the row has the ID [n]. *)
Theorem ID_from_second_link (elem : Selection)
  (link0 link1 link2 link3 : Node) (href0 href1 : string) :
  Nodes (Find elem "td a:not(.comments)") = [link0; link1; link2; link3] ->
  getAttributeValueByKey link0 "href" = (href0, true) ->
  getAttributeValueByKey link1 "href" = (href1, true) ->
  (forall n err,
     strconv.Atoi (TrimPrefix href1 "/view/") = (n, Some err) ->
     parseMediaElement elem
     = (set_Category Media_zero (hrefToCategory href0),
        Some (errors_Wrap err "error parsing ID")))
  /\ (forall n media,
        strconv.Atoi (TrimPrefix href1 "/view/") = (n, None) -> 0 <= n ->
        parseMediaElement elem = (media, None) -> ID media = n)
  /\ (forall n cause,
        strconv.Atoi (TrimPrefix href1 "/view/") = (n, None) ->
        snd (parseMediaElement elem)
        <> Some (errors_Wrap cause "error parsing ID")).
Proof.
  intros Hlinks Hhref0 Hhref1. split; [|split].
  - intros n err Ha.
    unfold parseMediaElement, next_step. rewrite Hlinks.
    unfold parseMediaElementLinks. rewrite Hhref0, Hhref1. simpl.
    unfold hrefToID. rewrite Ha. reflexivity.
  - intros n media Ha Hn Hp.
    apply parseMediaElement_fields in Hp as (media1 & _ & H1 & _ & HID & _).
    rewrite HID. rewrite Hlinks in H1.
    apply parseMediaElementLinks_ok in H1
      as (l0 & l1 & l2 & l3 & h0 & h1 & id & ? & ? & ? & Heq & _ & Hh1 & Hid
          & _ & _ & _ & ->).
    injection Heq as <- <- <- <-.
    rewrite Hhref1 in Hh1. injection Hh1 as <-.
    unfold hrefToID in Hid. rewrite Ha in Hid. injection Hid as <-.
    media_fields. eapply uint_of_natural; eauto.
  - intros n cause Ha Herr.
    destruct (parseMediaElement elem) as [media' [err|]] eqn:Hp;
      [|discriminate].
    simpl in Herr. injection Herr as Herr.
    assert (Hno : is_ID_error err = false);
      [|rewrite Herr in Hno; discriminate].
    clear Herr. revert Hp. unfold parseMediaElement, next_step. rewrite Hlinks.
    unfold parseMediaElementLinks. rewrite Hhref0, Hhref1. simpl.
    unfold hrefToID. rewrite Ha.
    destruct (getAttributeValueByKey link1 "title") as [? [|]];
      [|other_error].
    destruct (getAttributeValueByKey link2 "href") as [? [|]];
      [|other_error].
    destruct (getAttributeValueByKey link3 "href") as [? [|]];
      [|other_error].
    simpl.
    destruct (parseMediaElementTexts _ _) as [? [?|]] eqn:H2.
    { intros [= _ <-]. eapply parseMediaElementTexts_no_ID_error; eauto. }
    destruct (parseMediaElementTimestamp _ _) as [? [?|]] eqn:H3.
    { intros [= _ <-]. eapply parseMediaElementTimestamp_no_ID_error; eauto. }
    destruct (parseMediaElementCommentCount _ _) as [? [?|]] eqn:H4.
    { intros [= _ <-].
      eapply parseMediaElementCommentCount_no_ID_error; eauto. }
    discriminate.
Qed.

(** C6 (amended): the comment step is the last of the four steps of
    [parseMediaElement]. When one of the three steps before it fails, the
    row extraction fails with the error of that step, whatever the comment
    elements of the row are. For every row on which they succeed: without a
    comment element the row is extracted with the comment count 0; with
    two or more comment elements the row extraction fails as ambiguous;
    with exactly one, it fails with the layout error unless the last child
    of the element is a text node, and with the wrapped error of
    [strconv.Atoi] unless that reads the text; and when the integer read
    is not negative the row is extracted with it as the comment count. *)
Theorem CommentCount_by_elements (elem : Selection) :
  let links := Nodes (Find elem "td a:not(.comments)") in
  let cells := Nodes (Find elem "td") in
  let nodes := Nodes (Find elem ".comments") in
  let earlier :=
    (media <- parseMediaElementLinks links Media_zero ;;
     media <- parseMediaElementTexts cells media ;;
     parseMediaElementTimestamp cells media) in
  (forall media err,
     earlier = (media, Some err) ->
     parseMediaElement elem = (media, Some err))
  /\ (forall media3,
        earlier = (media3, None) ->
        CommentCount media3 = 0
        /\ (nodes = [] -> parseMediaElement elem = (media3, None))
        /\ ((2 <= length nodes)%nat ->
              parseMediaElement elem
              = (media3,
                 Some (errors_New "found more than one comments element")))
        /\ (forall node0, nodes = [node0] ->
              (LastChild node0 = None
               \/ (exists child, LastChild node0 = Some child
                                 /\ isTextNode child = false) ->
               parseMediaElement elem
               = (media3, Some (errors_New
                    "unexpected layout: expected comments elem to have a text last child")))
              /\ (forall textChild n err,
                    LastChild node0 = Some textChild ->
                    isTextNode textChild = true ->
                    strconv.Atoi (Data textChild) = (n, Some err) ->
                    parseMediaElement elem
                    = (media3,
                       Some (errors_Wrap err "error parsing comment count")))
              /\ (forall textChild n,
                    LastChild node0 = Some textChild ->
                    isTextNode textChild = true ->
                    strconv.Atoi (Data textChild) = (n, None) -> 0 <= n ->
                    parseMediaElement elem
                    = (set_CommentCount media3 n, None)
                    /\ CommentCount (set_CommentCount media3 n) = n))).
Proof.
  intros links cells nodes earlier.
  assert (Hrow : parseMediaElement elem
                 = (media <- earlier ;;
                    media <- parseMediaElementCommentCount elem media ;;
                    (media, None))).
  { subst earlier. unfold parseMediaElement, next_step. fold links cells.
    destruct (parseMediaElementLinks links Media_zero) as [media1 [e|]];
      [reflexivity|].
    destruct (parseMediaElementTexts cells media1) as [media2 [e|]];
      [reflexivity|].
    destruct (parseMediaElementTimestamp cells media2) as [media3 [e|]];
      reflexivity. }
  rewrite Hrow. clear Hrow. split.
  { intros media err He. rewrite He. reflexivity. }
  intros media3 He. rewrite He. unfold next_step at 1. split.
  { subst earlier. unfold next_step in He.
    destruct (parseMediaElementLinks links Media_zero) as [media1 [e|]] eqn:H1;
      [discriminate|].
    destruct (parseMediaElementTexts cells media1) as [media2 [e|]] eqn:H2;
      [discriminate|].
    apply parseMediaElementLinks_ok in H1
      as (? & ? & ? & ? & ? & ? & ? & ? & ? & ?
          & _ & _ & _ & _ & _ & _ & _ & ->).
    apply parseMediaElementTexts_ok in H2
      as (? & ? & ? & ? & ? & ? & ? & ? & ? & ? & ? & ? & _ & _ & _ & _ & _
          & _ & _ & _ & _ & _ & _ & _ & _ & ->).
    apply parseMediaElementTimestamp_ok in He as (? & ? & ? & _ & _ & _ & ->).
    reflexivity. }
  clear He. unfold parseMediaElementCommentCount, next_step. fold nodes.
  split; [|split].
  - intros Hnone. rewrite Hnone. reflexivity.
  - intros Hlen. destruct nodes as [|? [|? ?]]; simpl in Hlen; try lia.
    reflexivity.
  - intros node0 Hone. rewrite Hone. split; [|split].
    + intros [Hnil | (child & Hchild & Htext)].
      * rewrite Hnil. reflexivity.
      * rewrite Hchild, Htext. reflexivity.
    + intros textChild n err Hchild Htext Ha.
      rewrite Hchild, Htext, Ha. reflexivity.
    + intros textChild n Hchild Htext Ha Hn.
      rewrite Hchild, Htext, Ha. simpl.
      rewrite (uint_of_natural _ _ Ha Hn). split; reflexivity.
Qed.

(** C7 (amended): when the number of qualifying links is not 4 the row
    extraction fails with the count error of the links; when the link step
    succeeds and the number of cells is not 8 it fails with the count error
    of the cells; and whenever one of the two counts is off the row
    extraction fails, with the error of the first step that fails. *)
Theorem count_mismatch_fails (elem : Selection) :
  let links := Nodes (Find elem "td a:not(.comments)") in
  let nodes := Nodes (Find elem "td") in
  (length links <> 4%nat ->
     parseMediaElement elem
     = (Media_zero,
        Some (errors_New ("unexpected layout: expected 4 links, got "
                          ++ FormatInt (Z.of_nat (length links))))))
  /\ (forall media1,
        parseMediaElementLinks links Media_zero = (media1, None) ->
        length nodes <> 8%nat ->
        parseMediaElement elem
        = (media1,
           Some (errors_New ("unexpected layout: expected 8 nodes, got "
                             ++ FormatInt (Z.of_nat (length nodes))))))
  /\ (length links <> 4%nat \/ length nodes <> 8%nat ->
        snd (parseMediaElement elem) <> None).
Proof.
  intros links nodes.
  assert (Hl : length links <> 4%nat ->
     parseMediaElement elem
     = (Media_zero,
        Some (errors_New ("unexpected layout: expected 4 links, got "
                          ++ FormatInt (Z.of_nat (length links)))))).
  { intros Hlen. unfold parseMediaElement, next_step. fold links.
    rewrite (parseMediaElementLinks_count links Media_zero Hlen).
    reflexivity. }
  assert (Hn : forall media1,
        parseMediaElementLinks links Media_zero = (media1, None) ->
        length nodes <> 8%nat ->
        parseMediaElement elem
        = (media1,
           Some (errors_New ("unexpected layout: expected 8 nodes, got "
                             ++ FormatInt (Z.of_nat (length nodes)))))).
  { intros media1 H1 Hlen. unfold parseMediaElement, next_step.
    fold links nodes. rewrite H1.
    rewrite (parseMediaElementTexts_count nodes media1 Hlen). reflexivity. }
  split; [exact Hl|]. split; [exact Hn|].
  intros [Hlen | Hlen].
  - rewrite (Hl Hlen). discriminate.
  - destruct (parseMediaElementLinks links Media_zero) as [media1 [err|]]
      eqn:H1.
    + unfold parseMediaElement, next_step. fold links. rewrite H1.
      discriminate.
    + rewrite (Hn media1 eq_refl Hlen). discriminate.
Qed.

End WithUnits.
End RowProofs.

(** ** The properties on concrete pages

    The sample collaborators, rows and schedulers of [Sample], with the
    size parser of go-units. *)

Section Concrete.
Import Sample.
Local Existing Instance goquery.
Local Existing Instance go_units.

Ltac rows_of Hin :=
  vm_compute in Hin;
  repeat (apply elem_of_cons in Hin as [-> | Hin]; [vm_compute; reflexivity|]);
  apply elem_of_nil in Hin; contradiction.

(** Two rows that extract: the list of their two records, in their order,
    under the scheduler that always takes the last possible step. *)
Lemma parseSearchPageHTML_all_rows_witness :
  let doc := document [row "/view/1" "1.5 GiB" [];
                       row "/view/2" "20 MiB" [commentsLink "3"]] in
  let rows := Nodes (Find doc ".torrent-list tbody tr") in
  exists medias,
    parseSearchPageHTML lastStep doc = Returned medias None
    /\ length medias = length rows
    /\ (forall i n, rows !! i = Some n ->
          medias !! i
          = Some (fst (parseMediaElement (newSingleSelection n))))
    /\ (rows = [] -> medias = []).
Proof.
  intros doc.
  apply (parseSearchPageHTML_all_rows lastStep doc).
  intros n Hin. rows_of Hin.
Defined.

Example parseSearchPageHTML_two_rows :
  parseSearchPageHTML lastStep
    (document [row "/view/1" "1.5 GiB" [];
               row "/view/2" "20 MiB" [commentsLink "3"]])
  = Returned
      [mkMedia 1 "Some title" "1_2" "/download/1.torrent"
         "magnet:?xt=urn:btih:0123" 1500000000 10 2 345 0
         (mkTime 1700000000 0);
       mkMedia 2 "Some title" "1_2" "/download/1.torrent"
         "magnet:?xt=urn:btih:0123" 20000000 10 2 345 3
         (mkTime 1700000000 0)]
      None.
Proof. vm_compute. reflexivity. Qed.

(** A row in the middle whose ID cannot be read. *)
Lemma parseSearchPageHTML_one_malformed_row_witness :
  let doc := document [row "/view/1" "1.5 GiB" [];
                       row "/view/x" "20 MiB" [];
                       row "/view/3" "7 KiB" []] in
  parseSearchPageHTML firstStep doc
  = Returned []
      (Some (errors_Wrap
               (errors_Wrap (NumError "Atoi" "x" ErrSyntax) "error parsing ID")
               "error parsing media element")).
Proof.
  intros doc.
  apply (proj1 (parseSearchPageHTML_one_malformed_row firstStep doc) 1%nat
           (row "/view/x" "20 MiB" [])).
  - reflexivity.
  - vm_compute. reflexivity.
  - intros j n' Hj Hl.
    destruct j as [|[|[|j]]]; try congruence; vm_compute in Hl;
      try discriminate; injection Hl as <-; vm_compute; reflexivity.
Defined.

(** Two malformed rows: the error is the one of the first of them. *)
Lemma parseSearchPageHTML_first_malformed_row_witness :
  let doc := document [row "/view/1" "1.5 GiB" [];
                       row "/view/x" "20 MiB" [];
                       row "/view/3" "7 KiB" [];
                       shortRow] in
  parseSearchPageHTML lastStep doc
  = Returned []
      (Some (errors_Wrap
               (errors_Wrap (NumError "Atoi" "x" ErrSyntax) "error parsing ID")
               "error parsing media element")).
Proof.
  intros doc.
  apply (proj2 (proj2 (parseSearchPageHTML_first_malformed_row lastStep doc))
           1%nat
           (row "/view/x" "20 MiB" [])).
  - reflexivity.
  - vm_compute. reflexivity.
  - intros j n' Hj Hl.
    destruct j as [|[|j]]; try lia; vm_compute in Hl;
      injection Hl as <-; vm_compute; reflexivity.
Defined.

Lemma Size_of_1_5_GiB_witness :
  Size (fst (parseMediaElement
               (newSingleSelection (row "/view/1" "1.5 GiB" []))))
  = 1500000000.
Proof.
  eapply (proj1 (Size_of_1_5_GiB
                   (newSingleSelection (row "/view/1" "1.5 GiB" [])) _ _ _ _ _)).
  Unshelve.
  - exact (mkNode ElementNode "td"
             [mkAttribute "" "class" "text-center"] [text "1.5 GiB"]).
  - vm_compute. reflexivity.
  - vm_compute. reflexivity.
  - vm_compute. reflexivity.
Defined.

(** C5 (the claim as it is written fails): the row whose second link leads
    to /view/0 has four qualifying links, the text after the prefix is 0,
    which is not a positive integer, and the row is extracted, with the
    ID 0. *)
Lemma ID_zero_is_accepted :
  let elem := newSingleSelection (row "/view/0" "1.5 GiB" []) in
  (exists link0 link1 link2 link3,
     Nodes (Find elem "td a:not(.comments)") = [link0; link1; link2; link3]
     /\ getAttributeValueByKey link1 "href" = ("/view/0", true))
  /\ strconv.Atoi (TrimPrefix "/view/0" "/view/") = (0, None)
  /\ exists media, parseMediaElement elem = (media, None) /\ ID media = 0.
Proof.
  intros elem. split; [|split].
  - vm_compute. do 4 eexists. split; reflexivity.
  - vm_compute. reflexivity.
  - vm_compute. eexists. split; reflexivity.
Qed.

(** The ID of a row that leads to /view/0 and of one that leads to
    /view/0x1. *)
Lemma ID_from_second_link_witness :
  let elem := newSingleSelection (row "/view/0" "1.5 GiB" []) in
  let elem' := newSingleSelection (row "/view/0x1" "1.5 GiB" []) in
  ID (fst (parseMediaElement elem)) = 0
  /\ snd (parseMediaElement elem')
     = Some (errors_Wrap (NumError "Atoi" "0x1" ErrSyntax) "error parsing ID").
Proof.
  intros elem elem'. split.
  - eapply (proj1 (proj2 (ID_from_second_link elem _ _ _ _ _ "/view/0"
                            _ _ _))).
    + vm_compute. reflexivity.
    + vm_compute. discriminate.
    + vm_compute. reflexivity.
  - pose proof (proj1 (ID_from_second_link elem' _ _ _ _ "/?c=1_2"
                         "/view/0x1" eq_refl eq_refl eq_refl)
                  0 _ eq_refl) as Hw.
    rewrite Hw. reflexivity.
  Unshelve.
  all: try reflexivity.
Defined.

(** C6 (the claim as it is written fails): the row with one comment element
    whose text is -1, which is not a non-negative integer, is extracted,
    and its comment count is 2^64 - 1. *)
Lemma negative_comment_count_is_accepted :
  let elem := newSingleSelection
                (row "/view/1" "1.5 GiB" [commentsLink "-1"]) in
  (exists node0 textChild,
     Nodes (Find elem ".comments") = [node0]
     /\ LastChild node0 = Some textChild
     /\ isTextNode textChild = true
     /\ strconv.Atoi (Data textChild) = (-1, None))
  /\ exists media,
       parseMediaElement elem = (media, None)
       /\ CommentCount media = 2 ^ 64 - 1.
Proof.
  intros elem. split.
  - vm_compute. do 2 eexists. repeat split; reflexivity.
  - vm_compute. eexists. split; reflexivity.
Qed.

(** Rows with no, one and two comment elements whose first three steps
    succeed, and a row with two comment elements whose ID cannot be read:
    it fails with the error of the ID, not as ambiguous. *)
Lemma CommentCount_by_elements_witness :
  let media3 := mkMedia 1 "Some title" "1_2" "/download/1.torrent"
                  "magnet:?xt=urn:btih:0123" 1500000000 10 2 345 0
                  (mkTime 1700000000 0) in
  let none := newSingleSelection (row "/view/1" "1.5 GiB" []) in
  let one := newSingleSelection
               (row "/view/1" "1.5 GiB" [commentsLink "12"]) in
  let two := newSingleSelection
               (row "/view/1" "1.5 GiB" [commentsLink "1"; commentsLink "2"]) in
  let unread := newSingleSelection
                  (row "/view/x" "1.5 GiB"
                     [commentsLink "1"; commentsLink "2"]) in
  parseMediaElement none = (media3, None)
  /\ parseMediaElement one = (set_CommentCount media3 12, None)
  /\ parseMediaElement two
     = (media3, Some (errors_New "found more than one comments element"))
  /\ parseMediaElement unread
     = (set_Category Media_zero "1_2",
        Some (errors_Wrap (NumError "Atoi" "x" ErrSyntax) "error parsing ID")).
Proof.
  intros media3 none one two unread.
  assert (Hnone :
    (media <- parseMediaElementLinks
                (Nodes (Find none "td a:not(.comments)")) Media_zero ;;
     media <- parseMediaElementTexts (Nodes (Find none "td")) media ;;
     parseMediaElementTimestamp (Nodes (Find none "td")) media)
    = (media3, None)) by (vm_compute; reflexivity).
  assert (Hone :
    (media <- parseMediaElementLinks
                (Nodes (Find one "td a:not(.comments)")) Media_zero ;;
     media <- parseMediaElementTexts (Nodes (Find one "td")) media ;;
     parseMediaElementTimestamp (Nodes (Find one "td")) media)
    = (media3, None)) by (vm_compute; reflexivity).
  assert (Htwo :
    (media <- parseMediaElementLinks
                (Nodes (Find two "td a:not(.comments)")) Media_zero ;;
     media <- parseMediaElementTexts (Nodes (Find two "td")) media ;;
     parseMediaElementTimestamp (Nodes (Find two "td")) media)
    = (media3, None)) by (vm_compute; reflexivity).
  assert (Hunread :
    (media <- parseMediaElementLinks
                (Nodes (Find unread "td a:not(.comments)")) Media_zero ;;
     media <- parseMediaElementTexts (Nodes (Find unread "td")) media ;;
     parseMediaElementTimestamp (Nodes (Find unread "td")) media)
    = (set_Category Media_zero "1_2",
       Some (errors_Wrap (NumError "Atoi" "x" ErrSyntax) "error parsing ID")))
    by (vm_compute; reflexivity).
  assert (Hcomments : Nodes (Find one ".comments") = [commentsLink "12"])
    by (vm_compute; reflexivity).
  split; [|split; [|split]].
  - apply (proj1 (proj2 (proj2 (CommentCount_by_elements none) media3 Hnone))).
    vm_compute. reflexivity.
  - apply (proj2 (proj2 (proj2 (proj2 (proj2
             (proj2 (CommentCount_by_elements one) media3 Hone)))
             (commentsLink "12") Hcomments)) (text "12") 12).
    + reflexivity.
    + reflexivity.
    + vm_compute. reflexivity.
    + lia.
  - apply (proj1 (proj2 (proj2 (proj2 (CommentCount_by_elements two)
                                  media3 Htwo)))).
    vm_compute. lia.
  - apply (proj1 (CommentCount_by_elements unread) _ _ Hunread).
Defined.

(** C7 (the claim as it is written fails): the row [shortRow] has four
    qualifying links and seven cells, and its extraction fails with the
    error of the first link, which is not a count error. *)
Lemma short_row_fails_on_its_first_link :
  let elem := newSingleSelection shortRow in
  length (Nodes (Find elem "td a:not(.comments)")) = 4%nat
  /\ length (Nodes (Find elem "td")) = 7%nat
  /\ parseMediaElement elem
     = (Media_zero,
        Some (errors_New "unexpected layout: first link does not have an href"))
  /\ snd (parseMediaElement elem)
     <> Some (errors_New "unexpected layout: expected 8 nodes, got 7").
Proof.
  intros elem. repeat split; try (vm_compute; reflexivity).
  vm_compute. discriminate.
Qed.

(** A row of seven cells whose links are in order: the count error of the
    cells. *)
Lemma count_mismatch_fails_witness :
  let seven := newSingleSelection
    (elem "tr" []
       [elem "td" [] [elem "a" [("href", "/?c=1_2")] []];
        elem "td" [] [elem "a" [("href", "/view/1"); ("title", "Some title")] []];
        elem "td" []
          [elem "a" [("href", "/download/1.torrent")] [];
           elem "a" [("href", "magnet:?xt=urn:btih:0123")] []];
        elem "td" [] [text "1.5 GiB"];
        elem "td" [("data-timestamp", "1700000000")] [];
        elem "td" [] [text "10"];
        elem "td" [] [text "2"]]) in
  snd (parseMediaElement seven)
  = Some (errors_New "unexpected layout: expected 8 nodes, got 7")
  /\ snd (parseMediaElement (newSingleSelection (elem "tr" [] [])))
     = Some (errors_New "unexpected layout: expected 4 links, got 0").
Proof.
  intros e. split.
  - erewrite (proj1 (proj2 (count_mismatch_fails e))).
    + reflexivity.
    + vm_compute. reflexivity.
    + vm_compute. lia.
  - rewrite (proj1 (count_mismatch_fails (newSingleSelection (elem "tr" [] [])))).
    + reflexivity.
    + vm_compute. lia.
Defined.

(** Two parameter sets: the parameter error and no call at all. No
    parameter set: the request for the search text and the zero value. *)
Lemma Search_parameter_sets_witness :
  @Search goquery go_units (server (mkResponse 200 "200 OK" pageBody))
    firstStep "naruto" [SearchParameters_zero; SearchParameters_zero]
  = (Returned [] (Some (errors_New "only one parameter set accepted")), [])
  /\ snd (@Search goquery go_units (server (mkResponse 200 "200 OK" pageBody))
            firstStep "naruto" [])
     = [EvGet "https://nyaa.si?c=&f=0&o=&q=naruto&s="; EvParse pageBody;
        EvClose].
Proof.
  split.
  - apply (proj1 (@Search_parameter_sets goquery go_units
                    (server (mkResponse 200 "200 OK" pageBody))
                    firstStep "naruto")).
    simpl. lia.
  - rewrite (proj2 (proj2 (proj2 (proj2 (proj2 (proj2 (proj2 (proj2
               (@Search_parameter_sets goquery go_units
                  (server (mkResponse 200 "200 OK" pageBody))
                  firstStep "naruto"))))))))
               (mkResponse 200 "200 OK" pageBody)
               (document [row "/view/1" "1.5 GiB" []])).
    + reflexivity.
    + reflexivity.
    + simpl. lia.
    + reflexivity.
Defined.

(** The answer 404 Not Found. *)
Lemma Search_non_OK_status_witness :
  @Search goquery go_units (server (mkResponse 404 "404 Not Found" ""))
    firstStep "naruto" []
  = (Returned []
       (Some (errors_Wrap
                (errors_New "non-OK HTTP status code: 404 404 Not Found")
                "error getting the nyaa page")),
     [EvGet "https://nyaa.si?c=&f=0&o=&q=naruto&s="; EvClose]).
Proof.
  assert (Hstatus : StatusCode (mkResponse 404 "404 Not Found" "") < 200
                    \/ 300 <= StatusCode (mkResponse 404 "404 Not Found" ""))
    by (right; simpl; lia).
  apply (proj1 (proj2 (@Search_non_OK_status goquery go_units
                  (server (mkResponse 404 "404 Not Found" ""))
                  firstStep "naruto" [] SearchParameters_zero
                  "https://nyaa.si?c=&f=0&o=&q=naruto&s="
                  (mkResponse 404 "404 Not Found" "")
                  eq_refl eq_refl eq_refl Hstatus))).
Defined.

End Concrete.

(** ** The aggregator in every reachable state *)

Section EverywhereProofs.
Context `{Goquery} `{Units}.

Lemma extracted_0 (rows : list Node) : extracted rows 0 = 0.
Proof. reflexivity. Qed.

Lemma extracted_S (rows : list Node) (i : nat) (n : Node) :
  rows !! i = Some n ->
  extracted rows (S i)
  = extracted rows i + (if extracts n then 1 else 0).
Proof.
  intros Hl. unfold extracted.
  rewrite (take_S_r rows i n Hl), filter_app, length_app.
  rewrite filter_cons, filter_nil.
  destruct (decide (extracts n = true)) as [-> | Hn]; simpl.
  - lia.
  - destruct (extracts n); [congruence | simpl; lia].
Qed.

Lemma extracted_le (rows : list Node) (i : nat) :
  0 <= extracted rows i <= Z.of_nat (Nat.min i (length rows)).
Proof.
  unfold extracted. split; [lia|].
  pose proof (length_filter (fun n => extracts n = true) (take i rows)) as Hf.
  rewrite length_take in Hf. lia.
Qed.

Lemma extracted_mono (rows : list Node) (i j : nat) :
  (i <= j)%nat -> extracted rows i <= extracted rows j.
Proof.
  intros Hij. induction Hij as [|j Hij IH]; [lia|].
  destruct (rows !! j) as [n|] eqn:Hl.
  - rewrite (extracted_S rows j n Hl). destruct (extracts n); lia.
  - unfold extracted in *. apply lookup_ge_None in Hl.
    rewrite (take_ge rows (S j)) by lia.
    rewrite (take_ge rows j) in IH by lia. exact IH.
Qed.

(** A row that does not extract is missing from the count for good. *)
Lemma extracted_lt (rows : list Node) (k : nat) (n : Node) :
  rows !! k = Some n -> extracts n = false ->
  extracted rows (length rows) < Z.of_nat (length rows).
Proof.
  intros Hl Hn.
  assert (Hk : (k < length rows)%nat) by (eapply lookup_lt_Some; eauto).
  pose proof (extracted_le rows k) as Hle.
  pose proof (extracted_S rows k n Hl) as HS. rewrite Hn in HS.
  assert (Hrest : extracted rows (length rows) - extracted rows (S k)
                  <= Z.of_nat (length rows) - Z.of_nat (S k)).
  { clear Hle HS Hl Hn. induction (length rows - S k)%nat as [|d IH] eqn:Hd
      in k, Hk |- *.
    - replace (S k) with (length rows) by lia. lia.
    - destruct (rows !! S k) as [n'|] eqn:Hl'.
      + assert (Hk' : (S k < length rows)%nat)
          by (eapply lookup_lt_Some; eauto).
        specialize (IH (S k) Hk' ltac:(lia)).
        rewrite (extracted_S rows (S k) n' Hl') in IH.
        destruct (extracts n'); lia.
      + apply lookup_ge_None in Hl'. lia. }
  lia.
Qed.

Lemma extracts_of_record (n : Node) (media : Media) :
  parseMediaElement (newSingleSelection n) = (media, None) ->
  extracts n = true.
Proof. unfold extracts. intros ->. reflexivity. Qed.

Lemma Safe_initial (selection : Selection) :
  Safe (Nodes selection) (initial selection).
Proof.
  unfold Safe, initial, Length; simpl.
  split; [apply length_replicate|]. split.
  - intros j media Hl. left.
    apply lookup_replicate in Hl as [-> _]. reflexivity.
  - split; [intros [|]; discriminate|]. split; reflexivity.
Qed.

Lemma fire_Safe (selection : Selection) (a : Action) (s s' : State) :
  Safe (Nodes selection) s -> fire selection a s = Some s' ->
  Safe (Nodes selection) s'.
Proof.
  destruct s as [m wt wk ms g]. unfold Safe, fire; simpl.
  intros (Hlen & Hown & Hwt & Hm & Hwk) Hf.
  destruct a.
  - (* the caller starts a goroutine *)
    destruct m; try discriminate; injection Hf as <-; simpl.
    + rewrite (Hm (or_introl eq_refl)) in *.
      repeat split; auto. intros [|]; discriminate.
    + rewrite (Hm (or_intror eq_refl)) in *.
      repeat split; auto; try lia; try (intros [|]; discriminate).
      rewrite extracted_0. lia.
  - (* the waiter leaves [group.Wait] *)
    assert (Hf' : wt = WtWait /\ g = 0
                  /\ s' = mkState m WtSend wk ms g).
    { destruct m, wt; try discriminate;
        destruct (Z.eqb_spec g 0); try discriminate;
        injection Hf as <-; auto. }
    destruct Hf' as (-> & -> & ->); simpl. repeat split; auto.
  - (* the worker moves *)
    assert (Hf' :
      match wk with
      | WkEach i =>
          match Nodes selection !! i with
          | Some n =>
              match parseMediaElement (newSingleSelection n) with
              | (_, Some err) =>
                  Some (mkState m wt
                     (WkSend i (errors_Wrap err "error parsing media element"))
                     ms g)
              | (media, None) => Some (mkState m wt (WkStore i media) ms g)
              end
          | None => Some (mkState m wt WkExit ms g)
          end
      | WkStore i media =>
          Some (mkState m wt (WkDone i) (<[i:=media]> ms) g)
      | WkDone i => Some (mkState m wt (WkEach (S i)) ms (g - 1))
      | _ => None
      end = Some s').
    { destruct m, wt, wk; exact Hf. }
    clear Hf. destruct wk as [|i|i media|i|i err|]; try discriminate.
    + destruct Hwk as (Hi & Hg).
      destruct (Nodes selection !! i) as [n|] eqn:Hl.
      * destruct (parseMediaElement (newSingleSelection n))
          as [media [err|]] eqn:HP; injection Hf' as <-; simpl;
          (split; [exact Hlen|]); (split; [exact Hown|]);
          (split; [exact Hwt|]);
          (split; [intros Hx; specialize (Hm Hx); discriminate|]);
          (split; [|exact Hg]).
        -- exists n. split; [exact Hl|]. unfold extracts. rewrite HP.
           reflexivity.
        -- exists n. auto.
      * injection Hf' as <-; simpl.
        apply lookup_ge_None in Hl.
        replace i with (length (Nodes selection)) in Hg by lia.
        repeat split; auto. intros Hx; specialize (Hm Hx); discriminate.
    + destruct Hwk as ((n & Hl & HP) & Hg).
      injection Hf' as <-; simpl.
      split; [rewrite length_insert; exact Hlen|]. split.
      { intros j media' Hj.
        destruct (decide (j = i)) as [-> | Hne].
        - rewrite list_lookup_insert_eq in Hj
            by (rewrite Hlen; eapply lookup_lt_Some; eauto).
          injection Hj as <-. right. exists n. auto.
        - rewrite list_lookup_insert_ne in Hj by congruence.
          apply (Hown j media' Hj). }
      split; [exact Hwt|].
      split; [intros Hx; specialize (Hm Hx); discriminate|].
      split; [|exact Hg].
      exists n. split; [exact Hl|]. eapply extracts_of_record; eauto.
    + destruct Hwk as ((n & Hl & Hn) & Hg).
      assert (Hlt : (i < length (Nodes selection))%nat)
        by (eapply lookup_lt_Some; eauto).
      pose proof (extracted_S _ i n Hl) as HS. rewrite Hn in HS.
      pose proof (extracted_le (Nodes selection) i) as Hle.
      injection Hf' as <-; simpl.
      split; [exact Hlen|]. split; [exact Hown|].
      split; [intros Hx; specialize (Hwt Hx); lia|].
      split; [intros Hx; specialize (Hm Hx); discriminate|].
      split; lia.
  - (* the error is received *)
    destruct m; try discriminate.
    destruct wk as [|i|i media|i|i err|]; try (destruct wt; discriminate).
    assert (Hs' : s' = mkState (MReturned [] (Some err)) wt (WkEach (S i)) ms g).
    { destruct wt; injection Hf as <-; reflexivity. }
    subst s'; simpl.
    destruct Hwk as ((n & Hl & Hn) & Hg).
    assert (Hlt : (i < length (Nodes selection))%nat)
      by (eapply lookup_lt_Some; eauto).
    pose proof (extracted_S _ i n Hl) as HS. rewrite Hn in HS.
    split; [exact Hlen|]. split; [exact Hown|]. split; [exact Hwt|].
    split; [intros [|]; discriminate|]. split; lia.
  - (* the completion is received *)
    destruct m; try discriminate. destruct wt; try discriminate.
    injection Hf as <-; simpl.
    split; [exact Hlen|]. split; [exact Hown|].
    split; [intros _; apply Hwt; auto|].
    split; [intros [|]; discriminate|]. exact Hwk.
Qed.

Lemma reachable_Safe (selection : Selection) (s : State) :
  reachable selection s -> Safe (Nodes selection) s.
Proof.
  induction 1 as [|s s' a Hr IH Hf]; [apply Safe_initial|].
  eapply fire_Safe; eauto.
Qed.

Lemma run_reachable (selection : Selection) (schedule : list Action)
  (s : State) :
  reachable selection s -> reachable selection (run selection schedule s).
Proof.
  revert s. induction schedule as [|a schedule IH]; intros s Hr; simpl;
    [exact Hr|].
  apply IH. destruct (fire selection a s) as [s'|] eqn:Hf; [|exact Hr].
  eapply reachable_step; eauto.
Qed.

(** X1: in every state the three threads can reach, also after the caller
    has returned, the slice has one slot for each row, the counter of the
    wait group lies between 0 and the number of rows, a store is at an
    index inside the slice, [group.Done] is called on a positive counter,
    and every slot holds the zero value or the record of its own row. *)
Theorem aggregator_stays_in_bounds (doc : Selection) (s : State) :
  let selection := Find doc ".torrent-list tbody tr" in
  reachable selection s ->
  length (medias s) = Length selection
  /\ 0 <= group s <= Z.of_nat (Length selection)
  /\ (forall i media, worker s = WkStore i media ->
        (i < length (medias s))%nat)
  /\ (forall i, worker s = WkDone i -> 0 < group s)
  /\ own_slots (Nodes selection) (medias s).
Proof.
  intros selection Hr. apply reachable_Safe in Hr.
  destruct s as [m wt wk ms g]. unfold Safe in Hr; simpl in *.
  destruct Hr as (Hlen & Hown & Hwt & Hm & Hwk).
  unfold Length. split; [exact Hlen|].
  assert (Hle := fun i => extracted_le (Nodes selection) i).
  split; [|split; [|split; [|exact Hown]]].
  - destruct wk as [|i|i media|i|i err|].
    + lia.
    + destruct Hwk as (Hi & ->). specialize (Hle i). lia.
    + destruct Hwk as ((n & Hl & _) & ->). apply lookup_lt_Some in Hl.
      specialize (Hle i). lia.
    + destruct Hwk as ((n & Hl & _) & ->). apply lookup_lt_Some in Hl.
      specialize (Hle i). lia.
    + destruct Hwk as ((n & Hl & _) & ->). apply lookup_lt_Some in Hl.
      specialize (Hle i). lia.
    + rewrite Hwk. specialize (Hle (length (Nodes selection))). lia.
  - intros i media ->. destruct Hwk as ((n & Hl & _) & _).
    apply lookup_lt_Some in Hl. lia.
  - intros i ->. destruct Hwk as ((n & Hl & _) & ->).
    apply lookup_lt_Some in Hl. specialize (Hle i). lia.
Qed.

Lemma malformed_row_keeps_group_positive (selection : Selection)
  (k : nat) (n : Node) (s : State) :
  Nodes selection !! k = Some n ->
  snd (parseMediaElement (newSingleSelection n)) <> None ->
  reachable selection s -> 0 < group s.
Proof.
  intros Hl Hn Hr. apply reachable_Safe in Hr.
  assert (Hbad : extracts n = false).
  { unfold extracts.
    destruct (snd (parseMediaElement (newSingleSelection n)));
      [reflexivity | congruence]. }
  pose proof (extracted_lt _ k n Hl Hbad) as Hlt.
  assert (Hmono := fun i (Hi : (i <= length (Nodes selection))%nat) =>
            extracted_mono (Nodes selection) i _ Hi).
  destruct s as [m wt wk ms g]. unfold Safe in Hr; simpl in *.
  destruct Hr as (_ & _ & _ & _ & Hwk).
  destruct wk as [|i|i media|i|i err|].
  - apply lookup_lt_Some in Hl. lia.
  - destruct Hwk as (Hi & ->). specialize (Hmono i Hi). lia.
  - destruct Hwk as ((n' & Hl' & _) & ->). apply lookup_lt_Some in Hl'.
    specialize (Hmono i ltac:(lia)). lia.
  - destruct Hwk as ((n' & Hl' & _) & ->). apply lookup_lt_Some in Hl'.
    specialize (Hmono i ltac:(lia)). lia.
  - destruct Hwk as ((n' & Hl' & _) & ->). apply lookup_lt_Some in Hl'.
    specialize (Hmono i ltac:(lia)). lia.
  - rewrite Hwk. lia.
Qed.

(** X2: when some row of the document does not extract, the counter of the
    wait group stays positive in every state the threads can reach, so the
    goroutine that waits for it never gets past [group.Wait()]: it is never
    in its send and never at its end. *)
Theorem waiter_never_ends_after_a_malformed_row (doc : Selection)
  (k : nat) (n : Node) (s : State) :
  let selection := Find doc ".torrent-list tbody tr" in
  Nodes selection !! k = Some n ->
  snd (parseMediaElement (newSingleSelection n)) <> None ->
  reachable selection s ->
  0 < group s /\ (waiter s = WtUnborn \/ waiter s = WtWait).
Proof.
  intros selection Hl Hn Hr.
  pose proof (malformed_row_keeps_group_positive selection k n s Hl Hn Hr)
    as Hg.
  split; [exact Hg|].
  apply reachable_Safe in Hr. destruct Hr as (_ & _ & Hwt & _).
  destruct (waiter s); auto; specialize (Hwt ltac:(auto)); lia.
Qed.

(** X3: when the caller has returned and the worker then comes to another
    row that does not extract, it stays in its send on [errChan] for ever:
    in such a state no thread can take a step any more, the error is never
    received and the two goroutines never end. *)
Theorem second_error_is_never_received (doc : Selection) (s : State)
  (ms : list Media) (err : option error) (i : nat) (e : error) :
  let selection := Find doc ".torrent-list tbody tr" in
  reachable selection s ->
  main s = MReturned ms err -> worker s = WkSend i e ->
  (forall a, fire selection a s = None)
  /\ (waiter s = WtUnborn \/ waiter s = WtWait).
Proof.
  intros selection Hr Hm Hw.
  pose proof (reachable_Safe _ _ Hr) as HS.
  destruct s as [m wt wk ms' g]; simpl in *. subst m wk.
  unfold Safe in HS; simpl in HS.
  destruct HS as (_ & _ & _ & _ & (n & Hl & Hn) & _).
  assert (Hbad : snd (parseMediaElement (newSingleSelection n)) <> None).
  { unfold extracts in Hn.
    destruct (snd (parseMediaElement (newSingleSelection n)));
      [discriminate | congruence]. }
  pose proof (malformed_row_keeps_group_positive selection i n _ Hl Hbad Hr)
    as Hg. simpl in Hg.
  assert (Hwt : wt = WtUnborn \/ wt = WtWait).
  { apply reachable_Safe in Hr. destruct Hr as (_ & _ & Hwt & _).
    simpl in Hwt. destruct wt; auto; specialize (Hwt ltac:(auto)); lia. }
  split; [|exact Hwt].
  intros a. unfold fire; simpl.
  destruct Hwt as [-> | ->]; destruct a; try reflexivity.
  destruct (Z.eqb_spec g 0); [lia | reflexivity].
Qed.

End EverywhereProofs.

(** ** What a result of the page parser says about the rows *)

Section OutcomeProofs.
Context `{Goquery} `{Units}.

Lemma collect_cases (rows : list Node) :
  (collect rows
   = (map (fun n => fst (parseMediaElement (newSingleSelection n))) rows, None)
   /\ good rows (length rows))
  \/ exists k n cause,
       rows !! k = Some n
       /\ snd (parseMediaElement (newSingleSelection n)) = Some cause
       /\ good rows k
       /\ collect rows
          = ([], Some (errors_Wrap cause "error parsing media element")).
Proof.
  induction rows as [|n rows IH]; simpl.
  - left. split; [reflexivity|]. intros j n' Hj. simpl in Hj. lia.
  - destruct (parseMediaElement (newSingleSelection n)) as [media [cause|]]
      eqn:HP.
    + right. exists 0%nat, n, cause. rewrite HP. simpl.
      repeat split. intros j n' Hj. lia.
    + assert (Hn : snd (parseMediaElement (newSingleSelection n)) = None)
        by (rewrite HP; reflexivity).
      destruct IH as [(Hc & Hg) | (k & n' & cause & Hl & Hcause & Hg & Hc)].
      * left. rewrite Hc. split; [reflexivity|].
        intros j n' Hj Hl. destruct j as [|j]; simpl in Hl.
        -- injection Hl as <-. exact Hn.
        -- apply (Hg j n'); [simpl in Hj; lia | exact Hl].
      * right. exists (S k), n', cause. rewrite Hc. simpl.
        repeat split; auto.
        intros j n'' Hj Hl'. destruct j as [|j]; simpl in Hl'.
        -- injection Hl' as <-. exact Hn.
        -- apply (Hg j n''); [lia | exact Hl'].
Qed.

(** X4: under every scheduler [parseSearchPageHTML] returns. A result
    without error means that every row of the document has been extracted
    and is in the list, at its index; a result with an error carries the
    nil list, and the error is the wrapped error of a row that does not
    extract while all rows before it do. No row is left out silently. *)
Theorem parseSearchPageHTML_result_tells (choose : Scheduler)
  (doc : Selection) :
  let rows := Nodes (Find doc ".torrent-list tbody tr") in
  parseSearchPageHTML choose doc <> Blocked
  /\ (forall medias,
        parseSearchPageHTML choose doc = Returned medias None ->
        medias
        = map (fun n => fst (parseMediaElement (newSingleSelection n))) rows
        /\ forall n, n ∈ rows ->
             snd (parseMediaElement (newSingleSelection n)) = None)
  /\ (forall medias err,
        parseSearchPageHTML choose doc = Returned medias (Some err) ->
        medias = []
        /\ exists k n cause,
             rows !! k = Some n
             /\ snd (parseMediaElement (newSingleSelection n)) = Some cause
             /\ err = errors_Wrap cause "error parsing media element"
             /\ forall j n', (j < k)%nat -> rows !! j = Some n' ->
                  snd (parseMediaElement (newSingleSelection n')) = None).
Proof.
  intros rows.
  pose proof (parseSearchPageHTML_collect _ choose doc eq_refl) as Hc.
  fold rows in Hc. rewrite Hc. split; [discriminate|].
  destruct (collect_cases rows)
    as [(Hok & Hg) | (k & n & cause & Hl & Hcause & Hg & Hbad)].
  - rewrite Hok; simpl. split.
    + intros medias [= <-]. split; [reflexivity|].
      intros n Hin. apply list_elem_of_lookup_1 in Hin as (j & Hl).
      apply (Hg j n); [eapply lookup_lt_Some; eauto | exact Hl].
    + intros medias err [= _ Herr].
  - rewrite Hbad; simpl. split.
    + intros medias [= _ Herr].
    + intros medias err [= <- <-]. split; [reflexivity|].
      exists k, n, cause. auto.
Qed.

End OutcomeProofs.

(** ** The calls and the errors of the orchestrator *)

Lemma urlForParams_no_error (search : string) (parameters : SearchParameters) :
  snd (urlForParams search parameters) = None.
Proof. reflexivity. Qed.

Section SearchProofs.
Context `{Goquery} `{Units} `{HTTP}.

(** X5: [requestHTML] makes exactly one request, to the location of
    [urlForParams], before anything else; it closes the body exactly when
    the request has given a response; it parses a body only of a response
    with a status in [200, 300); and it returns the nil document with every
    error. *)
Theorem requestHTML_calls (search : string) (params : SearchParameters) :
  let URL := fst (urlForParams search params) in
  let res := requestHTML search params in
  (exists rest, snd res = EvGet URL :: rest
                /\ forall u, ~ In (EvGet u) rest)
  /\ (In EvClose (snd res) <-> snd (http_Get URL) = None)
  /\ (forall body, In (EvParse body) (snd res) ->
        body = Body (fst (http_Get URL))
        /\ 200 <= StatusCode (fst (http_Get URL)) < 300)
  /\ (snd (fst res) <> None -> fst (fst res) = nil_Document).
Proof.
  intros URL res. subst res. unfold requestHTML.
  pose proof (urlForParams_no_error search params) as Hu.
  destruct (urlForParams search params) as [URL' err]. simpl in Hu, URL.
  subst err URL.
  destruct (http_Get URL') as [rep [err|]] eqn:Hget; simpl.
  - split; [exists []; split; [reflexivity | intros u []]|].
    split; [split; [intros [Hx | []]; discriminate | discriminate]|].
    split; [intros body [Hx | []]; discriminate | reflexivity].
  - destruct ((StatusCode rep <? 200) || (300 <=? StatusCode rep)) eqn:Hc.
    + simpl. split.
      { exists [EvClose]. split; [reflexivity|].
        intros u [Hx | []]; discriminate. }
      split; [split; [reflexivity | intros _; right; left; reflexivity]|].
      split; [intros body [Hx | [Hx | []]]; discriminate | reflexivity].
    + apply orb_false_iff in Hc as [H200 H300].
      apply Z.ltb_ge in H200. apply Z.leb_gt in H300.
      destruct (NewDocumentFromReader (Body rep)) as [doc [err|]]; simpl.
      * split.
        { exists [EvParse (Body rep); EvClose]. split; [reflexivity|].
          intros u [Hx | [Hx | []]]; discriminate. }
        split; [split; [reflexivity | intros _; right; right; left;
                                      reflexivity]|].
        split; [|reflexivity].
        intros body [Hx | [Hx | [Hx | []]]]; try discriminate.
        injection Hx as <-. split; [reflexivity | lia].
      * split.
        { exists [EvParse (Body rep); EvClose]. split; [reflexivity|].
          intros u [Hx | [Hx | []]]; discriminate. }
        split; [split; [reflexivity | intros _; right; right; left;
                                      reflexivity]|].
        split; [|congruence].
        intros body [Hx | [Hx | [Hx | []]]]; try discriminate.
        injection Hx as <-. split; [reflexivity | lia].
Qed.

(** X6: [Search] returns under every scheduler, and an error never comes
    with a list: the list is nil, and the error is the parameter error, an
    error of the request stage wrapped as such, or the error of a row
    wrapped by the page parser and then by [Search]. *)
Theorem Search_error_or_list (choose : Scheduler) (search : string)
  (parameters : list SearchParameters) :
  fst (Search choose search parameters) <> Blocked
  /\ (forall medias err,
        fst (Search choose search parameters) = Returned medias (Some err) ->
        medias = []
        /\ (err = errors_New "only one parameter set accepted"
            \/ (exists cause,
                  err = errors_Wrap cause "error getting the nyaa page")
            \/ (exists cause,
                  err = errors_Wrap
                          (errors_Wrap cause "error parsing media element")
                          "error parsing html"))).
Proof.
  unfold Search.
  destruct (getOneParameterSet parameters) as [params [err|]] eqn:Hset.
  - simpl. split; [discriminate|].
    intros medias err' [= <- <-]. split; [reflexivity|]. left.
    unfold getOneParameterSet in Hset.
    destruct (1 <? length parameters)%nat; [|discriminate].
    injection Hset as _ <-. reflexivity.
  - destruct (requestHTML search params) as [[doc [err|]] trace]; simpl.
    + split; [discriminate|].
      intros medias err' [= <- <-]. split; [reflexivity|]. right. left.
      exists err. reflexivity.
    + rewrite (parseSearchPageHTML_collect _ choose doc eq_refl).
      destruct (collect_cases (Nodes (Find doc ".torrent-list tbody tr")))
        as [(-> & _) | (k & n & cause & _ & _ & _ & ->)]; simpl.
      * split; [discriminate|]. intros medias' err' [= _ Hx].
      * split; [discriminate|].
        intros medias' err' [= <- <-]. split; [reflexivity|]. right. right.
        exists cause. reflexivity.
Qed.

(** X7: with at most one parameter set, a response with a status in
    [200, 300) and a body that parses, [Search] has made the request,
    parsed the body and closed it, in this order, and its result is the
    one of reading the rows of the document one after the other: the
    records of all rows when all extract, and else the error of the first
    row that does not, wrapped twice. *)
Theorem Search_reads_the_rows (choose : Scheduler) (search : string)
  (parameters : list SearchParameters) (params : SearchParameters)
  (URL : string) (rep : Response) (doc : Selection) :
  getOneParameterSet parameters = (params, None) ->
  urlForParams search params = (URL, None) ->
  http_Get URL = (rep, None) ->
  200 <= StatusCode rep < 300 ->
  NewDocumentFromReader (Body rep) = (doc, None) ->
  let rows := Nodes (Find doc ".torrent-list tbody tr") in
  snd (Search choose search parameters)
  = [EvGet URL; EvParse (Body rep); EvClose]
  /\ ((forall n, n ∈ rows ->
         snd (parseMediaElement (newSingleSelection n)) = None) ->
      fst (Search choose search parameters)
      = Returned
          (map (fun n => fst (parseMediaElement (newSingleSelection n))) rows)
          None)
  /\ (forall k n cause,
        rows !! k = Some n ->
        snd (parseMediaElement (newSingleSelection n)) = Some cause ->
        (forall j n', (j < k)%nat -> rows !! j = Some n' ->
           snd (parseMediaElement (newSingleSelection n')) = None) ->
        fst (Search choose search parameters)
        = Returned []
            (Some (errors_Wrap
                     (errors_Wrap cause "error parsing media element")
                     "error parsing html"))).
Proof.
  intros Hset Hurl Hget Hstatus Hdoc rows.
  assert (Hreq : requestHTML search params
                 = ((doc, None), [EvGet URL; EvParse (Body rep); EvClose])).
  { unfold requestHTML. rewrite Hurl, Hget.
    destruct ((StatusCode rep <? 200) || (300 <=? StatusCode rep)) eqn:Hc.
    - apply orb_true_iff in Hc as [Hc | Hc];
        [apply Z.ltb_lt in Hc | apply Z.leb_le in Hc]; lia.
    - rewrite Hdoc. reflexivity. }
  unfold Search. rewrite Hset, Hreq.
  rewrite (parseSearchPageHTML_collect _ choose doc eq_refl). fold rows.
  split; [|split].
  - destruct (collect rows) as [medias [err|]]; reflexivity.
  - intros Hall. rewrite collect_ok; [reflexivity|].
    apply good_of_all. exact Hall.
  - intros k n cause Hl Hcause Hbefore.
    rewrite (collect_first_error rows k n cause Hl Hcause Hbefore).
    reflexivity.
Qed.

(** X8: when the request itself fails, [Search] returns that error wrapped
    by [requestHTML] and by [Search], and the request is its only call: no
    body is closed or parsed. When the body of a response with a status in
    [200, 300) does not parse, the error of the parser is wrapped in the
    same way, after the body has been closed. In both cases
    [errors.Cause] of what [Search] returns is the cause of the error of
    the library. *)
Theorem Search_request_errors (choose : Scheduler) (search : string)
  (parameters : list SearchParameters) (params : SearchParameters)
  (URL : string) :
  getOneParameterSet parameters = (params, None) ->
  urlForParams search params = (URL, None) ->
  (forall rep err,
     http_Get URL = (rep, Some err) ->
     Search choose search parameters
     = (Returned []
          (Some (errors_Wrap (errors_Wrap err "error requesting results")
                   "error getting the nyaa page")),
        [EvGet URL]))
  /\ (forall rep doc err,
        http_Get URL = (rep, None) ->
        200 <= StatusCode rep < 300 ->
        NewDocumentFromReader (Body rep) = (doc, Some err) ->
        Search choose search parameters
        = (Returned []
             (Some (errors_Wrap (errors_Wrap err "error parsing response html")
                      "error getting the nyaa page")),
           [EvGet URL; EvParse (Body rep); EvClose]))
  /\ (forall err stage,
        Cause (errors_Wrap (errors_Wrap err stage)
                 "error getting the nyaa page")
        = Cause err).
Proof.
  intros Hset Hurl. split; [|split].
  - intros rep err Hget.
    unfold Search, requestHTML. rewrite Hset, Hurl, Hget. reflexivity.
  - intros rep doc err Hget Hstatus Hdoc.
    unfold Search, requestHTML. rewrite Hset, Hurl, Hget.
    destruct ((StatusCode rep <? 200) || (300 <=? StatusCode rep)) eqn:Hc.
    + apply orb_true_iff in Hc as [Hc | Hc];
        [apply Z.ltb_lt in Hc | apply Z.leb_le in Hc]; lia.
    + rewrite Hdoc. reflexivity.
  - reflexivity.
Qed.

End SearchProofs.

(** ** What the row extractor reads *)

(** X9: [getAttributeValueByKey] finds a key exactly when an attribute of
    the node has it, and then gives the value of the first such attribute;
    when no attribute has the key it gives the empty string and false. *)
Theorem getAttributeValueByKey_first (node : Node) (key : string) :
  (forall v,
     getAttributeValueByKey node key = (v, true) <->
     exists before a after,
       Attr node = (before ++ a :: after)%list
       /\ Key a = key /\ Val a = v
       /\ Forall (fun b => Key b <> key) before)
  /\ (forall v,
        getAttributeValueByKey node key = (v, false) <->
        v = "" /\ Forall (fun b => Key b <> key) (Attr node)).
Proof.
  unfold getAttributeValueByKey.
  induction (Attr node) as [|a attrs [IHt IHf]]; simpl.
  - split; intros v; split.
    + discriminate.
    + intros (before & a & after & Heq & _). destruct before; discriminate.
    + intros [= <-]. split; [reflexivity | constructor].
    + intros (-> & _). reflexivity.
  - destruct (String.eqb_spec (Key a) key) as [Hk | Hk].
    + split; intros v; split.
      * intros [= <-]. exists [], a, attrs. repeat split; auto.
      * intros (before & b & after & Heq & Hb & Hv & Hbefore).
        destruct before as [|b0 before]; simpl in Heq.
        -- injection Heq as <- <-. rewrite Hv. reflexivity.
        -- injection Heq as <- _. apply Forall_cons in Hbefore as [Hne _].
           contradiction.
      * discriminate.
      * intros (_ & Hall). apply Forall_cons in Hall as [Hne _].
        contradiction.
    + split; intros v; split.
      * intros Hg. apply IHt in Hg
          as (before & b & after & -> & Hb & Hv & Hbefore).
        exists (a :: before), b, after. repeat split; auto.
      * intros (before & b & after & Heq & Hb & Hv & Hbefore).
        destruct before as [|b0 before]; simpl in Heq.
        -- injection Heq as <- _. contradiction.
        -- injection Heq as <- ->. apply Forall_cons in Hbefore as [_ Hrest].
           apply IHt. exists before, b, after. auto.
      * intros Hg. apply IHf in Hg as (-> & Hall). split; auto.
      * intros (-> & Hall). apply Forall_cons in Hall as [_ Hrest].
        apply IHf. auto.
Qed.

Section RecordProofs.
Context `{Goquery} `{Units}.

(** X10: a row that is extracted has exactly four qualifying links and
    eight cells, and every field of its record is read from them: the
    category and the ID from the addresses of the first two links without
    their prefixes, the name from the title of the second link, the
    torrent and magnet addresses from the third and fourth link as they
    are, the size and the three counts from the first text children of the
    cells 4, 6, 7 and 8, converted to unsigned integers, and the date from
    the timestamp of cell 5. *)
Theorem parseMediaElement_record (elem : Selection) (media : Media) :
  parseMediaElement elem = (media, None) ->
  exists link0 link1 link2 link3 n0 n1 n2 node3 node4 node5 node6 node7
         href0 href1 id text3 size text5 seeders text6 leechers text7
         downloads timestamp timestampInt,
    Nodes (Find elem "td a:not(.comments)") = [link0; link1; link2; link3]
    /\ Nodes (Find elem "td")
       = [n0; n1; n2; node3; node4; node5; node6; node7]
    /\ getAttributeValueByKey link0 "href" = (href0, true)
    /\ getAttributeValueByKey link1 "href" = (href1, true)
    /\ strconv.Atoi (TrimPrefix href1 "/view/") = (id, None)
    /\ getAttributeValueByKey link1 "title" = (Name media, true)
    /\ getAttributeValueByKey link2 "href" = (Torrent media, true)
    /\ getAttributeValueByKey link3 "href" = (Magnet media, true)
    /\ firstChildText node3 = Some text3
    /\ FromHumanSize text3 = (size, None)
    /\ firstChildText node5 = Some text5
    /\ strconv.Atoi text5 = (seeders, None)
    /\ firstChildText node6 = Some text6
    /\ strconv.Atoi text6 = (leechers, None)
    /\ firstChildText node7 = Some text7
    /\ strconv.Atoi text7 = (downloads, None)
    /\ getAttributeValueByKey node4 "data-timestamp" = (timestamp, true)
    /\ strconv.Atoi timestamp = (timestampInt, None)
    /\ MediaCategory media = TrimPrefix href0 "/?c="
    /\ ID media = id mod 2 ^ 64
    /\ Size media = size mod 2 ^ 64
    /\ Seeders media = seeders mod 2 ^ 64
    /\ Leechers media = leechers mod 2 ^ 64
    /\ Downloads media = downloads mod 2 ^ 64
    /\ Date media = mkTime timestampInt 0.
Proof.
  intros Hp.
  apply parseMediaElement_ok in Hp
    as (media1 & media2 & media3 & H1 & H2 & H3 & H4).
  apply parseMediaElementLinks_ok in H1
    as (link0 & link1 & link2 & link3 & href0 & href1 & id' & title & href2
        & href3 & Hlinks & Hh0 & Hh1 & Hid & Htitle & Hh2 & Hh3 & ->).
  pose proof H2 as H2'.
  apply parseMediaElementTexts_ok in H2'
    as (node3 & node5 & node6 & node7 & text3 & size & text5 & seeders
        & text6 & leechers & text7 & downloads & Hlen & Hn3 & Hn5 & Hn6 & Hn7
        & Ht3 & Hsize & Ht5 & Hse & Ht6 & Hle & Ht7 & Hdl & ->).
  apply parseMediaElementTimestamp_ok in H3
    as (node4 & timestamp & timestampInt & Hn4 & Hts & Hti & ->).
  unfold hrefToID in Hid.
  destruct (strconv.Atoi (TrimPrefix href1 "/view/")) as [id err] eqn:Ha.
  injection Hid as <- ->.
  destruct (Nodes (Find elem "td"))
    as [|n0 [|n1 [|n2 [|m3 [|m4 [|m5 [|m6 [|m7 [|? ?]]]]]]]]];
    try discriminate.
  simpl in Hn3, Hn4, Hn5, Hn6, Hn7.
  injection Hn3 as ->. injection Hn4 as ->. injection Hn5 as ->.
  injection Hn6 as ->. injection Hn7 as ->.
  assert (Hfields :
    Name media = title /\ Torrent media = href2 /\ Magnet media = href3
    /\ MediaCategory media = TrimPrefix href0 "/?c="
    /\ ID media = id mod 2 ^ 64 /\ Size media = size mod 2 ^ 64
    /\ Seeders media = seeders mod 2 ^ 64
    /\ Leechers media = leechers mod 2 ^ 64
    /\ Downloads media = downloads mod 2 ^ 64
    /\ Date media = mkTime timestampInt 0).
  { apply parseMediaElementCommentCount_ok in H4
      as [(_ & ->) | (? & ? & ? & _ & _ & _ & _ & ->)];
      repeat split. }
  destruct Hfields as (HN & HT & HM & HC & HI & HS & HSe & HL & HD & HDa).
  rewrite HN, HT, HM.
  exists link0, link1, link2, link3, n0, n1, n2, node3, node4, node5, node6,
    node7, href0, href1, id, text3, size, text5, seeders, text6, leechers,
    text7, downloads, timestamp, timestampInt.
  repeat (split; [assumption || reflexivity|]). assumption.
Qed.

(** X11: the timestamp step, which reads [nodes[4]] without a check of
    its own, is reached only when the cell step has found eight cells, so
    the index is in range and the extraction of a row never panics. *)
Theorem timestamp_cell_is_in_range (elem : Selection) :
  (forall media1 media2,
     parseMediaElementLinks (Nodes (Find elem "td a:not(.comments)"))
       Media_zero = (media1, None) ->
     parseMediaElementTexts (Nodes (Find elem "td")) media1
     = (media2, None) ->
     exists node4, Nodes (Find elem "td") !! 4%nat = Some node4)
  /\ snd (parseMediaElement elem) <> Some index_out_of_range.
Proof.
  split; [|apply parseMediaElement_no_panic].
  intros media1 media2 _ H2.
  apply parseMediaElementTexts_ok in H2
    as (? & ? & ? & ? & ? & ? & ? & ? & ? & ? & ? & ? & Hlen & _).
  apply lookup_lt_is_Some_2. lia.
Qed.

End RecordProofs.

(** ** The query of the location decodes to what was put in *)

Lemma QueryEscape_bytes (s : string) :
  forallb queryByte (list_ascii_of_string (url.QueryEscape s)) = true.
Proof.
  unfold url.QueryEscape.
  induction s as [|c s IH]; [reflexivity|].
  destruct c as [[|] [|] [|] [|] [|] [|] [|] [|]];
    simpl; rewrite IH; reflexivity.
Qed.

Lemma QueryUnescape_QueryEscape (s : string) :
  url.QueryUnescape (url.QueryEscape s) = Some s.
Proof.
  unfold url.QueryEscape.
  induction s as [|c s IH]; [reflexivity|].
  destruct c as [[|] [|] [|] [|] [|] [|] [|] [|]];
    simpl; rewrite IH; reflexivity.
Qed.

Lemma mem_ascii_append (sep : ascii) (a b : string) :
  url.mem_ascii sep (a ++ b) = url.mem_ascii sep a || url.mem_ascii sep b.
Proof.
  unfold url.mem_ascii. induction a as [|c a IH]; simpl; [reflexivity|].
  rewrite IH. apply orb_assoc.
Qed.

Lemma mem_ascii_QueryEscape (sep : ascii) (s : string) :
  queryByte sep = false -> url.mem_ascii sep (url.QueryEscape s) = false.
Proof.
  intros Hsep. pose proof (QueryEscape_bytes s) as Hb.
  unfold url.mem_ascii.
  induction (list_ascii_of_string (url.QueryEscape s)) as [|c l IH];
    [reflexivity|].
  simpl in *. apply andb_true_iff in Hb as [Hc Hl].
  rewrite (IH Hl), orb_false_r.
  destruct (Ascii.eqb_spec sep c) as [-> | _]; [congruence | reflexivity].
Qed.

Lemma Cut_absent (sep : ascii) (a : string) :
  url.mem_ascii sep a = false -> url.Cut a sep = (a, "", false).
Proof.
  unfold url.mem_ascii. induction a as [|c a IH]; simpl; [reflexivity|].
  intros Hm. apply orb_false_iff in Hm as [Hc Ha].
  rewrite Ascii.eqb_sym, Hc, (IH Ha). reflexivity.
Qed.

Lemma Cut_append (sep : ascii) (a b : string) :
  url.mem_ascii sep a = false ->
  url.Cut (a ++ String sep b) sep = (a, b, true).
Proof.
  unfold url.mem_ascii. induction a as [|c a IH]; simpl.
  - intros _. rewrite Ascii.eqb_refl. reflexivity.
  - intros Hm. apply orb_false_iff in Hm as [Hc Ha].
    rewrite Ascii.eqb_sym, Hc, (IH Ha). reflexivity.
Qed.

Lemma parseQuery_S (fuel : nat) (query : string) (vs : url.Values) :
  query <> "" ->
  url.parseQuery (S fuel) query vs
  = let '(kv, query', _) := url.Cut query "&" in
    if url.mem_ascii ";" kv || String.eqb kv "" then
      url.parseQuery fuel query' vs
    else
      let '(key, value, _) := url.Cut kv "=" in
      match url.QueryUnescape key, url.QueryUnescape value with
      | Some k, Some x => url.parseQuery fuel query' (url.Add vs k x)
      | _, _ => url.parseQuery fuel query' vs
      end.
Proof. destruct query; [congruence | reflexivity]. Qed.

(** One pair of the query: the key [k], its escaped value and what
    follows. *)
Lemma parseQuery_pair (fuel : nat) (k v rest : string) (vs : url.Values) :
  url.mem_ascii "&" k = false -> url.mem_ascii ";" k = false ->
  url.mem_ascii "=" k = false -> k <> "" ->
  url.QueryUnescape k = Some k ->
  url.parseQuery (S fuel) (k ++ "=" ++ url.QueryEscape v ++ String "&" rest) vs
  = url.parseQuery fuel rest (url.Add vs k v).
Proof.
  intros Hamp Hsemi Heq Hk Hun.
  assert (Hcut : url.Cut (k ++ "=" ++ url.QueryEscape v ++ String "&" rest) "&"
                 = (k ++ "=" ++ url.QueryEscape v, rest, true)).
  { replace (k ++ "=" ++ url.QueryEscape v ++ String "&" rest)
      with ((k ++ "=" ++ url.QueryEscape v) ++ String "&" rest)
      by (rewrite !append_assoc; reflexivity).
    apply Cut_append.
    rewrite !mem_ascii_append, Hamp, mem_ascii_QueryEscape by reflexivity.
    reflexivity. }
  rewrite parseQuery_S by (destruct k; [congruence | discriminate]).
  rewrite Hcut.
  assert (Hsemi' : url.mem_ascii ";" (k ++ "=" ++ url.QueryEscape v) = false).
  { rewrite !mem_ascii_append, Hsemi, mem_ascii_QueryEscape by reflexivity.
    reflexivity. }
  assert (Hne : String.eqb (k ++ "=" ++ url.QueryEscape v) "" = false).
  { destruct k; [congruence | reflexivity]. }
  rewrite Hsemi', Hne. simpl orb. cbv iota.
  change (k ++ "=" ++ url.QueryEscape v)
    with (k ++ String "=" (url.QueryEscape v)).
  rewrite (Cut_append "=" k (url.QueryEscape v) Heq).
  rewrite Hun, QueryUnescape_QueryEscape. reflexivity.
Qed.

Lemma parseQuery_last (fuel : nat) (k v : string) (vs : url.Values) :
  url.mem_ascii "&" k = false -> url.mem_ascii ";" k = false ->
  url.mem_ascii "=" k = false -> k <> "" ->
  url.QueryUnescape k = Some k ->
  url.parseQuery (S fuel) (k ++ "=" ++ url.QueryEscape v) vs
  = url.Add vs k v.
Proof.
  intros Hamp Hsemi Heq Hk Hun.
  assert (Hm : forall sep, queryByte sep = false -> url.mem_ascii sep k = false ->
               sep <> "="%char ->
               url.mem_ascii sep (k ++ "=" ++ url.QueryEscape v) = false).
  { intros sep Hq Hsep Hne.
    rewrite !mem_ascii_append, Hsep, mem_ascii_QueryEscape by exact Hq.
    unfold url.mem_ascii; simpl.
    destruct (Ascii.eqb_spec sep "="); [contradiction | reflexivity]. }
  rewrite parseQuery_S by (destruct k; [congruence | discriminate]).
  rewrite (Cut_absent "&") by (apply Hm; [reflexivity | exact Hamp | discriminate]).
  rewrite (Hm ";"%char) by (reflexivity || exact Hsemi || discriminate).
  assert (Hne : String.eqb (k ++ "=" ++ url.QueryEscape v) "" = false).
  { destruct k; [congruence | reflexivity]. }
  rewrite Hne. simpl orb. cbv iota.
  change (k ++ "=" ++ url.QueryEscape v)
    with (k ++ String "=" (url.QueryEscape v)).
  rewrite (Cut_append "=" k (url.QueryEscape v) Heq).
  rewrite Hun, QueryUnescape_QueryEscape.
  destruct fuel; reflexivity.
Qed.

Lemma length_append (a b : string) :
  String.length (a ++ b) = (String.length a + String.length b)%nat.
Proof. induction a as [|c a IH]; simpl; [reflexivity | rewrite IH; reflexivity]. Qed.

(** X12: [urlForParams] never fails, and its location is the base, a
    question mark and the five parameters in the order of their keys,
    each escaped. Parsed again, the location has the scheme and the host
    of the base, an empty path and no fragment, whatever the search text
    and the parameters are, and its query decodes to exactly the five
    values that were put in. *)
Theorem urlForParams_round_trip (search : string)
  (parameters : SearchParameters) :
  let rawQuery :=
    "c=" ++ url.QueryEscape (Category_ parameters)
    ++ "&f=" ++ url.QueryEscape (FormatInt (Filter parameters))
    ++ "&o=" ++ url.QueryEscape (SortOrder_ parameters)
    ++ "&q=" ++ url.QueryEscape search
    ++ "&s=" ++ url.QueryEscape (SortBy_ parameters) in
  urlForParams search parameters = ("https://nyaa.si?" ++ rawQuery, None)
  /\ url.Parse (fst (urlForParams search parameters))
     = (url.mkURL "https" "nyaa.si" "" rawQuery "", None)
  /\ url.Query (fst (url.Parse (fst (urlForParams search parameters))))
     = [("c", [Category_ parameters]);
        ("f", [FormatInt (Filter parameters)]);
        ("o", [SortOrder_ parameters]);
        ("q", [search]);
        ("s", [SortBy_ parameters])].
Proof.
  intros rawQuery.
  assert (Hshape : urlForParams search parameters
                   = ("https://nyaa.si?" ++ rawQuery, None))
    by apply urlForParams_shape.
  assert (Hhash : url.mem_ascii "#" rawQuery = false).
  { unfold rawQuery.
    rewrite !mem_ascii_append, !mem_ascii_QueryEscape by reflexivity.
    reflexivity. }
  assert (Hparse : url.Parse ("https://nyaa.si?" ++ rawQuery)
                   = (url.mkURL "https" "nyaa.si" "" rawQuery "", None)).
  { unfold url.Parse.
    rewrite (Cut_absent "#") by (rewrite mem_ascii_append, Hhash; reflexivity).
    reflexivity. }
  split; [exact Hshape|]. rewrite Hshape. cbn [fst].
  split; [exact Hparse|]. rewrite Hparse. cbn [fst].
  unfold url.Query. cbn [url.RawQuery].
  assert (Hlen : exists fuel, String.length rawQuery = S (S (S (S (S fuel))))).
  { unfold rawQuery. rewrite !length_append. simpl. eexists.
    rewrite !Nat.add_succ_r. reflexivity. }
  destruct Hlen as (fuel & ->).
  change rawQuery with
    ("c" ++ "=" ++ url.QueryEscape (Category_ parameters) ++ String "&"
     ("f" ++ "=" ++ url.QueryEscape (FormatInt (Filter parameters)) ++ String "&"
      ("o" ++ "=" ++ url.QueryEscape (SortOrder_ parameters) ++ String "&"
       ("q" ++ "=" ++ url.QueryEscape search ++ String "&"
        ("s" ++ "=" ++ url.QueryEscape (SortBy_ parameters)))))).
  rewrite !parseQuery_pair by (reflexivity || discriminate).
  rewrite parseQuery_last by (reflexivity || discriminate).
  reflexivity.
Qed.

(** ** From an ID to its address and back *)

Lemma digits_value_acc (d : Decimal.uint) (acc : positive) :
  Z.pos (Pos.of_uint_acc d acc) = digits_value d (Z.pos acc).
Proof.
  revert acc. induction d; intros acc; simpl; [reflexivity|..];
    rewrite IHd; f_equal; lia.
Qed.

Lemma digits_value_of_uint (d : Decimal.uint) :
  Z.of_N (Pos.of_uint d) = digits_value d 0.
Proof.
  induction d; simpl; [reflexivity | exact IHd |..];
    rewrite digits_value_acc; reflexivity.
Qed.

Lemma digits_value_ge (d : Decimal.uint) (n : Z) :
  0 <= n -> n <= digits_value d n.
Proof.
  revert n. induction d; intros n Hn; simpl; [lia|..];
    (etransitivity; [|apply IHd]; lia).
Qed.

Lemma parseDigits_string_of_uint (d : Decimal.uint) (n : Z) :
  0 <= n -> digits_value d n <= maxUint64 ->
  strconv.parseDigits (NilEmpty.string_of_uint d) n
  = (digits_value d n, None).
Proof.
  revert n. induction d; intros n Hn Hmax; [reflexivity|..];
    cbn [digits_value] in Hmax;
    match type of Hmax with
    | digits_value ?l ?n1 <= _ =>
        pose proof (digits_value_ge l n1 ltac:(lia)) as Hge
    end;
    cbn [NilEmpty.string_of_uint strconv.parseDigits];
    change (negb (isDigit _)) with false; cbv iota;
    change (maxUint64 / 10 + 1) with 1844674407370955162;
    change maxUint64 with 18446744073709551615 in *;
    (destruct (Z.leb_spec 1844674407370955162 n) as [Hcut | _]; [lia|]);
    match goal with
    | |- context [byte_of ?c - 48] =>
        let v := eval vm_compute in (byte_of c - 48) in
        change (byte_of c - 48) with v
    end;
    match goal with
    | |- context [Z.ltb ?a ?b] =>
        destruct (Z.ltb_spec a b) as [Hov | _]; [lia|]
    end;
    apply IHd; lia.
Qed.

Lemma to_uint_not_Nil (p : positive) : Pos.to_uint p <> Decimal.Nil.
Proof.
  intros Hnil. pose proof (DecimalPos.Unsigned.of_to p) as Hp.
  rewrite Hnil in Hp. discriminate.
Qed.

Lemma digits_value_to_uint (p : positive) :
  digits_value (Pos.to_uint p) 0 = Z.pos p.
Proof.
  rewrite <- digits_value_of_uint, DecimalPos.Unsigned.of_to. reflexivity.
Qed.

(** [strconv.Atoi] reads back what [strconv.FormatInt] has written. *)
Lemma Atoi_FormatInt (z : Z) :
  minInt64 <= z <= maxInt64 -> strconv.Atoi (FormatInt z) = (z, None).
Proof.
  intros Hz. unfold FormatInt, Z.to_int.
  destruct z as [|p|p]; [reflexivity|..].
  - pose proof (to_uint_not_Nil p) as Hnil.
    pose proof (digits_value_to_uint p) as Hv.
    assert (Hp : strconv.parseDigits
                   (NilEmpty.string_of_uint (Pos.to_uint p)) 0
                 = (Z.pos p, None)).
    { rewrite parseDigits_string_of_uint; rewrite ?Hv;
        unfold maxUint64, maxInt64 in *; try lia. reflexivity. }
    unfold NilZero.string_of_int, NilZero.string_of_uint.
    unfold strconv.Atoi, strconv.ParseInt, strconv.ParseUint.
    destruct (Pos.to_uint p) eqn:Hd; [congruence|..];
      cbn [NilEmpty.string_of_uint] in *;
      cbn -[strconv.parseDigits Z.pow Z.leb Z.ltb];
      rewrite Hp; cbn -[Z.pow Z.leb Z.ltb];
      (destruct (Z.leb_spec (2 ^ 63) (Z.pos p));
         [unfold maxInt64 in Hz; lia | reflexivity]).
  - pose proof (to_uint_not_Nil p) as Hnil.
    pose proof (digits_value_to_uint p) as Hv.
    assert (Hp : strconv.parseDigits
                   (NilEmpty.string_of_uint (Pos.to_uint p)) 0
                 = (Z.pos p, None)).
    { rewrite parseDigits_string_of_uint; rewrite ?Hv;
        unfold maxUint64, minInt64 in *; try lia. reflexivity. }
    unfold NilZero.string_of_int, NilZero.string_of_uint.
    unfold strconv.Atoi, strconv.ParseInt, strconv.ParseUint.
    destruct (Pos.to_uint p) eqn:Hd; [congruence|..];
      cbn [NilEmpty.string_of_uint] in *;
      cbn -[strconv.parseDigits Z.pow Z.leb Z.ltb];
      rewrite Hp; cbn -[Z.pow Z.leb Z.ltb];
      (destruct (Z.ltb_spec (2 ^ 63) (Z.pos p));
         [unfold minInt64 in Hz; lia | reflexivity]).
Qed.

Lemma TrimPrefix_append (prefix s : string) :
  TrimPrefix (prefix ++ s) prefix = s.
Proof.
  unfold TrimPrefix.
  assert (Hp : HasPrefix (prefix ++ s) prefix = true).
  { induction prefix as [|c prefix IH]; simpl.
    - destruct s; reflexivity.
    - rewrite Ascii.eqb_refl, IH. reflexivity. }
  rewrite Hp. induction prefix as [|c prefix IH]; simpl; [reflexivity|].
  apply IH. clear IH. simpl in Hp.
  rewrite Ascii.eqb_refl in Hp. exact Hp.
Qed.

(** X13: for every ID [id] in the range of [int], [hrefToID] reads the
    address /view/[id], written in decimal, back to [id] converted to
    [uint] and gives no error; this is [id] itself when it is not negative
    and [id + 2^64] when it is. [hrefToCategory] reads the address of a
    category link back to the category. *)
Theorem hrefToID_round_trip (id : Z) :
  minInt64 <= id <= maxInt64 ->
  hrefToID ("/view/" ++ FormatInt id) = (uint id, None)
  /\ (0 <= id -> uint id = id)
  /\ (id < 0 -> uint id = id + 2 ^ 64)
  /\ (forall category, hrefToCategory ("/?c=" ++ category) = category).
Proof.
  intros Hid. split; [|split; [|split]].
  - unfold hrefToID.
    rewrite TrimPrefix_append, (Atoi_FormatInt id Hid). reflexivity.
  - intros Hpos. unfold uint, maxInt64 in *. apply Z.mod_small. lia.
  - intros Hneg. unfold uint, minInt64 in *.
    rewrite <- (Z.mod_add id 1 (2 ^ 64)) by lia.
    apply Z.mod_small. lia.
  - intros category. apply TrimPrefix_append.
Qed.

(** ** The command *)

Section MainProofs.
Context `{Goquery} `{Units} `{HTTP}.

(** X14: with [http.Get] and the parser of the body taken as functions
    that return, [main] ends under every scheduler of the goroutines: it
    prints a line, or it logs an error and exits. Whatever the outcome is,
    it calls [http.Get] exactly once, as its first call, with the base
    location, the empty search and the defaults; what the client does
    inside that call is not counted. It prints a line exactly when the
    response has a status in [200, 300), its body parses and every row of
    the document extracts, and the line is the number of rows; the error it
    logs is the one [Search] returns; and when [http.Get] fails it logs the
    wrapped error and has made no other call. *)
Theorem main_prints_the_number_of_rows (choose : Scheduler) :
  let URL := "https://nyaa.si?c=&f=0&o=&q=&s=" in
  fst (main_ choose) <> Waiting
  /\ (exists rest, snd (main_ choose) = EvGet URL :: rest
                   /\ forall u, ~ In (EvGet u) rest)
  /\ (forall rep doc,
        http_Get URL = (rep, None) ->
        200 <= StatusCode rep < 300 ->
        NewDocumentFromReader (Body rep) = (doc, None) ->
        (forall n, n ∈ Nodes (Find doc ".torrent-list tbody tr") ->
           snd (parseMediaElement (newSingleSelection n)) = None) ->
        main_ choose
        = (Printed (FormatInt (Z.of_nat
             (Length (Find doc ".torrent-list tbody tr")))),
           [EvGet URL; EvParse (Body rep); EvClose]))
  /\ (forall line,
        fst (main_ choose) = Printed line ->
        exists rep doc,
          http_Get URL = (rep, None)
          /\ 200 <= StatusCode rep < 300
          /\ NewDocumentFromReader (Body rep) = (doc, None)
          /\ (forall n, n ∈ Nodes (Find doc ".torrent-list tbody tr") ->
                snd (parseMediaElement (newSingleSelection n)) = None)
          /\ line = FormatInt (Z.of_nat
                      (Length (Find doc ".torrent-list tbody tr"))))
  /\ (forall err,
        fst (main_ choose) = Fatal err ->
        fst (Search choose "" []) = Returned [] (Some err))
  /\ (forall rep err,
        http_Get URL = (rep, Some err) ->
        main_ choose
        = (Fatal (errors_Wrap (errors_Wrap err "error requesting results")
                    "error getting the nyaa page"),
           [EvGet URL])).
Proof.
  intros URL. unfold main_, Search.
  change (getOneParameterSet []) with (SearchParameters_zero, @None error).
  cbv iota. unfold requestHTML.
  change (urlForParams "" SearchParameters_zero) with (URL, @None error).
  cbv iota. split; [|split; [|split; [|split; [|split]]]].
  - destruct (http_Get URL) as [rep [err|]]; [discriminate|].
    destruct ((StatusCode rep <? 200) || (300 <=? StatusCode rep));
      [discriminate|].
    destruct (NewDocumentFromReader (Body rep)) as [doc [err|]];
      [discriminate|].
    rewrite (parseSearchPageHTML_collect _ choose doc eq_refl).
    destruct (collect _) as [medias [err|]]; discriminate.
  - destruct (http_Get URL) as [rep [err|]].
    { exists []. split; [reflexivity | intros u []]. }
    destruct ((StatusCode rep <? 200) || (300 <=? StatusCode rep)).
    { exists [EvClose]. split; [reflexivity|].
      intros u [Hx | []]; discriminate. }
    exists [EvParse (Body rep); EvClose]. split.
    + destruct (NewDocumentFromReader (Body rep)) as [doc [err|]];
        [reflexivity|].
      destruct (parseSearchPageHTML choose doc) as [medias [err|]|];
        reflexivity.
    + intros u [Hx | [Hx | []]]; discriminate.
  - intros rep doc Hget Hstatus Hdoc Hall. rewrite Hget.
    destruct ((StatusCode rep <? 200) || (300 <=? StatusCode rep)) eqn:Hc.
    { apply orb_true_iff in Hc as [Hc | Hc];
        [apply Z.ltb_lt in Hc | apply Z.leb_le in Hc]; lia. }
    rewrite Hdoc.
    rewrite (parseSearchPageHTML_collect _ choose doc eq_refl).
    rewrite collect_ok by (apply good_of_all; exact Hall).
    cbn [fst snd]. rewrite length_map. reflexivity.
  - intros line.
    destruct (http_Get URL) as [rep [err|]]; [discriminate|].
    destruct ((StatusCode rep <? 200) || (300 <=? StatusCode rep)) eqn:Hc;
      [discriminate|].
    apply orb_false_iff in Hc as [H200 H300].
    apply Z.ltb_ge in H200. apply Z.leb_gt in H300.
    destruct (NewDocumentFromReader (Body rep)) as [doc [err|]] eqn:Hdoc;
      [discriminate|].
    rewrite (parseSearchPageHTML_collect _ choose doc eq_refl).
    destruct (collect_cases (Nodes (Find doc ".torrent-list tbody tr")))
      as [(-> & Hgood) | (k & n & cause & _ & _ & _ & ->)];
      cbn [fst snd]; [|discriminate].
    intros [= <-]. exists rep, doc.
    split; [reflexivity|]. split; [lia|]. split; [exact Hdoc|]. split.
    + intros n Hin. apply list_elem_of_lookup in Hin as [j Hj].
      apply (Hgood j n); [|exact Hj].
      apply lookup_lt_Some in Hj. exact Hj.
    + rewrite length_map. reflexivity.
  - intros err.
    destruct (http_Get URL) as [rep [e|]]; [intros [= <-]; reflexivity|].
    destruct ((StatusCode rep <? 200) || (300 <=? StatusCode rep));
      [intros [= <-]; reflexivity|].
    destruct (NewDocumentFromReader (Body rep)) as [doc [e|]];
      [intros [= <-]; reflexivity|].
    destruct (parseSearchPageHTML choose doc) as [medias [e|]|];
      [intros [= <-]; reflexivity | discriminate | discriminate].
  - intros rep err Hget. rewrite Hget. reflexivity.
Qed.

End MainProofs.

(** ** A row that has all it needs is extracted *)

Section CompleteProofs.
Context `{Goquery} `{Units}.

(** X15: a row with four qualifying links that carry their addresses and
    the title, with an ID that [strconv.Atoi] reads, with eight cells of
    which the cells 4, 6, 7 and 8 start with a text that parses and cell 5
    has a timestamp that parses, is extracted, and its record is fully
    determined: the comment count is 0 without a comment element, and with
    one comment element whose last child is a text that parses it is that
    number converted to [uint]. *)
Theorem parseMediaElement_complete (elem : Selection)
  (link0 link1 link2 link3 n0 n1 n2 node3 node4 node5 node6 node7 : Node)
  (href0 href1 title href2 href3 text3 text5 text6 text7 timestamp : string)
  (id size seeders leechers downloads timestampInt : Z) :
  Nodes (Find elem "td a:not(.comments)") = [link0; link1; link2; link3] ->
  Nodes (Find elem "td") = [n0; n1; n2; node3; node4; node5; node6; node7] ->
  getAttributeValueByKey link0 "href" = (href0, true) ->
  getAttributeValueByKey link1 "href" = (href1, true) ->
  strconv.Atoi (TrimPrefix href1 "/view/") = (id, None) ->
  getAttributeValueByKey link1 "title" = (title, true) ->
  getAttributeValueByKey link2 "href" = (href2, true) ->
  getAttributeValueByKey link3 "href" = (href3, true) ->
  firstChildText node3 = Some text3 -> FromHumanSize text3 = (size, None) ->
  firstChildText node5 = Some text5 ->
  strconv.Atoi text5 = (seeders, None) ->
  firstChildText node6 = Some text6 ->
  strconv.Atoi text6 = (leechers, None) ->
  firstChildText node7 = Some text7 ->
  strconv.Atoi text7 = (downloads, None) ->
  getAttributeValueByKey node4 "data-timestamp" = (timestamp, true) ->
  strconv.Atoi timestamp = (timestampInt, None) ->
  let record commentCount :=
    mkMedia (uint id) title (TrimPrefix href0 "/?c=") href2 href3
      (uint64 size) (uint seeders) (uint leechers) (uint downloads)
      commentCount (mkTime timestampInt 0) in
  (Nodes (Find elem ".comments") = [] ->
     parseMediaElement elem = (record 0, None))
  /\ (forall node0 textChild commentCount,
        Nodes (Find elem ".comments") = [node0] ->
        LastChild node0 = Some textChild -> isTextNode textChild = true ->
        strconv.Atoi (Data textChild) = (commentCount, None) ->
        parseMediaElement elem = (record (uint commentCount), None)).
Proof.
  intros Hlinks Hnodes Hh0 Hh1 Hid Htitle Hh2 Hh3 Ht3 Hsize Ht5 Hse Ht6 Hle
    Ht7 Hdl Hts Hti record.
  assert (H3 :
    (media <- parseMediaElementLinks
                (Nodes (Find elem "td a:not(.comments)")) Media_zero ;;
     media <- parseMediaElementTexts (Nodes (Find elem "td")) media ;;
     parseMediaElementTimestamp (Nodes (Find elem "td")) media)
    = (record 0, None)).
  { rewrite Hlinks, Hnodes.
    unfold parseMediaElementLinks, hrefToID.
    rewrite Hh0, Hh1, Hid, Htitle, Hh2, Hh3. cbn [negb next_step].
    unfold parseMediaElementTexts.
    rewrite Ht3, Hsize, Ht5, Hse, Ht6, Hle, Ht7, Hdl. cbn [next_step].
    unfold parseMediaElementTimestamp. cbn [lookup list_lookup].
    rewrite Hts, Hti. reflexivity. }
  assert (Hall : parseMediaElement elem
                 = (media <- parseMediaElementCommentCount elem (record 0) ;;
                    (media, None))).
  { unfold parseMediaElement. unfold next_step in *.
    destruct (parseMediaElementLinks _ _) as [media1 [e|]];
      [discriminate|].
    destruct (parseMediaElementTexts _ _) as [media2 [e|]];
      [discriminate|].
    rewrite H3. reflexivity. }
  rewrite Hall. unfold parseMediaElementCommentCount, next_step. split.
  - intros ->. reflexivity.
  - intros node0 textChild commentCount -> -> -> ->. reflexivity.
Qed.

End CompleteProofs.

(** ** The request of a search *)

Section RequestProofs.
Context `{Goquery} `{Units} `{HTTP}.

Lemma requestHTML_trace (search : string) (params : SearchParameters) :
  exists rest,
    snd (requestHTML search params)
    = EvGet (fst (urlForParams search params)) :: rest
    /\ forall u, ~ In (EvGet u) rest.
Proof.
  unfold requestHTML.
  pose proof (urlForParams_no_error search params) as Hu.
  destruct (urlForParams search params) as [URL err]. simpl in Hu. subst err.
  cbn [fst].
  destruct (http_Get URL) as [rep [err|]].
  { exists []. split; [reflexivity | intros u []]. }
  destruct ((StatusCode rep <? 200) || (300 <=? StatusCode rep)).
  { exists [EvClose]. split; [reflexivity|].
    intros u [Hx | []]; discriminate. }
  destruct (NewDocumentFromReader (Body rep)) as [doc [err|]];
    (exists [EvParse (Body rep); EvClose]; split; [reflexivity|];
     intros u [Hx | [Hx | []]]; discriminate).
Qed.

(** X16: a call of [Search] with no parameter set or with one calls
    [http.Get] exactly once, as its first call, whatever the scheduler and
    the outcome are: with the location of [urlForParams] for the search
    text and the zero value, or for the search text and the set that was
    given. [Search] itself never calls it again; what the client does
    inside the call is not counted. *)
Theorem Search_makes_one_request (choose : Scheduler) (search : string)
  (parameters : list SearchParameters) :
  (length parameters <= 1)%nat ->
  exists rest,
    snd (Search choose search parameters)
    = EvGet (fst (urlForParams search
                    (default SearchParameters_zero (head parameters))))
        :: rest
    /\ forall u, ~ In (EvGet u) rest.
Proof.
  intros Hlen.
  assert (Hset : getOneParameterSet parameters
                 = (default SearchParameters_zero (head parameters), None)).
  { destruct parameters as [|p [|q parameters]]; simpl in Hlen;
      [reflexivity | reflexivity | lia]. }
  unfold Search. rewrite Hset.
  destruct (requestHTML_trace search
              (default SearchParameters_zero (head parameters)))
    as (rest & Htrace & Hrest).
  destruct (requestHTML search _) as [[doc [err|]] trace]; simpl in Htrace;
    subst trace.
  - exists rest. split; [reflexivity | exact Hrest].
  - exists rest. split; [|exact Hrest].
    destruct (parseSearchPageHTML choose doc) as [medias [err|]|];
      reflexivity.
Qed.

End RequestProofs.

(** ** The further properties on concrete pages *)

Section ConcreteRuns.
Import Sample.
Local Existing Instance goquery.
Local Existing Instance go_units.

(** The state after the two goroutines have been started and the worker has
    extracted and stored the first of two rows. *)
Lemma aggregator_stays_in_bounds_witness :
  let doc := document [row "/view/1" "1.5 GiB" [];
                       row "/view/2" "20 MiB" []] in
  let selection := Find doc ".torrent-list tbody tr" in
  let s := run selection [RunMain; RunMain; RunWorker; RunWorker]
             (initial selection) in
  length (medias s) = Length selection
  /\ 0 <= group s <= Z.of_nat (Length selection)
  /\ (forall i media, worker s = WkStore i media ->
        (i < length (medias s))%nat)
  /\ (forall i, worker s = WkDone i -> 0 < group s)
  /\ own_slots (Nodes selection) (medias s).
Proof.
  intros doc selection s.
  apply (aggregator_stays_in_bounds doc s).
  apply run_reachable. apply reachable_initial.
Defined.

(** A page whose second row cannot be read, after the caller has received
    the error. *)
Lemma waiter_never_ends_after_a_malformed_row_witness :
  let doc := document [row "/view/1" "1.5 GiB" [];
                       row "/view/x" "20 MiB" []] in
  let selection := Find doc ".torrent-list tbody tr" in
  let s := run selection
             [RunMain; RunMain; RunWorker; RunWorker; RunWorker; RunWorker;
              RecvErr; RunWorker; RunWaiter]
             (initial selection) in
  0 < group s /\ (waiter s = WtUnborn \/ waiter s = WtWait).
Proof.
  intros doc selection s.
  apply (waiter_never_ends_after_a_malformed_row doc 1%nat
           (row "/view/x" "20 MiB" []) s).
  - vm_compute. reflexivity.
  - vm_compute. discriminate.
  - apply run_reachable. apply reachable_initial.
Defined.

(** Two rows that cannot be read: the caller has the error of the first,
    the worker waits with the error of the second. *)
Lemma second_error_is_never_received_witness :
  let doc := document [row "/view/x" "1.5 GiB" []; shortRow] in
  let selection := Find doc ".torrent-list tbody tr" in
  let s := run selection [RunMain; RunMain; RunWorker; RecvErr; RunWorker]
             (initial selection) in
  (exists i e, worker s = WkSend i e)
  /\ (forall a, fire selection a s = None)
  /\ (waiter s = WtUnborn \/ waiter s = WtWait).
Proof.
  intros doc selection s.
  assert (Hm : main s
               = MReturned []
                   (Some (errors_Wrap
                            (errors_Wrap (NumError "Atoi" "x" ErrSyntax)
                               "error parsing ID")
                            "error parsing media element")))
    by (vm_compute; reflexivity).
  assert (Hw : worker s
               = WkSend 1
                   (errors_Wrap
                      (errors_New
                         "unexpected layout: first link does not have an href")
                      "error parsing media element"))
    by (vm_compute; reflexivity).
  split; [eauto|].
  apply (second_error_is_never_received doc s _ _ _ _
           (run_reachable _ _ _ (reachable_initial _)) Hm Hw).
Defined.

(** A page of one row from the sample server. *)
Lemma Search_reads_the_rows_witness :
  snd (@Search goquery go_units (server (mkResponse 200 "200 OK" pageBody))
         lastStep "naruto" [])
  = [EvGet "https://nyaa.si?c=&f=0&o=&q=naruto&s=";
     EvParse pageBody; EvClose].
Proof.
  assert (Hstatus : 200 <= StatusCode (mkResponse 200 "200 OK" pageBody) < 300)
    by (simpl; lia).
  apply (proj1 (@Search_reads_the_rows goquery go_units
                  (server (mkResponse 200 "200 OK" pageBody))
                  lastStep "naruto" [] SearchParameters_zero
                  "https://nyaa.si?c=&f=0&o=&q=naruto&s="
                  (mkResponse 200 "200 OK" pageBody)
                  (document [row "/view/1" "1.5 GiB" []])
                  eq_refl eq_refl eq_refl Hstatus eq_refl)).
Defined.

(** A server that cannot be reached. *)
Lemma Search_request_errors_witness :
  let refused : HTTP :=
    {| http_Get := fun _ =>
         (mkResponse 0 "" "",
          Some (errors_New "dial tcp: connection refused")) |} in
  @Search goquery go_units refused firstStep "naruto" []
  = (Returned []
       (Some (errors_Wrap
                (errors_Wrap (errors_New "dial tcp: connection refused")
                   "error requesting results")
                "error getting the nyaa page")),
     [EvGet "https://nyaa.si?c=&f=0&o=&q=naruto&s="]).
Proof.
  intros refused.
  apply (proj1 (@Search_request_errors goquery go_units refused firstStep
                  "naruto" [] SearchParameters_zero
                  "https://nyaa.si?c=&f=0&o=&q=naruto&s=" eq_refl eq_refl)
           (mkResponse 0 "" "")).
  reflexivity.
Defined.

(** The record of a row of the sample page. *)
Lemma parseMediaElement_record_witness :
  let elem := newSingleSelection
                (row "/view/5138" "20 MiB" [commentsLink "3"]) in
  exists media href0 id,
    parseMediaElement elem = (media, None)
    /\ MediaCategory media = TrimPrefix href0 "/?c="
    /\ ID media = id mod 2 ^ 64.
Proof.
  intros elem.
  assert (Hp : parseMediaElement elem
               = (mkMedia 5138 "Some title" "1_2" "/download/1.torrent"
                    "magnet:?xt=urn:btih:0123" 20000000 10 2 345 3
                    (mkTime 1700000000 0), None))
    by (vm_compute; reflexivity).
  destruct (parseMediaElement_record elem _ Hp)
    as (? & ? & ? & ? & ? & ? & ? & ? & ? & ? & ? & ? & href0 & ? & id & ?
        & ? & ? & ? & ? & ? & ? & ? & ? & ? & H).
  destruct H as (_ & _ & _ & _ & _ & _ & _ & _ & _ & _ & _ & _ & _ & _ & _
                 & _ & _ & _ & HC & HI & _).
  eexists _, href0, id. split; [exact Hp|]. split; [exact HC | exact HI].
Defined.

Lemma hrefToID_round_trip_witness :
  hrefToID "/view/5138" = (5138, None)
  /\ hrefToID "/view/-1" = (2 ^ 64 - 1, None).
Proof.
  assert (H1 : minInt64 <= 5138 <= maxInt64) by (vm_compute; split; discriminate).
  assert (H2 : minInt64 <= -1 <= maxInt64) by (vm_compute; split; discriminate).
  split.
  - exact (proj1 (hrefToID_round_trip 5138 H1)).
  - exact (proj1 (hrefToID_round_trip (-1) H2)).
Defined.

(** A row of the sample page with one comment link. *)
Lemma parseMediaElement_complete_witness :
  parseMediaElement
    (newSingleSelection (row "/view/5138" "20 MiB" [commentsLink "3"]))
  = (mkMedia 5138 "Some title" "1_2" "/download/1.torrent"
       "magnet:?xt=urn:btih:0123" 20000000 10 2 345 3
       (mkTime 1700000000 0), None).
Proof.
  pose (elem' := newSingleSelection
                   (row "/view/5138" "20 MiB" [commentsLink "3"])).
  assert (Hlinks : exists l0 l1 l2 l3,
            Nodes (Find elem' "td a:not(.comments)") = [l0; l1; l2; l3])
    by (vm_compute; do 4 eexists; reflexivity).
  destruct Hlinks as (l0 & l1 & l2 & l3 & Hlinks).
  pose proof Hlinks as Hl. vm_compute in Hl.
  injection Hl as <- <- <- <-.
  assert (Hnodes : exists n0 n1 n2 n3 n4 n5 n6 n7,
            Nodes (Find elem' "td") = [n0; n1; n2; n3; n4; n5; n6; n7])
    by (vm_compute; do 8 eexists; reflexivity).
  destruct Hnodes as (n0 & n1 & n2 & n3 & n4 & n5 & n6 & n7 & Hnodes).
  pose proof Hnodes as Hn. vm_compute in Hn.
  injection Hn as <- <- <- <- <- <- <- <-.
  refine (proj2 (parseMediaElement_complete elem' _ _ _ _ _ _ _ _ _ _ _ _
                   "/?c=1_2" "/view/5138" "Some title" "/download/1.torrent"
                   "magnet:?xt=urn:btih:0123" "20 MiB" "10" "2" "345"
                   "1700000000" 5138 20000000 10 2 345 1700000000
                   Hlinks Hnodes _ _ _ _ _ _ _ _ _ _ _ _ _ _ _ _)
            (commentsLink "3") (text "3") 3 _ _ _ _);
    vm_compute; reflexivity.
Defined.

(** One parameter set. *)
Lemma Search_makes_one_request_witness :
  exists rest,
    snd (@Search goquery go_units (server (mkResponse 404 "404 Not Found" ""))
           firstStep "naruto" [mkSearchParameters 0 "1_2" "date" "desc" ""])
    = EvGet "https://nyaa.si?c=1_2&f=0&o=desc&q=naruto&s=date" :: rest
    /\ forall u, ~ In (EvGet u) rest.
Proof.
  apply (@Search_makes_one_request goquery go_units
           (server (mkResponse 404 "404 Not Found" "")) firstStep "naruto"
           [mkSearchParameters 0 "1_2" "date" "desc" ""]).
  simpl. lia.
Defined.

End ConcreteRuns.
